(** * Intergalactic tic-tac-toe: the rules engine and its persistence glue

    A shallow embedding of [src/game_logic.py] (class [GameLogic]), of the
    state-carrying part of [src/game_persistence.py] (class [GamePersistence])
    and of what [src/ui.py] shows of a game, followed by the properties of
    the engine stated in the specification and by further properties of the
    engine, of saved games and of the window.

    Conventions of the embedding:
    - Python integers are [Z]; [//] and [%] with a positive divisor are
      [Z.div] and [Z.modulo] (both floor).
    - Python lists are [list]; indexing [l[i]] is [py_get], which accepts the
      negative indices Python accepts and raises otherwise.  A raised
      [IndexError] is the [None] of the [option] monad.
    - Marks, players and the status are Python strings, hence [string].
    - The two active selectors are [None] or a two-element sequence.  The
      engine stores tuples; [json.load] hands back lists.  Python compares a
      list and a tuple as different, so the embedding keeps the two apart
      ([Tup] / [Lst]). *)

From Stdlib Require Import ZArith Lia Ascii.
From stdpp Require Import base option list strings.

Local Open Scope Z_scope.

(** ** Python sequences indexed by integers *)

Section PySeq.
Context {A : Type}.

(** The position [l[i]] designates, if any: [0 <= i < len(l)] counts from
    the front, [-len(l) <= i < 0] from the back. *)
Definition py_index (l : list A) (i : Z) : option nat :=
  let n := Z.of_nat (length l) in
  if bool_decide (0 ≤ i < n) then Some (Z.to_nat i)
  else if bool_decide (- n ≤ i < 0) then Some (Z.to_nat (n + i))
  else None.

Definition py_get (l : list A) (i : Z) : option A :=
  k ← py_index l i; l !! k.

Definition py_set (l : list A) (i : Z) (x : A) : option (list A) :=
  k ← py_index l i; Some (<[k:=x]> l).

End PySeq.

(** [g[r][c]] and [g[r][c] = x] on a list of lists. *)
Definition get2 {A} (g : list (list A)) (r c : Z) : option A :=
  row ← py_get g r; py_get row c.

Definition set2 {A} (g : list (list A)) (r c : Z) (x : A) : option (list (list A)) :=
  row ← py_get g r; row' ← py_set row c x; py_set g r row'.

(** [g[r][c][i][j] = x] on a grid of grids. *)
Definition set4 {A} (g : list (list (list (list A)))) (r c i j : Z) (x : A)
  : option (list (list (list (list A)))) :=
  sub ← get2 g r c; sub' ← set2 sub i j x; set2 g r c sub'.

(** [all(f(i) for i in idx)] and the loop [for i in idx: if f(i): return True]:
    both stop at the first decisive element, so an element that would raise
    after it is never evaluated. *)
Fixpoint all_gen (f : Z → option bool) (idx : list Z) : option bool :=
  match idx with
  | [] => Some true
  | i :: idx' => b ← f i; if b : bool then all_gen f idx' else Some false
  end.

Fixpoint any_gen (f : Z → option bool) (idx : list Z) : option bool :=
  match idx with
  | [] => Some false
  | i :: idx' => b ← f i; if b : bool then Some true else any_gen f idx'
  end.

(** A loop that appends to one result list, in iteration order. *)
Fixpoint for_each {A B} (f : A → option (list B)) (l : list A) : option (list B) :=
  match l with
  | [] => Some []
  | x :: l' => ys ← f x; zs ← for_each f l'; Some (ys ++ zs)
  end.

Definition range3 : list Z := [0; 1; 2].

(** [range(start, start + 3)] *)
Definition range_from3 (start : Z) : list Z := [start; start + 1; start + 2].

(** ** The game state *)

(** A two-element Python sequence: the tuple [(r, c)] or the list [[r, c]]. *)
Inductive coords : Type :=
  | Tup (r c : Z)
  | Lst (r c : Z).

Global Instance coords_eq_dec : EqDecision coords.
Proof. solve_decision. Defined.

(** [r, c = p] *)
Definition unpack (p : coords) : Z * Z :=
  match p with Tup r c => (r, c) | Lst r c => (r, c) end.

(** [p == (r, c)]: a list never equals a tuple. *)
Definition eq_tuple (p : option coords) (r c : Z) : bool :=
  match p with
  | Some (Tup r' c') => bool_decide (r' = r ∧ c' = c)
  | _ => false
  end.

Record GameLogic : Type := mkGameLogic {
  board : list (list string);
  blocks_3x3 : list (list string);
  blocks_9x9 : list (list string);
  blocks_state_3x3 : list (list (list (list string)));
  blocks_state_9x9 : list (list (list (list string)));
  current_player : string;
  active_9x9_block : option coords;
  active_3x3_block : option coords;
  status : string
}.

Definition with_board b (s : GameLogic) : GameLogic :=
  mkGameLogic b (blocks_3x3 s) (blocks_9x9 s) (blocks_state_3x3 s) (blocks_state_9x9 s)
    (current_player s) (active_9x9_block s) (active_3x3_block s) (status s).
Definition with_blocks_3x3 b (s : GameLogic) : GameLogic :=
  mkGameLogic (board s) b (blocks_9x9 s) (blocks_state_3x3 s) (blocks_state_9x9 s)
    (current_player s) (active_9x9_block s) (active_3x3_block s) (status s).
Definition with_blocks_9x9 b (s : GameLogic) : GameLogic :=
  mkGameLogic (board s) (blocks_3x3 s) b (blocks_state_3x3 s) (blocks_state_9x9 s)
    (current_player s) (active_9x9_block s) (active_3x3_block s) (status s).
Definition with_blocks_state_3x3 b (s : GameLogic) : GameLogic :=
  mkGameLogic (board s) (blocks_3x3 s) (blocks_9x9 s) b (blocks_state_9x9 s)
    (current_player s) (active_9x9_block s) (active_3x3_block s) (status s).
Definition with_blocks_state_9x9 b (s : GameLogic) : GameLogic :=
  mkGameLogic (board s) (blocks_3x3 s) (blocks_9x9 s) (blocks_state_3x3 s) b
    (current_player s) (active_9x9_block s) (active_3x3_block s) (status s).
Definition with_current_player p (s : GameLogic) : GameLogic :=
  mkGameLogic (board s) (blocks_3x3 s) (blocks_9x9 s) (blocks_state_3x3 s) (blocks_state_9x9 s)
    p (active_9x9_block s) (active_3x3_block s) (status s).
Definition with_active a9 a3 (s : GameLogic) : GameLogic :=
  mkGameLogic (board s) (blocks_3x3 s) (blocks_9x9 s) (blocks_state_3x3 s) (blocks_state_9x9 s)
    (current_player s) a9 a3 (status s).
Definition with_status st (s : GameLogic) : GameLogic :=
  mkGameLogic (board s) (blocks_3x3 s) (blocks_9x9 s) (blocks_state_3x3 s) (blocks_state_9x9 s)
    (current_player s) (active_9x9_block s) (active_3x3_block s) st.

(** [GameLogic.__init__] *)
Definition __init__ : GameLogic :=
  {| board := replicate 27 (replicate 27 "");
     blocks_3x3 := replicate 9 (replicate 9 "");
     blocks_9x9 := replicate 3 (replicate 3 "");
     blocks_state_3x3 := replicate 9 (replicate 9 (replicate 3 (replicate 3 "")));
     blocks_state_9x9 := replicate 3 (replicate 3 (replicate 3 (replicate 3 "")));
     current_player := "X";
     active_9x9_block := None;
     active_3x3_block := None;
     status := "playing" |}.

(** [GameLogic.reset_game]: runs [__init__] again on the same object. *)
Definition reset_game (s : GameLogic) : GameLogic := __init__.

(** ** Win checks *)

(** [all(cell == player for cell in row)] *)
Definition all_cells (player : string) (row : list string) : bool :=
  forallb (λ cell, bool_decide (cell = player)) row.

(** [GameLogic._check_block_3x3_win] *)
Definition _check_block_3x3_win (s : GameLogic) (block_row block_col : Z) : option bool :=
  block ← get2 (blocks_state_3x3 s) block_row block_col;
  let player := current_player s in
  if existsb (all_cells player) block then Some true else
  cols ← any_gen (λ col,
            all_gen (λ row, cell ← get2 block row col;
                            Some (bool_decide (cell = player))) range3) range3;
  if cols : bool then Some true else
  d1 ← all_gen (λ i, cell ← get2 block i i; Some (bool_decide (cell = player))) range3;
  if d1 : bool then Some true else
  d2 ← all_gen (λ i, cell ← get2 block i (2 - i); Some (bool_decide (cell = player))) range3;
  if d2 : bool then Some true else Some false.

(** [GameLogic._check_block_9x9_win] *)
Definition _check_block_9x9_win (s : GameLogic) (block_row block_col : Z) : option bool :=
  block ← get2 (blocks_state_9x9 s) block_row block_col;
  let player := current_player s in
  if existsb (all_cells player) block then Some true else
  cols ← any_gen (λ col,
            all_gen (λ row, cell ← get2 block row col;
                            Some (bool_decide (cell = player))) range3) range3;
  if cols : bool then Some true else
  d1 ← all_gen (λ i, cell ← get2 block i i; Some (bool_decide (cell = player))) range3;
  if d1 : bool then Some true else
  d2 ← all_gen (λ i, cell ← get2 block i (2 - i); Some (bool_decide (cell = player))) range3;
  if d2 : bool then Some true else Some false.

(** [GameLogic._check_game_win] *)
Definition _check_game_win (s : GameLogic) : option bool :=
  let player := current_player s in
  if existsb (all_cells player) (blocks_9x9 s) then Some true else
  cols ← any_gen (λ col,
            all_gen (λ row, cell ← get2 (blocks_9x9 s) row col;
                            Some (bool_decide (cell = player))) range3) range3;
  if cols : bool then Some true else
  d1 ← all_gen (λ i, cell ← get2 (blocks_9x9 s) i i;
                     Some (bool_decide (cell = player))) range3;
  if d1 : bool then Some true else
  d2 ← all_gen (λ i, cell ← get2 (blocks_9x9 s) i (2 - i);
                     Some (bool_decide (cell = player))) range3;
  if d2 : bool then Some true else Some false.

(** ** Valid moves *)

(** [GameLogic.get_valid_moves] *)
Definition get_valid_moves (s : GameLogic) : option (list (Z * Z)) :=
  if bool_decide (status s ≠ "playing") then Some [] else
  active_blocks_9x9 ←
    match active_9x9_block s with
    | None =>
        for_each (λ b9x9_row,
          for_each (λ b9x9_col,
            w ← get2 (blocks_9x9 s) b9x9_row b9x9_col;
            Some (if bool_decide (w = "") then [Tup b9x9_row b9x9_col] else []))
          range3) range3
    | Some p => Some [p]
    end;
  for_each (λ b9,
    let '(b9x9_row, b9x9_col) := unpack b9 in
    active_blocks_3x3 ←
      match (if eq_tuple (active_9x9_block s) b9x9_row b9x9_col
             then active_3x3_block s else None) with
      | Some p3 => Some [p3]
      | None =>
          for_each (λ b3x3_row,
            for_each (λ b3x3_col,
              let block_3x3_row_global := b9x9_row * 3 + b3x3_row in
              let block_3x3_col_global := b9x9_col * 3 + b3x3_col in
              w ← get2 (blocks_3x3 s) block_3x3_row_global block_3x3_col_global;
              Some (if bool_decide (w = "") then [Tup b3x3_row b3x3_col] else []))
            range3) range3
      end;
    for_each (λ b3,
      let '(b3x3_row, b3x3_col) := unpack b3 in
      let block_3x3_row_global := b9x9_row * 3 + b3x3_row in
      let block_3x3_col_global := b9x9_col * 3 + b3x3_col in
      let start_row := block_3x3_row_global * 3 in
      let start_col := block_3x3_col_global * 3 in
      for_each (λ row,
        for_each (λ col,
          cell ← get2 (board s) row col;
          Some (if bool_decide (cell = "") then [(row, col)] else []))
        (range_from3 start_col)) (range_from3 start_row))
    active_blocks_3x3)
  active_blocks_9x9.

(** ** Making a move *)

(** ["O" if current_player == "X" else "X"] *)
Definition other_player (p : string) : string :=
  if bool_decide (p = "X") then "O" else "X".

(** [GameLogic.make_move]: the returned boolean together with the object
    after the call. *)
Definition make_move (s : GameLogic) (row col : Z) : option (bool * GameLogic) :=
  if bool_decide (status s ≠ "playing") then Some (false, s) else
  if bool_decide (row < 0 ∨ row >= 27 ∨ col < 0 ∨ col >= 27) then Some (false, s) else
  cell ← get2 (board s) row col;
  if bool_decide (cell ≠ "") then Some (false, s) else
  let block_9x9_row := row / 9 in
  let block_9x9_col := col / 9 in
  let block_3x3_row_global := row / 3 in
  let block_3x3_col_global := col / 3 in
  let block_3x3_row_local := (row / 3) mod 3 in
  let block_3x3_col_local := (col / 3) mod 3 in
  if match active_9x9_block s with
     | Some p =>
         let '(required_9x9_row, required_9x9_col) := unpack p in
         bool_decide (block_9x9_row ≠ required_9x9_row ∨ block_9x9_col ≠ required_9x9_col)
     | None => false
     end
  then Some (false, s) else
  wrong_3x3 ←
    (if bool_decide (block_9x9_row < 3 ∧ block_9x9_col < 3) then
       w ← get2 (blocks_9x9 s) block_9x9_row block_9x9_col;
       if bool_decide (w = "") then
         match active_3x3_block s with
         | Some p =>
             let '(required_3x3_row, required_3x3_col) := unpack p in
             Some (bool_decide (block_3x3_row_local ≠ required_3x3_row
                                ∨ block_3x3_col_local ≠ required_3x3_col))
         | None => Some false
         end
       else Some false
     else Some false);
  if wrong_3x3 : bool then Some (false, s) else
  w3 ← get2 (blocks_3x3 s) block_3x3_row_global block_3x3_col_global;
  if bool_decide (w3 ≠ "") then Some (false, s) else
  (* Make the move *)
  board' ← set2 (board s) row col (current_player s);
  let s := with_board board' s in
  let local_row := row mod 3 in
  let local_col := col mod 3 in
  state_3x3 ← set4 (blocks_state_3x3 s) block_3x3_row_global block_3x3_col_global
                 local_row local_col (current_player s);
  let s := with_blocks_state_3x3 state_3x3 s in
  let switch_player (s : GameLogic) :=
    Some (true, with_current_player (other_player (current_player s)) s) in
  block_won ← _check_block_3x3_win s block_3x3_row_global block_3x3_col_global;
  if block_won : bool then
    won_3x3 ← set2 (blocks_3x3 s) block_3x3_row_global block_3x3_col_global (current_player s);
    let s := with_blocks_3x3 won_3x3 s in
    state_9x9 ← set4 (blocks_state_9x9 s) block_9x9_row block_9x9_col
                   block_3x3_row_local block_3x3_col_local (current_player s);
    let s := with_blocks_state_9x9 state_9x9 s in
    (* [inl]: the game is over and the call returns at once *)
    after_9x9 ←
      (won ← _check_block_9x9_win s block_9x9_row block_9x9_col;
       if won : bool then
         won_9x9 ← set2 (blocks_9x9 s) block_9x9_row block_9x9_col (current_player s);
         let s := with_blocks_9x9 won_9x9 s in
         game_won ← _check_game_win s;
         if game_won : bool
         then Some (inl (with_status (current_player s +:+ "_wins") s))
         else Some (inr s)
       else Some (inr s));
    match after_9x9 with
    | inl s => Some (true, s)
    | inr s =>
        let next_9x9_row := block_3x3_row_local in
        let next_9x9_col := block_3x3_col_local in
        let target_3x3_row := local_row in
        let target_3x3_col := local_col in
        next_won ← get2 (blocks_9x9 s) next_9x9_row next_9x9_col;
        if bool_decide (next_won ≠ "") then
          switch_player (with_active None None s)
        else
          let s := with_active (Some (Tup next_9x9_row next_9x9_col)) (active_3x3_block s) s in
          let global_target_3x3_row := next_9x9_row * 3 + target_3x3_row in
          let global_target_3x3_col := next_9x9_col * 3 + target_3x3_col in
          target_won ← get2 (blocks_3x3 s) global_target_3x3_row global_target_3x3_col;
          if bool_decide (target_won ≠ "") then
            switch_player (with_active (active_9x9_block s) None s)
          else
            switch_player (with_active (active_9x9_block s)
                             (Some (Tup target_3x3_row target_3x3_col)) s)
    end
  else
    let target_3x3_row := local_row in
    let target_3x3_col := local_col in
    let s := with_active (Some (Tup block_9x9_row block_9x9_col)) (active_3x3_block s) s in
    let global_target_3x3_row := block_9x9_row * 3 + target_3x3_row in
    let global_target_3x3_col := block_9x9_col * 3 + target_3x3_col in
    target_won ← get2 (blocks_3x3 s) global_target_3x3_row global_target_3x3_col;
    if bool_decide (target_won ≠ "") then
      switch_player (with_active (active_9x9_block s) None s)
    else
      switch_player (with_active (active_9x9_block s)
                       (Some (Tup target_3x3_row target_3x3_col)) s).

(** A run of [make_move] calls that all return [True]. *)
Fixpoint play (s : GameLogic) (moves : list (Z * Z)) : option GameLogic :=
  match moves with
  | [] => Some s
  | (row, col) :: moves' =>
      r ← make_move s row col;
      if r.1 : bool then play r.2 moves' else None
  end.

(** The states a game can be in: a fresh object, then any calls of
    [make_move] (accepted or not) and [reset_game]. *)
Inductive reachable : GameLogic → Prop :=
  | reachable_init : reachable __init__
  | reachable_move s row col ok s' :
      reachable s → make_move s row col = Some (ok, s') → reachable s'
  | reachable_reset s : reachable s → reachable (reset_game s).

(** ** The parts of [make_move]

    [make_move] is one long method.  For the proofs it is cut at its own
    seams: the six precondition checks, the two writes of the mark, the
    recording of a won 3x3 block, and the choice of the opponent's next
    blocks.  [make_move_split] below shows that the
    parts, put together, are [make_move] itself. *)

(** The six checks: [Some true] when all pass, [Some false] when one
    rejects the move. *)
Definition precheck (s : GameLogic) (row col : Z) : option bool :=
  if bool_decide (status s ≠ "playing") then Some false else
  if bool_decide (row < 0 ∨ row >= 27 ∨ col < 0 ∨ col >= 27) then Some false else
  cell ← get2 (board s) row col;
  if bool_decide (cell ≠ "") then Some false else
  if match active_9x9_block s with
     | Some p =>
         let '(required_9x9_row, required_9x9_col) := unpack p in
         bool_decide (row / 9 ≠ required_9x9_row ∨ col / 9 ≠ required_9x9_col)
     | None => false
     end
  then Some false else
  wrong_3x3 ←
    (if bool_decide (row / 9 < 3 ∧ col / 9 < 3) then
       w ← get2 (blocks_9x9 s) (row / 9) (col / 9);
       if bool_decide (w = "") then
         match active_3x3_block s with
         | Some p =>
             let '(required_3x3_row, required_3x3_col) := unpack p in
             Some (bool_decide ((row / 3) mod 3 ≠ required_3x3_row
                                ∨ (col / 3) mod 3 ≠ required_3x3_col))
         | None => Some false
         end
       else Some false
     else Some false);
  if wrong_3x3 : bool then Some false else
  w3 ← get2 (blocks_3x3 s) (row / 3) (col / 3);
  if bool_decide (w3 ≠ "") then Some false else Some true.

(** The mark written to the board and to the cached sub-grid. *)
Definition place (s : GameLogic) (row col : Z) : option GameLogic :=
  board' ← set2 (board s) row col (current_player s);
  let s := with_board board' s in
  state_3x3 ← set4 (blocks_state_3x3 s) (row / 3) (col / 3) (row mod 3) (col mod 3)
                 (current_player s);
  Some (with_blocks_state_3x3 state_3x3 s).

(** The winner of the 3x3 block recorded, then the 9x9 block and the game
    checked.  [inl]: the game is won and [make_move] returns at once. *)
Definition record_win (s : GameLogic) (row col : Z) : option (GameLogic + GameLogic) :=
  won_3x3 ← set2 (blocks_3x3 s) (row / 3) (col / 3) (current_player s);
  let s := with_blocks_3x3 won_3x3 s in
  state_9x9 ← set4 (blocks_state_9x9 s) (row / 9) (col / 9)
                 ((row / 3) mod 3) ((col / 3) mod 3) (current_player s);
  let s := with_blocks_state_9x9 state_9x9 s in
  won ← _check_block_9x9_win s (row / 9) (col / 9);
  if won : bool then
    won_9x9 ← set2 (blocks_9x9 s) (row / 9) (col / 9) (current_player s);
    let s := with_blocks_9x9 won_9x9 s in
    game_won ← _check_game_win s;
    if game_won : bool
    then Some (inl (with_status (current_player s +:+ "_wins") s))
    else Some (inr s)
  else Some (inr s).

(** The opponent sent to 9x9 block [(m_row, m_col)], and inside it to the
    3x3 block [(t_row, t_col)] unless that one is won; then the player is
    switched. *)
Definition redirect (s : GameLogic) (m_row m_col t_row t_col : Z) : option (bool * GameLogic) :=
  target_won ← get2 (blocks_3x3 s) (m_row * 3 + t_row) (m_col * 3 + t_col);
  Some (true,
        with_current_player (other_player (current_player s))
          (with_active (Some (Tup m_row m_col))
             (if bool_decide (target_won ≠ "") then None else Some (Tup t_row t_col)) s)).

(** What [make_move] does once the six checks have passed. *)
Definition apply_move (s : GameLogic) (row col : Z) : option (bool * GameLogic) :=
  s1 ← place s row col;
  block_won ← _check_block_3x3_win s1 (row / 3) (col / 3);
  if block_won : bool then
    r ← record_win s1 row col;
    match r with
    | inl s2 => Some (true, s2)
    | inr s2 =>
        next_won ← get2 (blocks_9x9 s2) ((row / 3) mod 3) ((col / 3) mod 3);
        if bool_decide (next_won ≠ "") then
          Some (true, with_current_player (other_player (current_player s2))
                        (with_active None None s2))
        else redirect s2 ((row / 3) mod 3) ((col / 3) mod 3) (row mod 3) (col mod 3)
    end
  else redirect s1 (row / 9) (col / 9) (row mod 3) (col mod 3).

(** ** Grids and shapes *)

(** [g[r][c][i][j]] on a grid of grids. *)
Definition get4 {A} (g : list (list (list (list A)))) (r c i j : Z) : option A :=
  sub ← get2 g r c; get2 sub i j.

Definition is_grid {A} (n m : nat) (g : list (list A)) : Prop :=
  length g = n ∧ Forall (λ row, length row = m) g.

Global Instance is_grid_dec {A} n m (g : list (list A)) : Decision (is_grid n m g).
Proof. unfold is_grid. apply _. Defined.

(** The dimensions [__init__] gives the five grids. *)
Definition wf_shape (s : GameLogic) : Prop :=
  is_grid 27 27 (board s) ∧ is_grid 9 9 (blocks_3x3 s) ∧ is_grid 3 3 (blocks_9x9 s) ∧
  (is_grid 9 9 (blocks_state_3x3 s) ∧ Forall (Forall (is_grid 3 3)) (blocks_state_3x3 s)) ∧
  (is_grid 3 3 (blocks_state_9x9 s) ∧ Forall (Forall (is_grid 3 3)) (blocks_state_9x9 s)).

Global Instance wf_shape_dec s : Decision (wf_shape s).
Proof. unfold wf_shape. apply _. Defined.

(** ** The specification's line check *)

(** The specification's primitive: the three rows, the three columns and
    the two diagonals of a 3x3 grid, and [line_complete grid mark], true iff
    all three entries of one of them equal [mark]. *)
Definition grid_lines : list (list (Z * Z)) :=
  [ [(0, 0); (0, 1); (0, 2)]; [(1, 0); (1, 1); (1, 2)]; [(2, 0); (2, 1); (2, 2)];
    [(0, 0); (1, 0); (2, 0)]; [(0, 1); (1, 1); (2, 1)]; [(0, 2); (1, 2); (2, 2)];
    [(0, 0); (1, 1); (2, 2)]; [(0, 2); (1, 1); (2, 0)] ].

Definition line_complete (grid_3x3 : list (list string)) (mark : string) : bool :=
  existsb (λ line,
    forallb (λ p : Z * Z, bool_decide (get2 grid_3x3 p.1 p.2 = Some mark)) line)
  grid_lines.

Definition has_line (grid_3x3 : list (list string)) (mark : string) : Prop :=
  ∃ line, line ∈ grid_lines ∧ ∀ p : Z * Z, p ∈ line → get2 grid_3x3 p.1 p.2 = Some mark.

(** ** The six precondition checks of [make_move] *)

Section Checks.
Variables (s : GameLogic) (row col : Z).

Definition check1 : Prop := status s = "playing".
Definition check2 : Prop := 0 ≤ row < 27 ∧ 0 ≤ col < 27.
Definition check3 : Prop := get2 (board s) row col = Some "".
Definition check4 : Prop :=
  ∀ p, active_9x9_block s = Some p → unpack p = (row / 9, col / 9).
Definition check5 : Prop :=
  get2 (blocks_9x9 s) (row / 9) (col / 9) = Some "" →
  ∀ p, active_3x3_block s = Some p → unpack p = ((row / 3) mod 3, (col / 3) mod 3).
Definition check6 : Prop := get2 (blocks_3x3 s) (row / 3) (col / 3) = Some "".

Definition all_checks : Prop :=
  check1 ∧ check2 ∧ check3 ∧ check4 ∧ check5 ∧ check6.
End Checks.

(** ** Invariants and runs *)

Definition board_mirrored (s : GameLogic) : Prop :=
  ∀ row col, 0 ≤ row < 27 → 0 ≤ col < 27 →
    ∃ mark, get2 (board s) row col = Some mark
            ∧ get4 (blocks_state_3x3 s) (row / 3) (col / 3) (row mod 3) (col mod 3)
              = Some mark.

(** States reached from [s] by further [make_move] calls. *)
Inductive later (s : GameLogic) : GameLogic → Prop :=
  | later_refl : later s s
  | later_move s1 row col ok s2 :
      later s s1 → make_move s1 row col = Some (ok, s2) → later s s2.

(** While the game goes on, a set selector is a tuple of block indices, and
    the 3x3 block the opponent is confined to has no winner. *)
Definition selectors_ok (s : GameLogic) : Prop :=
  status s = "playing" →
  (∀ p, active_9x9_block s = Some p →
     ∃ r c, p = Tup r c ∧ 0 ≤ r < 3 ∧ 0 ≤ c < 3)
  ∧ (∀ p, active_3x3_block s = Some p →
     ∃ mr mc tr tc,
       active_9x9_block s = Some (Tup mr mc) ∧ p = Tup tr tc
       ∧ 0 ≤ tr < 3 ∧ 0 ≤ tc < 3
       ∧ get2 (blocks_3x3 s) (mr * 3 + tr) (mc * 3 + tc) = Some "").

(** ** Concrete games *)

(** A game of 66 accepted moves after which X, to move, holds two 9x9 blocks
    of a line and is one cell short of the third. *)
Definition moves_before_win : list (Z * Z) :=
  [(20, 20); (26, 26); (25, 25); (21, 21); (20, 18); (26, 20); (24, 25); (20, 23);
   (26, 25); (25, 22); (21, 23); (20, 26); (22, 23); (23, 26); (20, 19); (8, 4);
   (7, 4); (4, 4); (4, 5); (3, 7); (0, 5); (0, 7); (0, 3); (1, 1); (5, 5); (8, 7);
   (8, 3); (7, 1); (3, 5); (11, 16); (16, 14); (14, 17); (15, 15); (11, 11);
   (16, 16); (14, 14); (17, 17); (22, 19); (23, 23); (11, 9); (15, 10); (11, 13);
   (16, 12); (14, 11); (15, 11); (11, 15); (15, 9); (19, 1); (21, 3); (18, 1);
   (18, 3); (20, 1); (6, 5); (19, 16); (23, 13); (25, 13); (23, 12); (25, 10);
   (23, 14); (14, 9); (16, 13); (20, 11); (24, 15); (20, 9); (24, 9); (20, 10)].

Definition before_win : GameLogic := default __init__ (play __init__ moves_before_win).

(** A game of 26 accepted moves: X wins the middle row of 3x3 blocks of the
    central 9x9 block (1, 1) at move 21; O's move 26 wins a 3x3 block at
    local position (1, 1), which sends X to the won 9x9 block (1, 1), so
    both selectors are cleared. *)
Definition moves_free_choice : list (Z * Z) :=
  [(12, 14); (10, 16); (14, 14); (16, 17); (14, 16); (16, 12); (12, 9); (10, 10);
   (13, 14); (13, 15); (14, 11); (16, 16); (12, 16); (10, 13); (13, 16); (12, 21);
   (10, 19); (14, 21); (16, 19); (13, 21); (13, 10); (14, 3); (16, 1); (12, 3);
   (10, 1); (13, 3)].

Definition before_free_choice : GameLogic :=
  default __init__ (play __init__ (take 25 moves_free_choice)).

Definition free_choice : GameLogic :=
  default __init__ (play __init__ moves_free_choice).

(** The first 41 moves, all accepted, of a game of 42.  X wins the 9x9 block
    (1, 1) at move 35 with the 3x3 blocks of its middle column; O holds two
    3x3 blocks of its right column by then.  Move 41 clears both selectors.
    O's move 42, at (15, 16) inside the won 9x9 block, will complete the
    right column. *)
Definition moves_overwrite : list (Z * Z) :=
  [(10, 14); (13, 16); (13, 14); (14, 16); (15, 14); (9, 16); (11, 14); (16, 16);
   (12, 14); (10, 16); (14, 14); (17, 16); (16, 13); (11, 16); (7, 22); (4, 23);
   (4, 25); (4, 21); (4, 19); (4, 22); (17, 12); (25, 10); (21, 13); (19, 13);
   (23, 13); (25, 13); (22, 13); (12, 16); (10, 22); (12, 21); (10, 19); (12, 23);
   (10, 25); (12, 22); (9, 14); (1, 16); (4, 12); (4, 10); (4, 14); (4, 16);
   (4, 13)].

Definition before_overwrite : GameLogic :=
  default __init__ (play __init__ moves_overwrite).

(** The state after the first move of a game, at (0, 0). *)
Definition after_first_move : GameLogic := default __init__ (play __init__ [(0, 0)]).

(** ** Persistence *)

(** The JSON values a saved game is made of. *)
#[local] Set Warnings "-register-all".
Inductive json : Type :=
  | JNull
  | JString (s : string)
  | JNumber (n : Z)
  | JArray (items : list json).

(** What [json.dump] writes for the values of the state.  A tuple and a list
    are both written as an array. *)
Definition json_of_list {A} (f : A → json) (l : list A) : json := JArray (f <$> l).

Definition json_of_grid (g : list (list string)) : json :=
  json_of_list (json_of_list JString) g.

Definition json_of_grid4 (g : list (list (list (list string)))) : json :=
  json_of_list (json_of_list json_of_grid) g.

Definition json_of_selector (p : option coords) : json :=
  match p with
  | None => JNull
  | Some (Tup r c) => JArray [JNumber r; JNumber c]
  | Some (Lst r c) => JArray [JNumber r; JNumber c]
  end.

(** What [json.load] builds: [null] is [None], an array is a list.  [None]
    of [option]: the value is not of the kind the state holds there. *)
Definition str_of_json (j : json) : option string :=
  match j with JString s => Some s | _ => None end.

Definition list_of_json {A} (f : json → option A) (j : json) : option (list A) :=
  match j with JArray items => mapM f items | _ => None end.

Definition grid_of_json (j : json) : option (list (list string)) :=
  list_of_json (list_of_json str_of_json) j.

Definition grid4_of_json (j : json) : option (list (list (list (list string)))) :=
  list_of_json (list_of_json grid_of_json) j.

Definition selector_of_json (j : json) : option (option coords) :=
  match j with
  | JNull => Some None
  | JArray [JNumber r; JNumber c] => Some (Some (Lst r c))
  | _ => None
  end.

Module GamePersistence.

(** The dictionary [game_data], as written to and read from the file. *)
Record game_data : Type := mk_game_data {
  d_player_x_name : json;
  d_player_o_name : json;
  d_current_player : json;
  d_status : json;
  d_board : json;
  d_blocks_3x3 : json;
  d_blocks_9x9 : json;
  d_blocks_state_3x3 : json;
  d_blocks_state_9x9 : json;
  d_active_9x9_block : json;
  d_active_3x3_block : json;
  d_saved_at : json
}.

(** [GamePersistence.save_game]: the content of the file written.  The
    time stamp is an argument; the path of the file plays no part. *)
Definition save_game (game_logic : GameLogic) (player_x_name player_o_name : string)
    (now : string) : game_data :=
  {| d_player_x_name := JString player_x_name;
     d_player_o_name := JString player_o_name;
     d_current_player := JString (current_player game_logic);
     d_status := JString (status game_logic);
     d_board := json_of_grid (board game_logic);
     d_blocks_3x3 := json_of_grid (blocks_3x3 game_logic);
     d_blocks_9x9 := json_of_grid (blocks_9x9 game_logic);
     d_blocks_state_3x3 := json_of_grid4 (blocks_state_3x3 game_logic);
     d_blocks_state_9x9 := json_of_grid4 (blocks_state_9x9 game_logic);
     d_active_9x9_block := json_of_selector (active_9x9_block game_logic);
     d_active_3x3_block := json_of_selector (active_3x3_block game_logic);
     d_saved_at := JString now |}.

(** [GamePersistence.load_game]: a fresh [GameLogic] whose nine fields are
    assigned from the file, and the two names. *)
Definition load_game (d : game_data) : option (GameLogic * string * string) :=
  let game := __init__ in
  cp ← str_of_json (d_current_player d);
  let game := with_current_player cp game in
  st ← str_of_json (d_status d);
  let game := with_status st game in
  b ← grid_of_json (d_board d);
  let game := with_board b game in
  b3 ← grid_of_json (d_blocks_3x3 d);
  let game := with_blocks_3x3 b3 game in
  b9 ← grid_of_json (d_blocks_9x9 d);
  let game := with_blocks_9x9 b9 game in
  s3 ← grid4_of_json (d_blocks_state_3x3 d);
  let game := with_blocks_state_3x3 s3 game in
  s9 ← grid4_of_json (d_blocks_state_9x9 d);
  let game := with_blocks_state_9x9 s9 game in
  a9 ← selector_of_json (d_active_9x9_block d);
  let game := with_active a9 (active_3x3_block game) game in
  a3 ← selector_of_json (d_active_3x3_block d);
  let game := with_active (active_9x9_block game) a3 game in
  player_x_name ← str_of_json (d_player_x_name d);
  player_o_name ← str_of_json (d_player_o_name d);
  Some (game, player_x_name, player_o_name).

End GamePersistence.

(** What a selector is after a round trip through JSON: the same two
    numbers, in a list. *)
Definition as_list (p : option coords) : option coords :=
  match p with
  | None => None
  | Some (Tup r c) => Some (Lst r c)
  | Some (Lst r c) => Some (Lst r c)
  end.

(** ** More invariants of the engine *)

(** The second cache: inside each 9x9 block, the sub-grid of 3x3-block
    winners repeats [blocks_3x3]. *)
Definition winners_mirrored (s : GameLogic) : Prop :=
  ∀ r c, 0 ≤ r < 9 → 0 ≤ c < 9 →
    ∃ mark, get2 (blocks_3x3 s) r c = Some mark
            ∧ get4 (blocks_state_9x9 s) (r / 3) (c / 3) (r mod 3) (c mod 3)
              = Some mark.

(** A recorded winner of a 3x3 block holds a line of cells in it. *)
Definition micro_winners_have_lines (s : GameLogic) : Prop :=
  ∀ r c mark, 0 ≤ r < 9 → 0 ≤ c < 9 →
    get2 (blocks_3x3 s) r c = Some mark → mark ≠ "" →
    ∃ block, get2 (blocks_state_3x3 s) r c = Some block
             ∧ line_complete block mark = true.

(** A recorded winner of a 9x9 block holds a line of 3x3 blocks in it. *)
Definition macro_winners_have_lines (s : GameLogic) : Prop :=
  ∀ r c mark, 0 ≤ r < 3 → 0 ≤ c < 3 →
    get2 (blocks_9x9 s) r c = Some mark → mark ≠ "" →
    ∃ block, get2 (blocks_state_9x9 s) r c = Some block
             ∧ line_complete block mark = true.

(** The player to move is X or O; the status is ["playing"], or names the
    current player as the winner, who then holds a line of 9x9 blocks. *)
Definition player_and_status_ok (s : GameLogic) : Prop :=
  (current_player s = "X" ∨ current_player s = "O")
  ∧ (status s = "playing"
     ∨ (status s = current_player s +:+ "_wins"
        ∧ line_complete (blocks_9x9 s) (current_player s) = true)).

(** A set selector is a tuple of two indices below 3, and the 3x3 selector
    is only set together with the 9x9 selector. *)
Definition selectors_shaped (s : GameLogic) : Prop :=
  (∀ p, active_9x9_block s = Some p →
     ∃ r c, p = Tup r c ∧ 0 ≤ r < 3 ∧ 0 ≤ c < 3)
  ∧ (∀ p, active_3x3_block s = Some p →
     (∃ r c, p = Tup r c ∧ 0 ≤ r < 3 ∧ 0 ≤ c < 3)
     ∧ is_Some (active_9x9_block s)).

(** A line of marks in a 3x3 block makes the mark the block's recorded
    winner. *)
Definition micro_lines_recorded (s : GameLogic) : Prop :=
  ∀ r c block mark, 0 ≤ r < 9 → 0 ≤ c < 9 →
    get2 (blocks_state_3x3 s) r c = Some block → mark ≠ "" →
    line_complete block mark = true → get2 (blocks_3x3 s) r c = Some mark.

(** A line of won 3x3 blocks in a 9x9 block gives the block a recorded
    winner. *)
Definition macro_lines_recorded (s : GameLogic) : Prop :=
  ∀ r c block mark, 0 ≤ r < 3 → 0 ≤ c < 3 →
    get2 (blocks_state_9x9 s) r c = Some block → mark ≠ "" →
    line_complete block mark = true →
    ∃ winner, get2 (blocks_9x9 s) r c = Some winner ∧ winner ≠ "".

(** A line of won 9x9 blocks is the end of the game. *)
Definition game_lines_recorded (s : GameLogic) : Prop :=
  ∀ mark, mark ≠ "" → line_complete (blocks_9x9 s) mark = true →
    status s = mark +:+ "_wins".

(** The number of cells of a grid that hold [mark]. *)
Definition count_marks (mark : string) (grid : list (list string)) : nat :=
  sum_list ((λ row, length (filter (λ cell, cell = mark) row)) <$> grid).

(** X moves first and the players take turns: while the game goes on, X is
    to move when both have as many marks on the board, O when X has one
    more; after the end the winner, who moved last, is still the current
    player. *)
Definition turns_alternate (s : GameLogic) : Prop :=
  let n_x := count_marks "X" (board s) in
  let n_o := count_marks "O" (board s) in
  if bool_decide (status s = "playing")
  then (current_player s = "X" ∧ n_x = n_o) ∨ (current_player s = "O" ∧ n_x = S n_o)
  else (current_player s = "X" ∧ n_x = S n_o) ∨ (current_player s = "O" ∧ n_x = n_o).

(** The state with its selectors turned into lists: what a round trip
    through a saved game gives. *)
Definition listify (s : GameLogic) : GameLogic :=
  with_active (as_list (active_9x9_block s)) (as_list (active_3x3_block s)) s.

(** A game of 17 accepted moves that fills the central 3x3 block (4, 4)
    without a line; X's last move, at local position (1, 1) of another
    block, sends O to that full block. *)
Definition moves_stuck : list (Z * Z) :=
  [(14, 12); (16, 10); (13, 14); (13, 16); (12, 13); (10, 13); (13, 13); (12, 14);
   (10, 16); (12, 12); (10, 10); (14, 14); (16, 16); (13, 12); (13, 10); (14, 13);
   (16, 13)].

Definition stuck : GameLogic := default __init__ (play __init__ moves_stuck).

(** ** The board widget and the game panel *)

(** From [src/ui.py]: the cell buttons with the grids of frames they live
    in, what [GameBoard.update_board] does to the buttons, and the winner
    [GamePanel] reads off the status.  A widget is the record of the
    attributes and Qt properties its methods set; [setText],
    [setStyleSheet] and [setEnabled] store their argument.  The frames are
    the grids they hold; their own style sheets play no part here. *)

(** A loop whose body mutates one object, in iteration order. *)
Fixpoint for_state {A S} (body : S → A → option S) (l : list A) (self : S) : option S :=
  match l with
  | [] => Some self
  | x :: l' => self' ← body self x; for_state body l' self'
  end.

(** [range(n)] *)
Definition range (n : nat) : list Z := seqZ 0 (Z.of_nat n).

Module CellButton.

(** The style sheets the methods of a cell button set; [unstyled] is the
    button before any [setStyleSheet] call. *)
Inductive style_sheet : Type :=
  | unstyled
  | filled_x
  | filled_o
  | blank
  | active_x
  | active_o.

Global Instance style_sheet_eq_dec : EqDecision style_sheet.
Proof. solve_decision. Defined.

(** The attributes of the Python object and the three Qt properties its
    methods set ([setText], [setStyleSheet], [setEnabled]). *)
Record t : Type := mk {
  row : Z;
  col : Z;
  player : string;
  text : string;
  style : style_sheet;
  enabled : bool
}.

(** [CellButton.__init__] *)
Definition __init__ (row col : Z) : t := mk row col "" "" unstyled true.

(** [CellButton.set_player] *)
Definition set_player (self : t) (player : string) : t :=
  mk (row self) (col self) player player
    (if bool_decide (player = "X") then filled_x
     else if bool_decide (player = "O") then filled_o
     else blank)
    (bool_decide (player = "")).

(** [CellButton.highlight_active] *)
Definition highlight_active (self : t) (player : string) : t :=
  mk (row self) (col self) (CellButton.player self) (text self)
    (if bool_decide (player = "X") then active_x else active_o)
    true.

(** [CellButton.clear_highlight] *)
Definition clear_highlight (self : t) : t :=
  if bool_decide (player self = "")
  then mk (row self) (col self) (player self) (text self) blank (enabled self)
  else self.

End CellButton.

Module Block3x3Frame.

(** The frame as the grid [self.buttons]. *)
Definition t : Type := list (list CellButton.t).

(** [Block3x3Frame.__init__] *)
Definition __init__ (block_row block_col : Z) : t :=
  (λ local_row,
     (λ local_col,
        let global_row := block_row * 3 + local_row in
        let global_col := block_col * 3 + local_col in
        CellButton.__init__ global_row global_col) <$> range 3) <$> range 3.

(** [Block3x3Frame.get_button] *)
Definition get_button (self : t) (row col : Z) : option CellButton.t :=
  get2 self row col.

End Block3x3Frame.

Module Block9x9Frame.

(** The frame as the grid [self.blocks_3x3]. *)
Definition t : Type := list (list Block3x3Frame.t).

(** [Block9x9Frame.__init__] *)
Definition __init__ (block_row block_col : Z) : t :=
  (λ block_3x3_row,
     (λ block_3x3_col,
        let global_block_row := block_row * 3 + block_3x3_row in
        let global_block_col := block_col * 3 + block_3x3_col in
        Block3x3Frame.__init__ global_block_row global_block_col) <$> range 3)
  <$> range 3.

(** [Block9x9Frame.get_cell_button] *)
Definition get_cell_button (self : t) (row col : Z) : option CellButton.t :=
  let block_3x3_row := (row / 3) mod 3 in
  let block_3x3_col := (col / 3) mod 3 in
  let local_row := row mod 3 in
  let local_col := col mod 3 in
  frame ← get2 self block_3x3_row block_3x3_col;
  Block3x3Frame.get_button frame local_row local_col.

End Block9x9Frame.

Module GameBoard.

(** The widget as the grid [self.blocks_9x9]. *)
Definition t : Type := list (list Block9x9Frame.t).

(** [GameBoard.__init__] *)
Definition __init__ : t :=
  (λ block_9x9_row,
     (λ block_9x9_col, Block9x9Frame.__init__ block_9x9_row block_9x9_col)
     <$> range 3) <$> range 3.

(** [GameBoard.get_cell_button] *)
Definition get_cell_button (self : t) (row col : Z) : option CellButton.t :=
  let block_9x9_row := row / 9 in
  let block_9x9_col := col / 9 in
  let local_row := row mod 9 in
  let local_col := col mod 9 in
  frame ← get2 self block_9x9_row block_9x9_col;
  Block9x9Frame.get_cell_button frame local_row local_col.

(** The board after the button [get_cell_button] returns for [(row, col)]
    was mutated into [btn]: the same path, written. *)
Definition put_cell_button (self : t) (row col : Z) (btn : CellButton.t) : option t :=
  frame ← get2 self (row / 9) (col / 9);
  frame' ← set4 frame (((row mod 9) / 3) mod 3) (((col mod 9) / 3) mod 3)
             ((row mod 9) mod 3) ((col mod 9) mod 3) btn;
  set2 self (row / 9) (col / 9) frame'.

(** [btn = self.get_cell_button(row, col)] followed by statements that
    mutate [btn]. *)
Definition on_cell_button (self : t) (row col : Z)
    (mutate : CellButton.t → option CellButton.t) : option t :=
  btn ← get_cell_button self row col;
  btn' ← mutate btn;
  put_cell_button self row col btn'.

(** [GameBoard.update_board], up to the highlighting of the cells. *)
Definition update_board (game : GameLogic) (self : t) : option t :=
  self ←
    for_state (λ self row,
      for_state (λ self col,
        on_cell_button self row col (λ btn,
          mark ← get2 (board game) row col;
          let btn := CellButton.set_player btn mark in
          Some (CellButton.clear_highlight btn)))
      (range 27) self) (range 27) self;
  match active_3x3_block game, active_9x9_block game with
  | Some p3, Some p9 =>
      let '(block_9x9_row, block_9x9_col) := unpack p9 in
      let '(block_3x3_row, block_3x3_col) := unpack p3 in
      let block_3x3_row_global := block_9x9_row * 3 + block_3x3_row in
      let block_3x3_col_global := block_9x9_col * 3 + block_3x3_col in
      for_state (λ self local_row,
        for_state (λ self local_col,
          let global_row := block_3x3_row_global * 3 + local_row in
          let global_col := block_3x3_col_global * 3 + local_col in
          on_cell_button self global_row global_col (λ btn,
            if bool_decide (CellButton.player btn = "")
            then Some (CellButton.highlight_active btn (current_player game))
            else Some btn))
        (range 3) self) (range 3) self
  | _, Some p9 =>
      let '(block_9x9_row, block_9x9_col) := unpack p9 in
      for_state (λ self local_row,
        for_state (λ self local_col,
          let global_row := block_9x9_row * 9 + local_row in
          let global_col := block_9x9_col * 9 + local_col in
          on_cell_button self global_row global_col (λ btn,
            if bool_decide (CellButton.player btn = "") then
              let block_3x3_row := global_row / 3 in
              let block_3x3_col := global_col / 3 in
              winner ← get2 (blocks_3x3 game) block_3x3_row block_3x3_col;
              if bool_decide (winner = "")
              then Some (CellButton.highlight_active btn (current_player game))
              else Some btn
            else Some btn))
        (range 9) self) (range 9) self
  | _, None =>
      for_state (λ self row,
        for_state (λ self col,
          let block_3x3_row := row / 3 in
          let block_3x3_col := col / 3 in
          let block_9x9_row := row / 9 in
          let block_9x9_col := col / 9 in
          on_cell_button self row col (λ btn,
            if bool_decide (CellButton.player btn = "") then
              winner_3x3 ← get2 (blocks_3x3 game) block_3x3_row block_3x3_col;
              if bool_decide (winner_3x3 = "") then
                winner_9x9 ← get2 (blocks_9x9 game) block_9x9_row block_9x9_col;
                if bool_decide (winner_9x9 = "")
                then Some (CellButton.highlight_active btn (current_player game))
                else Some btn
              else Some btn
            else Some btn))
        (range 27) self) (range 27) self
  end.

End GameBoard.

Global Instance CellButton_eq_dec : EqDecision CellButton.t.
Proof. solve_decision. Defined.

(** The dimensions [GameBoard.__init__] gives the widget. *)
Definition is_frame (frame : Block9x9Frame.t) : Prop :=
  is_grid 3 3 frame ∧ Forall (Forall (is_grid 3 3)) frame.

Definition is_board (self : GameBoard.t) : Prop :=
  is_grid 3 3 self ∧ Forall (Forall is_frame) self.

Global Instance is_board_dec self : Decision (is_board self) | 50.
Proof. unfold is_board, is_frame. apply _. Defined.

(** The cells [update_board] highlights, read off its three branches. *)
Definition highlighted (game : GameLogic) (row col : Z) : Prop :=
  get2 (board game) row col = Some ""
  ∧ match active_3x3_block game, active_9x9_block game with
    | Some p3, Some p9 =>
        row / 3 = (unpack p9).1 * 3 + (unpack p3).1
        ∧ col / 3 = (unpack p9).2 * 3 + (unpack p3).2
    | _, Some p9 =>
        (row / 9 = (unpack p9).1 ∧ col / 9 = (unpack p9).2)
        ∧ get2 (blocks_3x3 game) (row / 3) (col / 3) = Some ""
    | _, None =>
        get2 (blocks_3x3 game) (row / 3) (col / 3) = Some ""
        ∧ get2 (blocks_9x9 game) (row / 9) (col / 9) = Some ""
    end.

Global Instance highlighted_dec game row col :
  Decision (highlighted game row col) | 50.
Proof.
  unfold highlighted.
  destruct (active_3x3_block game), (active_9x9_block game); apply _.
Defined.

(** The selectors hold block indices, as tuples or as lists. *)
Definition selectors_in_range (game : GameLogic) : Prop :=
  (∀ p, active_9x9_block game = Some p →
     0 ≤ (unpack p).1 < 3 ∧ 0 ≤ (unpack p).2 < 3)
  ∧ (∀ p, active_3x3_block game = Some p →
       0 ≤ (unpack p).1 < 3 ∧ 0 ≤ (unpack p).2 < 3).

(** [s.split(sep)] for a separator of one character: the pieces between
    the occurrences of [sep], in order; one piece more than occurrences. *)
Fixpoint split (sep : ascii) (s : string) : list string :=
  match s with
  | EmptyString => [EmptyString]
  | String c s' =>
      if bool_decide (c = sep) then EmptyString :: split sep s'
      else match split sep s' with
           | piece :: pieces => String c piece :: pieces
           | [] => [String c EmptyString]
           end
  end.

(** [d.get(key, default)] on a dictionary given by its items. *)
Definition dict_get (d : list (string * string)) (key default : string) : string :=
  match list_find (λ item, item.1 = key) d with
  | Some (_, item) => item.2
  | None => default
  end.

Module GamePanel.

(** [self.player_names], as [GamePanel.__init__] and [_on_load_game] build
    it. *)
Definition player_names (player_x_name player_o_name : string)
    : list (string * string) :=
  [("X", player_x_name); ("O", player_o_name)].

(** The winner [update_display] and [_on_game_over] read off the status,
    and the name they show for it. *)
Definition winner (game : GameLogic) : option string :=
  py_get (split "_"%char (status game)) 0.

Definition winner_name (game : GameLogic) (player_x_name player_o_name : string)
    : option string :=
  winner ← winner game;
  Some (dict_get (player_names player_x_name player_o_name) winner winner).

End GamePanel.

(** * Properties *)

(** ** Python indexing with indices that are not negative *)

Section PySeqFacts.
Context {A : Type}.
Implicit Types (l : list A) (g : list (list A)).

Lemma py_get_nonneg l i : 0 ≤ i → py_get l i = l !! Z.to_nat i.
Proof.
  intros Hi. unfold py_get, py_index. cbn zeta.
  case_bool_decide as H1; simpl; [done|].
  case_bool_decide as H2; simpl; [lia|].
  symmetry. apply lookup_ge_None_2. lia.
Qed.

Lemma py_set_Some l i x l' :
  0 ≤ i → py_set l i x = Some l' →
  l' = <[Z.to_nat i:=x]> l ∧ (Z.to_nat i < length l)%nat.
Proof.
  intros Hi. unfold py_set, py_index. cbn zeta.
  case_bool_decide as H1; simpl.
  - intros [= <-]. split; [done|lia].
  - case_bool_decide as H2; simpl; [lia|done].
Qed.

Lemma py_set_in_range l i x :
  0 ≤ i < Z.of_nat (length l) → py_set l i x = Some (<[Z.to_nat i:=x]> l).
Proof.
  intros Hi. unfold py_set, py_index. cbn zeta.
  rewrite bool_decide_true by done. done.
Qed.
End PySeqFacts.

(** One step through a chain of early returns and raising look-ups that
    has the same shape on both sides of an equation: case analysis on the
    first test or look-up of the left-hand side. *)
Ltac case_head t :=
  lazymatch t with
  | ?m ≫= _ => case_head m
  | if ?b then _ else _ => case_head b
  | Some _ => fail
  | None => fail
  | true => fail
  | false => fail
  | _ => destruct t eqn:?
  end.

(** Projections of updated records. *)
Ltac simpl_fields :=
  cbn [mbind option_bind
       board current_player blocks_state_3x3 blocks_3x3 blocks_state_9x9 blocks_9x9
       active_9x9_block active_3x3_block status
       with_board with_blocks_state_3x3 with_blocks_3x3 with_blocks_state_9x9
       with_blocks_9x9 with_active with_current_player with_status] in *.

Ltac chain_step :=
  match goal with
  | |- ?lhs = _ => case_head lhs
  end; simpl_fields; try reflexivity.

Lemma make_move_split s row col :
  make_move s row col =
  ok ← precheck s row col; if ok : bool then apply_move s row col else Some (false, s).
Proof.
  unfold make_move, precheck, apply_move, place, record_win, redirect.
  simpl_fields. repeat chain_step.
Qed.

Section GridFacts.
Context {A : Type}.
Implicit Types (g : list (list A)) (x : A).

Lemma get2_nonneg g r c :
  0 ≤ r → 0 ≤ c → get2 g r c = g !! Z.to_nat r ≫= (.!! Z.to_nat c).
Proof.
  intros Hr Hc. unfold get2. rewrite py_get_nonneg by done.
  destruct (g !! Z.to_nat r) as [row|]; simpl; [|done].
  by apply py_get_nonneg.
Qed.

Lemma set2_Some g r c x g' :
  0 ≤ r → 0 ≤ c → set2 g r c x = Some g' →
  ∃ row, g !! Z.to_nat r = Some row ∧ (Z.to_nat c < length row)%nat
         ∧ g' = <[Z.to_nat r:=<[Z.to_nat c:=x]> row]> g.
Proof.
  intros Hr Hc. unfold set2. rewrite py_get_nonneg by done.
  destruct (g !! Z.to_nat r) as [row|] eqn:Hrow; simpl; [|done].
  destruct (py_set row c x) as [row'|] eqn:Hset; simpl; [|done].
  apply py_set_Some in Hset as [-> Hlt]; [|done].
  intros Hg. apply py_set_Some in Hg as [-> _]; [|done].
  by exists row.
Qed.

Lemma get2_in_range n m g r c :
  is_grid n m g → 0 ≤ r < Z.of_nat n → 0 ≤ c < Z.of_nat m →
  ∃ x, get2 g r c = Some x.
Proof.
  intros [Hn Hm] Hr Hc. rewrite get2_nonneg by lia.
  destruct (lookup_lt_is_Some_2 g (Z.to_nat r)) as [row Hrow]; [lia|].
  rewrite Hrow. simpl.
  apply lookup_lt_is_Some_2.
  rewrite (Forall_lookup_1 _ _ _ _ Hm Hrow). lia.
Qed.

Lemma set2_in_range n m g r c x :
  is_grid n m g → 0 ≤ r < Z.of_nat n → 0 ≤ c < Z.of_nat m →
  ∃ g', set2 g r c x = Some g'.
Proof.
  intros [Hn Hm] Hr Hc. unfold set2. rewrite py_get_nonneg by lia.
  destruct (lookup_lt_is_Some_2 g (Z.to_nat r)) as [row Hrow]; [lia|].
  rewrite Hrow. simpl.
  rewrite py_set_in_range by (rewrite (Forall_lookup_1 _ _ _ _ Hm Hrow); lia).
  simpl. rewrite py_set_in_range by lia. eauto.
Qed.

Lemma set2_is_grid n m g r c x g' :
  is_grid n m g → 0 ≤ r → 0 ≤ c → set2 g r c x = Some g' → is_grid n m g'.
Proof.
  intros [Hn Hm] Hr Hc Hset.
  apply set2_Some in Hset as (row & Hrow & Hlt & ->); [|done..].
  split; [by rewrite length_insert|].
  apply Forall_insert; [done|].
  rewrite length_insert. by apply (Forall_lookup_1 _ _ _ _ Hm Hrow).
Qed.

(** Reading after a write: the written entry holds the new value, every
    other entry is as before. *)
Lemma get2_set2 g r c x g' r' c' :
  0 ≤ r → 0 ≤ c → 0 ≤ r' → 0 ≤ c' → set2 g r c x = Some g' →
  get2 g' r' c' = if bool_decide (r' = r ∧ c' = c) then Some x else get2 g r' c'.
Proof.
  intros Hr Hc Hr' Hc' Hset.
  apply set2_Some in Hset as (row & Hrow & Hlt & ->); [|done..].
  rewrite !get2_nonneg by done.
  destruct (decide (r' = r)) as [->|Hne].
  - rewrite list_lookup_insert_eq by (by eapply lookup_lt_Some).
    rewrite Hrow. simpl.
    destruct (decide (c' = c)) as [->|Hnec].
    + rewrite bool_decide_true by done. by apply list_lookup_insert_eq.
    + rewrite bool_decide_false by tauto.
      apply list_lookup_insert_ne. lia.
  - rewrite bool_decide_false by tauto.
    rewrite list_lookup_insert_ne by lia. done.
Qed.

Lemma get2_set2_eq g r c x g' :
  0 ≤ r → 0 ≤ c → set2 g r c x = Some g' → get2 g' r c = Some x.
Proof.
  intros Hr Hc Hset. rewrite (get2_set2 _ _ _ _ _ r c Hr Hc Hr Hc Hset).
  by rewrite bool_decide_true.
Qed.

Lemma get2_set2_ne g r c x g' r' c' :
  0 ≤ r → 0 ≤ c → 0 ≤ r' → 0 ≤ c' → set2 g r c x = Some g' →
  ¬ (r' = r ∧ c' = c) → get2 g' r' c' = get2 g r' c'.
Proof.
  intros Hr Hc Hr' Hc' Hset Hne.
  rewrite (get2_set2 _ _ _ _ _ r' c' Hr Hc Hr' Hc' Hset).
  by rewrite bool_decide_false.
Qed.
End GridFacts.

Section Grid4Facts.
Context {A : Type}.
Implicit Types (g : list (list (list (list A)))) (x : A).

Lemma set4_in_range n m g r c i j x :
  is_grid n m g → Forall (Forall (is_grid 3 3)) g →
  0 ≤ r < Z.of_nat n → 0 ≤ c < Z.of_nat m → 0 ≤ i < 3 → 0 ≤ j < 3 →
  ∃ g', set4 g r c i j x = Some g'.
Proof.
  intros Hg Hsub Hr Hc Hi Hj. unfold set4.
  destruct (get2_in_range _ _ _ r c Hg Hr Hc) as [sub Hs]. rewrite Hs. simpl.
  assert (is_grid 3 3 sub) as Hsg.
  { rewrite get2_nonneg in Hs by lia.
    destruct (g !! Z.to_nat r) as [row|] eqn:Hrow; simpl in Hs; [|done].
    eapply Forall_lookup_1; [|exact Hs].
    eapply Forall_lookup_1; [exact Hsub|exact Hrow]. }
  destruct (set2_in_range _ _ _ i j x Hsg) as [sub' ->]; [done..|]. simpl.
  eapply set2_in_range; done.
Qed.

Lemma set4_shape n m g r c i j x g' :
  is_grid n m g → Forall (Forall (is_grid 3 3)) g →
  0 ≤ r → 0 ≤ c → 0 ≤ i → 0 ≤ j → set4 g r c i j x = Some g' →
  is_grid n m g' ∧ Forall (Forall (is_grid 3 3)) g'.
Proof.
  intros Hg Hsub Hr Hc Hi Hj. unfold set4.
  destruct (get2 g r c) as [sub|] eqn:Hs; simpl; [|done].
  destruct (set2 sub i j x) as [sub'|] eqn:Hs'; simpl; [|done].
  intros Hset. split; [by apply (set2_is_grid _ _ _ _ _ _ _ Hg Hr Hc Hset)|].
  assert (is_grid 3 3 sub) as Hsg.
  { rewrite get2_nonneg in Hs by lia.
    destruct (g !! Z.to_nat r) as [row|] eqn:Hrow; simpl in Hs; [|done].
    eapply Forall_lookup_1; [|exact Hs].
    eapply Forall_lookup_1; [exact Hsub|exact Hrow]. }
  apply set2_Some in Hset as (row & Hrow & Hlt & ->); [|done..].
  apply Forall_insert; [done|].
  apply Forall_insert; [by eapply Forall_lookup_1|].
  by apply (set2_is_grid _ _ _ _ _ _ _ Hsg Hi Hj Hs').
Qed.

Lemma get4_set4 g r c i j x g' r' c' i' j' :
  0 ≤ r → 0 ≤ c → 0 ≤ i → 0 ≤ j → 0 ≤ r' → 0 ≤ c' → 0 ≤ i' → 0 ≤ j' →
  set4 g r c i j x = Some g' →
  get4 g' r' c' i' j' =
  if bool_decide ((r' = r ∧ c' = c) ∧ (i' = i ∧ j' = j)) then Some x
  else get4 g r' c' i' j'.
Proof.
  intros Hr Hc Hi Hj Hr' Hc' Hi' Hj'. unfold set4, get4.
  destruct (get2 g r c) as [sub|] eqn:Hs; simpl; [|done].
  destruct (set2 sub i j x) as [sub'|] eqn:Hs'; simpl; [|done].
  intros Hset. rewrite (get2_set2 _ _ _ _ _ r' c' Hr Hc Hr' Hc' Hset).
  destruct (decide (r' = r ∧ c' = c)) as [[-> ->]|Hne].
  - rewrite bool_decide_true by done. simpl. rewrite Hs. simpl.
    rewrite (get2_set2 _ _ _ _ _ i' j' Hi Hj Hi' Hj' Hs').
    destruct (decide (i' = i ∧ j' = j)).
    + by rewrite !bool_decide_true.
    + by rewrite !bool_decide_false by tauto.
  - rewrite (bool_decide_false (r' = r ∧ c' = c)) by done.
    by rewrite bool_decide_false by tauto.
Qed.

Lemma get2_set4_ne g r c i j x g' r' c' :
  0 ≤ r → 0 ≤ c → 0 ≤ r' → 0 ≤ c' → set4 g r c i j x = Some g' →
  ¬ (r' = r ∧ c' = c) → get2 g' r' c' = get2 g r' c'.
Proof.
  intros Hr Hc Hr' Hc'. unfold set4.
  destruct (get2 g r c) as [sub|] eqn:Hs; simpl; [|done].
  destruct (set2 sub i j x) as [sub'|] eqn:Hs'; simpl; [|done].
  intros Hset Hne. by apply (get2_set2_ne _ _ _ _ _ _ _ Hr Hc Hr' Hc' Hset).
Qed.
End Grid4Facts.

(** ** The win evaluator *)

Lemma line_complete_iff grid mark : line_complete grid mark = true ↔ has_line grid mark.
Proof.
  unfold line_complete, has_line. rewrite existsb_exists. split.
  - intros (line & Hin & Hall). exists line. split; [by apply list_elem_of_In|].
    intros p Hp. rewrite forallb_forall in Hall.
    apply list_elem_of_In, Hall in Hp. by apply bool_decide_eq_true in Hp.
  - intros (line & Hin & Hall). exists line. split; [by apply list_elem_of_In|].
    apply forallb_forall. intros p Hp. apply bool_decide_eq_true, Hall.
    by apply list_elem_of_In.
Qed.

(** A 3x3 grid is nine entries. *)
Lemma is_grid_3x3_inv {A} (g : list (list A)) :
  is_grid 3 3 g →
  ∃ a b c d e f x y z, g = [[a; b; c]; [d; e; f]; [x; y; z]].
Proof.
  intros [Hlen Hrows].
  destruct g as [|r0 [|r1 [|r2 [|]]]]; try done.
  apply Forall_cons in Hrows as [H0 Hrows].
  apply Forall_cons in Hrows as [H1 Hrows].
  apply Forall_cons in Hrows as [H2 _].
  destruct r0 as [|a [|b [|c [|]]]]; try done.
  destruct r1 as [|d [|e [|f [|]]]]; try done.
  destruct r2 as [|x [|y [|z [|]]]]; try done.
  by exists a, b, c, d, e, f, x, y, z.
Qed.

(** The scan of rows, columns and diagonals that the three checks share,
    on an explicit 3x3 grid and for any test [P] of an entry. *)
Lemma scan_generic (P : string → bool) (a b c d e f x y z : string) :
  let block := [[a; b; c]; [d; e; f]; [x; y; z]] in
  (if existsb (forallb P) block then Some true else
   cols ← any_gen (λ col,
             all_gen (λ row, cell ← get2 block row col; Some (P cell)) range3) range3;
   if cols : bool then Some true else
   d1 ← all_gen (λ i, cell ← get2 block i i; Some (P cell)) range3;
   if d1 : bool then Some true else
   d2 ← all_gen (λ i, cell ← get2 block i (2 - i); Some (P cell)) range3;
   if d2 : bool then Some true else Some false)
  = Some (existsb (λ line,
            forallb (λ p : Z * Z,
              match get2 block p.1 p.2 with Some v => P v | None => false end) line)
          grid_lines).
Proof.
  vm_compute.
  destruct (P a), (P b), (P c), (P d), (P e), (P f), (P x), (P y), (P z); reflexivity.
Qed.

Lemma scan_is_line_complete (player : string) (block : list (list string)) :
  is_grid 3 3 block →
  (if existsb (all_cells player) block then Some true else
   cols ← any_gen (λ col,
             all_gen (λ row, cell ← get2 block row col;
                             Some (bool_decide (cell = player))) range3) range3;
   if cols : bool then Some true else
   d1 ← all_gen (λ i, cell ← get2 block i i; Some (bool_decide (cell = player))) range3;
   if d1 : bool then Some true else
   d2 ← all_gen (λ i, cell ← get2 block i (2 - i); Some (bool_decide (cell = player))) range3;
   if d2 : bool then Some true else Some false)
  = Some (line_complete block player).
Proof.
  intros (a & b & c & d & e & f & x & y & z & ->)%is_grid_3x3_inv.
  etrans; [apply (scan_generic (λ cell, bool_decide (cell = player)))|].
  f_equal. unfold line_complete.
  induction grid_lines as [|line lines IH]; [done|].
  cbn [existsb]. f_equal; [|exact IH].
  clear IH. induction line as [|p line IH]; [done|].
  cbn [forallb]. f_equal; [|exact IH].
  destruct (get2 _ p.1 p.2) as [v|].
  - apply bool_decide_ext. split; [by intros ->|by intros [= ->]].
  - by rewrite bool_decide_false.
Qed.

(** The three checks never raise on a well-shaped state and all compute
    [line_complete], each on its own grid and for the player to move. *)
Lemma check_block_3x3_win_eq s block_row block_col block :
  get2 (blocks_state_3x3 s) block_row block_col = Some block → is_grid 3 3 block →
  _check_block_3x3_win s block_row block_col
  = Some (line_complete block (current_player s)).
Proof.
  intros Hb Hg. unfold _check_block_3x3_win. rewrite Hb.
  by apply scan_is_line_complete.
Qed.

Lemma check_block_9x9_win_eq s block_row block_col block :
  get2 (blocks_state_9x9 s) block_row block_col = Some block → is_grid 3 3 block →
  _check_block_9x9_win s block_row block_col
  = Some (line_complete block (current_player s)).
Proof.
  intros Hb Hg. unfold _check_block_9x9_win. rewrite Hb.
  by apply scan_is_line_complete.
Qed.

Lemma check_game_win_eq s :
  is_grid 3 3 (blocks_9x9 s) →
  _check_game_win s = Some (line_complete (blocks_9x9 s) (current_player s)).
Proof. intros Hg. by apply scan_is_line_complete. Qed.

(** ** Well-shaped states *)

Lemma wf_shape_init : wf_shape __init__.
Proof. apply (bool_decide_unpack _). vm_compute. exact I. Qed.

(** ** Case analysis of a successful [apply_move] *)

(** One step of case analysis on the first test or look-up of [lhs] in a
    goal [lhs = Some _ → _]; the raising cases are closed. *)
Ltac inv_head :=
  match goal with
  | |- ?lhs = _ → _ => case_head lhs
  end; simpl_fields; try (intros; discriminate).

Ltac apply_move_cases :=
  unfold apply_move, place, record_win, redirect; simpl_fields;
  repeat inv_head; intros [= <- <-]; simpl_fields.

Lemma apply_move_writes s row col ok s' :
  apply_move s row col = Some (ok, s') →
  ok = true
  ∧ set2 (board s) row col (current_player s) = Some (board s')
  ∧ set4 (blocks_state_3x3 s) (row / 3) (col / 3) (row mod 3) (col mod 3)
      (current_player s) = Some (blocks_state_3x3 s').
Proof. apply_move_cases. all: done. Qed.

(** ** The six checks and [precheck] *)

Ltac bool_hyps :=
  repeat match goal with
    | H : bool_decide _ = true |- _ => apply bool_decide_eq_true in H
    | H : bool_decide _ = false |- _ => apply bool_decide_eq_false in H
    end.

Lemma wrong_macro_false (a : option coords) (r c : Z) :
  match a with
  | Some p => let '(x, y) := unpack p in bool_decide (r ≠ x ∨ c ≠ y)
  | None => false
  end = false
  ↔ ∀ p, a = Some p → unpack p = (r, c).
Proof.
  destruct a as [p|]; [|by split].
  destruct (unpack p) as [x y] eqn:E. rewrite bool_decide_eq_false. split.
  - intros H ? [= <-]. rewrite E. f_equal; lia.
  - intros H. specialize (H p eq_refl). rewrite E in H. injection H as -> ->. lia.
Qed.

Lemma wrong_micro_false (a : option coords) (r c : Z) :
  match a with
  | Some p => let '(x, y) := unpack p in Some (bool_decide (r ≠ x ∨ c ≠ y))
  | None => Some false
  end = Some false
  ↔ ∀ p, a = Some p → unpack p = (r, c).
Proof.
  destruct a as [p|]; [|by split].
  destruct (unpack p) as [x y] eqn:E. split.
  - intros [= H%bool_decide_eq_false] ? [= <-]. rewrite E. f_equal; lia.
  - intros H. specialize (H p eq_refl). rewrite E in H. injection H as -> ->.
    f_equal. apply bool_decide_eq_false. lia.
Qed.

Lemma wrong_micro_total (a : option coords) (r c : Z) :
  ∃ b, match a with
       | Some p => let '(x, y) := unpack p in Some (bool_decide (r ≠ x ∨ c ≠ y))
       | None => Some false
       end = Some b.
Proof. destruct a as [p|]; [destruct (unpack p)|]; eauto. Qed.

Lemma precheck_true s row col : precheck s row col = Some true → all_checks s row col.
Proof.
  unfold precheck. repeat inv_head. all: intros _; bool_hyps.
  all: repeat match goal with
         | H : ¬ (?x ≠ ?y) |- _ => apply dec_stable in H
         end; subst.
  all: match goal with
       | H : _ = false |- _ => pose proof (proj1 (wrong_macro_false _ _ _) H); clear H
       end.
  all: try match goal with
         | H : _ = Some false |- _ => pose proof (proj1 (wrong_micro_false _ _ _) H); clear H
         end.
  all: repeat split; try done; try lia.
  - by intros _.
  - intros Hw. congruence.
  - intros _. exfalso. Z.div_mod_to_equations. lia.
Qed.

Lemma precheck_intro s row col :
  wf_shape s → all_checks s row col → precheck s row col = Some true.
Proof.
  intros (_ & _ & Hg9 & _) (H1 & H2 & H3 & H4 & H5 & H6).
  unfold check1, check2, check3, check4, check5, check6 in *.
  unfold precheck.
  rewrite (bool_decide_false (status s ≠ "playing")) by (intros Hn; by apply Hn).
  rewrite (bool_decide_false (row < 0 ∨ _)) by lia.
  rewrite H3. cbn [mbind option_bind]. rewrite (bool_decide_false ("" ≠ "")) by (intros Hn; by apply Hn).
  rewrite (proj2 (wrong_macro_false _ _ _) H4).
  rewrite (bool_decide_true (row / 9 < 3 ∧ _)) by (Z.div_mod_to_equations; lia).
  destruct (get2_in_range 3 3 (blocks_9x9 s) (row / 9) (col / 9)) as [w Hw];
    [done|Z.div_mod_to_equations; lia..|].
  rewrite Hw in H5 |- *. cbn [mbind option_bind]. rewrite H6.
  case_bool_decide as Hwe.
  - subst w. rewrite (proj2 (wrong_micro_false _ _ _) (H5 eq_refl)). cbn [mbind option_bind].
    by rewrite (bool_decide_false ("" ≠ "")) by (intros Hn; by apply Hn).
  - cbn [mbind option_bind]. by rewrite (bool_decide_false ("" ≠ "")) by (intros Hn; by apply Hn).
Qed.

Lemma precheck_total s row col : wf_shape s → ∃ b, precheck s row col = Some b.
Proof.
  intros (Hb & Hg3 & Hg9 & _). unfold precheck.
  case_bool_decide; [by eauto|]. case_bool_decide as Hr; [by eauto|].
  destruct (get2_in_range 27 27 (board s) row col) as [x ->]; [done|lia..|]. simpl.
  case_bool_decide; [by eauto|].
  match goal with |- context [if ?b then Some false else _] => destruct b end;
    [by eauto|].
  rewrite bool_decide_true by (Z.div_mod_to_equations; lia).
  destruct (get2_in_range 3 3 (blocks_9x9 s) (row / 9) (col / 9)) as [w ->];
    [done|Z.div_mod_to_equations; lia..|]. simpl.
  destruct (get2_in_range 9 9 (blocks_3x3 s) (row / 3) (col / 3)) as [w3 Hw3];
    [done|Z.div_mod_to_equations; lia..|].
  assert (∃ b, (if bool_decide (w = "")
                then match active_3x3_block s with
                     | Some p => let '(x, y) := unpack p in
                                 Some (bool_decide ((row / 3) mod 3 ≠ x ∨ (col / 3) mod 3 ≠ y))
                     | None => Some false
                     end
                else Some false) = Some b) as [b ->].
  { case_bool_decide; [apply wrong_micro_total|by eauto]. }
  simpl. destruct b; [by eauto|]. rewrite Hw3. simpl.
  case_bool_decide; by eauto.
Qed.

Lemma precheck_false s row col :
  wf_shape s → ¬ all_checks s row col → precheck s row col = Some false.
Proof.
  intros Hwf Hno. destruct (precheck_total s row col Hwf) as [[] Hb]; [|done].
  by apply precheck_true in Hb.
Qed.

(** ** [make_move] never raises on a well-shaped state *)

Lemma get2_sub_grid {A} n m (g : list (list (list (list A)))) r c sub :
  Forall (Forall (is_grid n m)) g → 0 ≤ r → 0 ≤ c →
  get2 g r c = Some sub → is_grid n m sub.
Proof.
  intros Hsub Hr Hc Hs. rewrite get2_nonneg in Hs by lia.
  destruct (g !! Z.to_nat r) as [row|] eqn:Hrow; simpl in Hs; [|done].
  eapply Forall_lookup_1; [|exact Hs].
  eapply Forall_lookup_1; [exact Hsub|exact Hrow].
Qed.

Lemma check_block_3x3_win_total s r c :
  wf_shape s → 0 ≤ r < 9 → 0 ≤ c < 9 → ∃ b, _check_block_3x3_win s r c = Some b.
Proof.
  intros (_ & _ & _ & [Hg Hsub] & _) Hr Hc.
  destruct (get2_in_range 9 9 _ r c Hg) as [block Hb]; [lia..|].
  eexists. eapply check_block_3x3_win_eq; [done|].
  eapply get2_sub_grid; [done| | |done]; lia.
Qed.

Lemma check_block_9x9_win_total s r c :
  wf_shape s → 0 ≤ r < 3 → 0 ≤ c < 3 → ∃ b, _check_block_9x9_win s r c = Some b.
Proof.
  intros (_ & _ & _ & _ & [Hg Hsub]) Hr Hc.
  destruct (get2_in_range 3 3 _ r c Hg) as [block Hb]; [lia..|].
  eexists. eapply check_block_9x9_win_eq; [done|].
  eapply get2_sub_grid; [done| | |done]; lia.
Qed.

Lemma check_game_win_total s : wf_shape s → ∃ b, _check_game_win s = Some b.
Proof. intros (_ & _ & Hg & _). eexists. by apply check_game_win_eq. Qed.

(** Shapes after the writes of [apply_move], one lemma per part. *)
Ltac grid_after_set2 :=
  eapply set2_is_grid; [| | |eassumption]; [assumption|Z.div_mod_to_equations; lia..].
Ltac grid_after_set4 H1 H2 :=
  eapply set4_shape; [exact H1|exact H2| | | | |eassumption]; Z.div_mod_to_equations; lia.

Lemma place_wf s row col s1 :
  wf_shape s → 0 ≤ row → 0 ≤ col → place s row col = Some s1 → wf_shape s1.
Proof.
  intros (Hb & H3 & H9 & [Hs3 Hs3'] & [Hs9 Hs9']) Hr Hc. unfold place.
  repeat inv_head. intros [= <-]. unfold wf_shape. simpl_fields.
  split_and!; try assumption.
  - grid_after_set2.
  - grid_after_set4 Hs3 Hs3'.
  - grid_after_set4 Hs3 Hs3'.
Qed.

Lemma place_total s row col :
  wf_shape s → 0 ≤ row < 27 → 0 ≤ col < 27 → ∃ s1, place s row col = Some s1.
Proof.
  intros (Hb & H3 & H9 & [Hs3 Hs3'] & Hs9) Hr Hc. unfold place.
  destruct (set2_in_range 27 27 _ row col (current_player s) Hb) as [b' ->]; [lia..|].
  simpl_fields.
  destruct (set4_in_range 9 9 _ (row / 3) (col / 3) (row mod 3) (col mod 3)
              (current_player s) Hs3 Hs3') as [st ->];
    [Z.div_mod_to_equations; lia..|].
  simpl_fields. eauto.
Qed.

Lemma record_win_wf s row col r :
  wf_shape s → 0 ≤ row → 0 ≤ col → record_win s row col = Some r →
  wf_shape (match r with inl s2 => s2 | inr s2 => s2 end).
Proof.
  intros (Hb & H3 & H9 & [Hs3 Hs3'] & [Hs9 Hs9']) Hr Hc. unfold record_win. simpl_fields.
  repeat inv_head. all: intros [= <-]; unfold wf_shape; simpl_fields.
  all: split_and!; try assumption.
  all: try grid_after_set2.
  all: grid_after_set4 Hs9 Hs9'.
Qed.

Lemma record_win_total s row col :
  wf_shape s → 0 ≤ row < 27 → 0 ≤ col < 27 → ∃ r, record_win s row col = Some r.
Proof.
  intros Hwf Hr Hc. pose proof Hwf as (Hb & H3 & H9 & [Hs3 Hs3'] & [Hs9 Hs9']).
  unfold record_win.
  destruct (set2_in_range 9 9 _ (row / 3) (col / 3) (current_player s) H3) as [b3 Hb3];
    [Z.div_mod_to_equations; lia..|].
  rewrite Hb3. simpl_fields.
  destruct (set4_in_range 3 3 _ (row / 9) (col / 9) ((row / 3) mod 3) ((col / 3) mod 3)
              (current_player s) Hs9 Hs9') as [st Hst];
    [Z.div_mod_to_equations; lia..|].
  rewrite Hst. simpl_fields.
  assert (wf_shape (with_blocks_state_9x9 st (with_blocks_3x3 b3 s))) as Hwf2.
  { unfold wf_shape. simpl_fields. split_and!; try assumption.
    - grid_after_set2.
    - grid_after_set4 Hs9 Hs9'.
    - grid_after_set4 Hs9 Hs9'. }
  destruct (check_block_9x9_win_total _ (row / 9) (col / 9) Hwf2) as [won ->];
    [Z.div_mod_to_equations; lia..|].
  simpl_fields. destruct won; [|by eauto].
  destruct (set2_in_range 3 3 _ (row / 9) (col / 9) (current_player s) H9) as [b9 Hb9];
    [Z.div_mod_to_equations; lia..|].
  rewrite Hb9. simpl_fields.
  destruct (check_game_win_total
              (with_blocks_9x9 b9 (with_blocks_state_9x9 st (with_blocks_3x3 b3 s))))
    as [gw ->].
  { destruct Hwf2 as (? & ? & ? & [? ?] & [? ?]). unfold wf_shape. simpl_fields.
    split_and!; try assumption. grid_after_set2. }
  simpl_fields. destruct gw; eauto.
Qed.

Lemma redirect_total s m_row m_col t_row t_col :
  wf_shape s → 0 ≤ m_row < 3 → 0 ≤ m_col < 3 → 0 ≤ t_row < 3 → 0 ≤ t_col < 3 →
  ∃ s', redirect s m_row m_col t_row t_col = Some (true, s').
Proof.
  intros (_ & H3 & _) ????. unfold redirect.
  destruct (get2_in_range 9 9 _ (m_row * 3 + t_row) (m_col * 3 + t_col) H3) as [w ->];
    [lia..|].
  simpl_fields. eauto.
Qed.

Lemma redirect_wf s m_row m_col t_row t_col ok s' :
  wf_shape s → redirect s m_row m_col t_row t_col = Some (ok, s') → wf_shape s'.
Proof. intros Hwf. unfold redirect. repeat inv_head. by intros [= <- <-]. Qed.

Lemma apply_move_wf s row col ok s' :
  wf_shape s → 0 ≤ row → 0 ≤ col → apply_move s row col = Some (ok, s') → wf_shape s'.
Proof.
  intros Hwf Hr Hc. unfold apply_move.
  destruct (place s row col) as [s1|] eqn:Hp; simpl_fields; [|done].
  pose proof (place_wf _ _ _ _ Hwf Hr Hc Hp) as Hwf1.
  destruct (_check_block_3x3_win s1 _ _) as [[]|]; simpl_fields; [| |done].
  - destruct (record_win s1 row col) as [r|] eqn:Hrec; simpl_fields; [|done].
    pose proof (record_win_wf _ _ _ _ Hwf1 Hr Hc Hrec) as Hwf2.
    destruct r as [s2|s2]; [by intros [= <- <-]|].
    do 2 inv_head; [by intros [= <- <-]|].
    by apply redirect_wf.
  - by apply redirect_wf.
Qed.

Lemma apply_move_total s row col :
  wf_shape s → 0 ≤ row < 27 → 0 ≤ col < 27 →
  ∃ s', apply_move s row col = Some (true, s').
Proof.
  intros Hwf Hr Hc. unfold apply_move.
  destruct (place_total s row col Hwf Hr Hc) as [s1 Hp]. rewrite Hp. simpl_fields.
  assert (wf_shape s1) as Hwf1 by (eapply place_wf; [done| | |done]; lia).
  destruct (check_block_3x3_win_total s1 (row / 3) (col / 3) Hwf1) as [won ->];
    [Z.div_mod_to_equations; lia..|].
  simpl_fields. destruct won.
  - destruct (record_win_total s1 row col Hwf1 Hr Hc) as [r Hrec]. rewrite Hrec.
    simpl_fields.
    assert (wf_shape (match r with inl s2 => s2 | inr s2 => s2 end)) as Hwf2
      by (eapply record_win_wf; [done| | |done]; lia).
    destruct r as [s2|s2]; [by eauto|].
    destruct (get2_in_range 3 3 (blocks_9x9 s2) ((row / 3) mod 3) ((col / 3) mod 3))
      as [w ->]; [apply Hwf2|Z.div_mod_to_equations; lia..|].
    simpl_fields. case_bool_decide; [by eauto|].
    apply redirect_total; [done|Z.div_mod_to_equations; lia..].
  - apply redirect_total; [done|Z.div_mod_to_equations; lia..].
Qed.

(** [make_move] as a total function on well-shaped states: it rejects
    exactly the moves that fail one of the six checks, and it keeps the
    shape. *)
Lemma make_move_rejected s row col :
  wf_shape s → ¬ all_checks s row col → make_move s row col = Some (false, s).
Proof.
  intros Hwf Hno. rewrite make_move_split, (precheck_false _ _ _ Hwf Hno). done.
Qed.

Lemma make_move_accepted s row col :
  wf_shape s → all_checks s row col → ∃ s', make_move s row col = Some (true, s').
Proof.
  intros Hwf Hall. rewrite make_move_split, (precheck_intro _ _ _ Hwf Hall).
  simpl_fields. apply apply_move_total; [done|apply Hall..].
Qed.

Lemma make_move_inv s row col ok s' :
  make_move s row col = Some (ok, s') →
  (ok = false ∧ s' = s)
  ∨ (ok = true ∧ all_checks s row col ∧ apply_move s row col = Some (true, s')).
Proof.
  rewrite make_move_split.
  destruct (precheck s row col) as [[]|] eqn:Hpre; simpl_fields; [| |done].
  - intros Happ. right. pose proof (apply_move_writes _ _ _ _ _ Happ) as [-> _].
    split_and!; [done| |done]. by apply precheck_true.
  - intros [= <- <-]. by left.
Qed.

Lemma make_move_wf s row col ok s' :
  wf_shape s → make_move s row col = Some (ok, s') → wf_shape s'.
Proof.
  intros Hwf [[-> ->]|(-> & Hall & Happ)]%make_move_inv; [done|].
  eapply apply_move_wf; [done| | |done]; apply Hall.
Qed.

Lemma make_move_total s row col :
  wf_shape s → ∃ ok s', make_move s row col = Some (ok, s').
Proof.
  intros Hwf. rewrite make_move_split.
  destruct (precheck_total s row col Hwf) as [[] Hpre]; rewrite Hpre; simpl_fields.
  - apply precheck_true in Hpre as (_ & [Hr Hc] & _).
    destruct (apply_move_total s row col Hwf Hr Hc) as [s' ->]. eauto.
  - eauto.
Qed.

Lemma reachable_wf s : reachable s → wf_shape s.
Proof.
  induction 1 as [|s row col ok s' _ IH Hmove|s _ _].
  - exact wf_shape_init.
  - by eapply make_move_wf.
  - exact wf_shape_init.
Qed.

(** ** What a successful move changes *)

Lemma string_length_app (s1 s2 : string) :
  String.length (s1 +:+ s2) = (String.length s1 + String.length s2)%nat.
Proof. induction s1 as [|a s1 IH]; simpl; [done|by f_equal]. Qed.

(** [f"{player}_wins"] is never ["playing"], whatever the player string. *)
Lemma wins_is_not_playing (player : string) : player +:+ "_wins" ≠ "playing".
Proof.
  destruct player as [|a [|b [|c player]]]; cbn; try discriminate.
  intros H. apply (f_equal String.length) in H.
  simpl in H. rewrite string_length_app in H. simpl in H. lia.
Qed.

(** The status and the player to move after a successful [apply_move]:
    either the game goes on and the player is switched, or the move has won
    the game, the status names the mover and the player is not switched. *)
Lemma apply_move_player s row col ok s' :
  apply_move s row col = Some (ok, s') →
  (status s' = status s ∧ current_player s' = other_player (current_player s))
  ∨ (status s' = current_player s +:+ "_wins" ∧ current_player s' = current_player s).
Proof. apply_move_cases. all: by eauto. Qed.

(** ** The concrete games are reachable *)

Lemma play_reachable s moves s' : reachable s → play s moves = Some s' → reachable s'.
Proof.
  revert s. induction moves as [|[row col] moves IH]; intros s Hs; simpl.
  - by intros [= <-].
  - destruct (make_move s row col) as [[ok s1]|] eqn:Hm; simpl; [|done].
    destruct ok; [|done]. apply IH. by eapply reachable_move.
Qed.

Lemma before_win_reachable : reachable before_win.
Proof.
  apply (play_reachable __init__ moves_before_win); [apply reachable_init|].
  vm_compute. reflexivity.
Qed.

(** ** C9: a finished game *)

(** C9.  When the status is not ["playing"], every [make_move] returns
    [False] and leaves the state as it is, and [get_valid_moves] returns the
    empty list. *)
Theorem finished_game_is_frozen s row col :
  status s ≠ "playing" →
  make_move s row col = Some (false, s) ∧ get_valid_moves s = Some [].
Proof.
  intros Hst. unfold make_move, get_valid_moves.
  by rewrite !(bool_decide_true (status s ≠ "playing")).
Qed.

(** The state after X has won the game above, asked for a move at (0, 5). *)
Lemma finished_game_is_frozen_witness :
  let s := default __init__ (play before_win [(0, 4)]) in
  status s ≠ "playing"
  ∧ make_move s 0 5 = Some (false, s) ∧ get_valid_moves s = Some [].
Proof.
  assert (status (default __init__ (play before_win [(0, 4)])) ≠ "playing") as H
    by (vm_compute; discriminate).
  split; [exact H|]. apply (finished_game_is_frozen _ 0 5 H).
Defined.

(** ** C4: a rejected move *)

(** C4.  On a well-shaped state and for any pair of integers, in range or
    not: if one of the six checks fails, [make_move] returns [False], raises
    nothing, and the state after the call is the state before it. *)
Theorem rejected_move_changes_nothing s row col :
  wf_shape s →
  ¬ check1 s ∨ ¬ check2 row col ∨ ¬ check3 s row col
  ∨ ¬ check4 s row col ∨ ¬ check5 s row col ∨ ¬ check6 s row col →
  make_move s row col = Some (false, s).
Proof.
  intros Hwf Hfail. apply make_move_rejected; [done|].
  intros (H1 & H2 & H3 & H4 & H5 & H6). tauto.
Qed.

(** A fresh game asked for the out-of-range cell (-1, 30). *)
Lemma rejected_move_changes_nothing_witness :
  make_move __init__ (-1) 30 = Some (false, __init__).
Proof.
  apply rejected_move_changes_nothing.
  - apply (bool_decide_unpack _). vm_compute. exact I.
  - right. left. unfold check2. lia.
Defined.

(** ** C2: the player to move *)

(** C2, as stated, fails on the move that wins the game: [make_move] returns
    [True] at once and X, who has just won, is still the current player. *)
Lemma winning_move_keeps_player :
  reachable before_win
  ∧ ∃ s', make_move before_win 0 4 = Some (true, s')
        ∧ current_player before_win = "X"
        ∧ current_player s' = "X"
        ∧ current_player s' ≠ other_player (current_player before_win)
        ∧ status s' = "X_wins".
Proof.
  split; [exact before_win_reachable|].
  eexists. split; [vm_compute; reflexivity|].
  split_and!; try reflexivity. vm_compute. discriminate.
Qed.

(** C2, amended.  A rejected move changes nothing, so the player stays.  An
    accepted move after which the game goes on has switched the player.  An
    accepted move that wins the game leaves the mover as current player and
    names it in the status. *)
Theorem current_player_after_move s row col ok s' :
  make_move s row col = Some (ok, s') →
  (ok = false → s' = s)
  ∧ (ok = true → status s' = "playing" →
     current_player s' = other_player (current_player s))
  ∧ (ok = true → status s' ≠ "playing" →
     current_player s' = current_player s
     ∧ status s' = current_player s +:+ "_wins").
Proof.
  intros [[-> ->]|(-> & Hall & Happ)]%make_move_inv; [by split_and!|].
  destruct Hall as (Hplaying & _). unfold check1 in Hplaying.
  apply apply_move_player in Happ as [[Hst Hcp]|[Hst Hcp]].
  - split_and!; [done|done|]. intros _ Hne. by rewrite Hst in Hne.
  - split_and!; [done| |done]. intros _ Hst'. rewrite Hst in Hst'.
    by apply wins_is_not_playing in Hst'.
Qed.

(** The two players are each other's opposite. *)
Lemma other_player_X : other_player "X" = "O".
Proof. reflexivity. Qed.

Lemma other_player_O : other_player "O" = "X".
Proof. reflexivity. Qed.

(** The first move of a game, at (0, 0). *)
Lemma current_player_after_move_witness :
  ∃ s', make_move __init__ 0 0 = Some (true, s')
        ∧ (status s' = "playing" → current_player s' = "O").
Proof.
  eexists. split; [vm_compute; reflexivity|].
  intros Hst.
  apply (proj1 (proj2 (current_player_after_move __init__ 0 0 true _ eq_refl)) eq_refl Hst).
Defined.

(** ** C5 and C6: where the opponent is sent *)

Lemma place_fields s row col s1 :
  place s row col = Some s1 →
  set2 (board s) row col (current_player s) = Some (board s1)
  ∧ set4 (blocks_state_3x3 s) (row / 3) (col / 3) (row mod 3) (col mod 3)
      (current_player s) = Some (blocks_state_3x3 s1)
  ∧ blocks_3x3 s1 = blocks_3x3 s ∧ blocks_9x9 s1 = blocks_9x9 s
  ∧ blocks_state_9x9 s1 = blocks_state_9x9 s
  ∧ current_player s1 = current_player s
  ∧ active_9x9_block s1 = active_9x9_block s
  ∧ active_3x3_block s1 = active_3x3_block s
  ∧ status s1 = status s.
Proof. unfold place. repeat inv_head. intros [= <-]. simpl_fields. by split_and!. Qed.

Lemma record_win_inl s row col s2 :
  record_win s row col = Some (inl s2) → status s2 = current_player s +:+ "_wins".
Proof. unfold record_win. repeat inv_head. all: by intros [= <-]. Qed.

(** Whether the move has completed a line of the mover's marks in its 3x3
    block, read off the state after the move: the first step of an accepted
    [make_move] writes the mark, the second is this test. *)
Lemma apply_move_block_won s row col s' block :
  wf_shape s → 0 ≤ row → 0 ≤ col →
  apply_move s row col = Some (true, s') →
  get2 (blocks_state_3x3 s') (row / 3) (col / 3) = Some block →
  ∃ s1, place s row col = Some s1
        ∧ _check_block_3x3_win s1 (row / 3) (col / 3)
          = Some (line_complete block (current_player s)).
Proof.
  intros Hwf Hr Hc Happ Hblock.
  pose proof (apply_move_writes _ _ _ _ _ Happ) as (_ & _ & Hst').
  unfold apply_move in Happ.
  destruct (place s row col) as [s1|] eqn:Hp; [|done].
  exists s1. split; [done|].
  pose proof (place_wf _ _ _ _ Hwf Hr Hc Hp) as Hwf1.
  apply place_fields in Hp as (_ & Hst1 & _ & _ & _ & <- & _).
  assert (blocks_state_3x3 s' = blocks_state_3x3 s1) as Heq by congruence.
  rewrite Heq in Hblock.
  apply check_block_3x3_win_eq; [done|].
  destruct Hwf1 as (_ & _ & _ & [_ Hsub] & _).
  eapply get2_sub_grid; [exact Hsub| | |exact Hblock]; Z.div_mod_to_equations; lia.
Qed.

(** C6.  An accepted move that does not complete a line in its 3x3 block:
    the opponent stays in the move's 9x9 block [(row // 9, col // 9)], and
    inside it is sent to the 3x3 block at the move's local position
    [(row % 3, col % 3)], unless that block has a winner: then any 3x3
    block of the 9x9 block may be chosen. *)
Theorem no_micro_win_keeps_macro s row col s' block :
  wf_shape s →
  make_move s row col = Some (true, s') →
  get2 (blocks_state_3x3 s') (row / 3) (col / 3) = Some block →
  line_complete block (current_player s) = false →
  active_9x9_block s' = Some (Tup (row / 9) (col / 9))
  ∧ ∃ winner,
      get2 (blocks_3x3 s) (row / 9 * 3 + row mod 3) (col / 9 * 3 + col mod 3)
      = Some winner
      ∧ active_3x3_block s'
        = if bool_decide (winner ≠ "") then None
          else Some (Tup (row mod 3) (col mod 3)).
Proof.
  intros Hwf [[? _]|(_ & Hall & Happ)]%make_move_inv Hblock Hline; [done|].
  destruct Hall as (_ & [Hr Hc] & _).
  destruct (apply_move_block_won _ _ _ _ _ Hwf (proj1 Hr) (proj1 Hc) Happ Hblock)
    as (s1 & Hp & Hcheck).
  rewrite Hline in Hcheck. unfold apply_move in Happ.
  rewrite Hp in Happ. simpl_fields. rewrite Hcheck in Happ. simpl_fields.
  apply place_fields in Hp as (_ & _ & H3 & _).
  unfold redirect in Happ. rewrite H3 in Happ.
  destruct (get2 (blocks_3x3 s) _ _) as [winner|]; simpl_fields; [|done].
  injection Happ as <-. simpl_fields. split; [done|]. by exists winner.
Qed.

(** C5.  An accepted move that completes a line in its 3x3 block and does
    not end the game.  The winners are read once this move's own wins are
    recorded, that is in the state after the call.  If the 9x9 block at the
    won 3x3 block's local position has a winner, both selectors are [None].
    Otherwise the opponent is sent to that 9x9 block, and inside it to the
    3x3 block at [(row % 3, col % 3)] unless that one has a winner. *)
Theorem micro_win_escalates s row col s' block :
  wf_shape s →
  make_move s row col = Some (true, s') →
  get2 (blocks_state_3x3 s') (row / 3) (col / 3) = Some block →
  line_complete block (current_player s) = true →
  status s' = "playing" →
  ∃ macro_winner,
    get2 (blocks_9x9 s') ((row / 3) mod 3) ((col / 3) mod 3) = Some macro_winner
    ∧ if bool_decide (macro_winner ≠ "")
      then active_9x9_block s' = None ∧ active_3x3_block s' = None
      else active_9x9_block s' = Some (Tup ((row / 3) mod 3) ((col / 3) mod 3))
           ∧ ∃ micro_winner,
               get2 (blocks_3x3 s') ((row / 3) mod 3 * 3 + row mod 3)
                 ((col / 3) mod 3 * 3 + col mod 3) = Some micro_winner
               ∧ active_3x3_block s'
                 = if bool_decide (micro_winner ≠ "") then None
                   else Some (Tup (row mod 3) (col mod 3)).
Proof.
  intros Hwf [[? _]|(_ & Hall & Happ)]%make_move_inv Hblock Hline Hplaying; [done|].
  destruct Hall as (_ & [Hr Hc] & _).
  destruct (apply_move_block_won _ _ _ _ _ Hwf (proj1 Hr) (proj1 Hc) Happ Hblock)
    as (s1 & Hp & Hcheck).
  rewrite Hline in Hcheck. unfold apply_move in Happ.
  rewrite Hp in Happ. simpl_fields. rewrite Hcheck in Happ. simpl_fields.
  destruct (record_win s1 row col) as [[s2|s2]|] eqn:Hrec; simpl_fields; [| |done].
  - injection Happ as <-. apply record_win_inl in Hrec.
    rewrite Hrec in Hplaying. by apply wins_is_not_playing in Hplaying.
  - destruct (get2 (blocks_9x9 s2) _ _) as [macro_winner|] eqn:Hm; simpl_fields; [|done].
    case_bool_decide as Hmw.
    + injection Happ as <-. simpl_fields. exists macro_winner.
      split; [exact Hm|]. rewrite bool_decide_true by exact Hmw. by split.
    + unfold redirect in Happ.
      destruct (get2 (blocks_3x3 s2) _ _) as [micro_winner|] eqn:Ht; simpl_fields; [|done].
      injection Happ as <-. simpl_fields. exists macro_winner.
      split; [exact Hm|]. rewrite bool_decide_false by (intros Hn; by apply Hn).
      split; [reflexivity|]. exists micro_winner. by split.
Qed.

Lemma before_free_choice_reachable : reachable before_free_choice.
Proof.
  apply (play_reachable __init__ (take 25 moves_free_choice)); [apply reachable_init|].
  vm_compute. reflexivity.
Qed.

Lemma free_choice_reachable : reachable free_choice.
Proof.
  apply (play_reachable __init__ moves_free_choice); [apply reachable_init|].
  vm_compute. reflexivity.
Qed.

(** The first move of a game at (4, 5): 9x9 block (0, 0), local position
    (1, 2) in its 3x3 block. *)
Lemma no_micro_win_keeps_macro_witness :
  ∃ s', make_move __init__ 4 5 = Some (true, s')
        ∧ active_9x9_block s' = Some (Tup 0 0)
        ∧ active_3x3_block s' = Some (Tup 1 2).
Proof.
  eexists. split; [vm_compute; reflexivity|].
  match goal with |- active_9x9_block ?s' = _ ∧ _ =>
    destruct (no_micro_win_keeps_macro __init__ 4 5 s'
                [[""; ""; ""]; [""; ""; "X"]; [""; ""; ""]])
      as (H9 & winner & Hw & H3)
  end.
  - apply (bool_decide_unpack _). vm_compute. exact I.
  - vm_compute. reflexivity.
  - vm_compute. reflexivity.
  - vm_compute. reflexivity.
  - split; [exact H9|]. vm_compute in Hw. injection Hw as <-. exact H3.
Defined.

(** O's move 26 of the game above, at (13, 3): it wins the 3x3 block (4, 1),
    whose local position (1, 1) names the 9x9 block X has already won. *)
Lemma micro_win_escalates_witness :
  ∃ s', make_move before_free_choice 13 3 = Some (true, s')
        ∧ get2 (blocks_9x9 s') 1 1 = Some "X"
        ∧ active_9x9_block s' = None ∧ active_3x3_block s' = None.
Proof.
  eexists. split; [vm_compute; reflexivity|].
  match goal with |- get2 (blocks_9x9 ?s') _ _ = _ ∧ _ =>
    destruct (micro_win_escalates before_free_choice 13 3 s'
                [["O"; ""; ""]; ["O"; ""; ""]; ["O"; ""; ""]])
      as (macro_winner & Hm & Hsel)
  end.
  - apply (bool_decide_unpack _). vm_compute. exact I.
  - vm_compute. reflexivity.
  - vm_compute. reflexivity.
  - vm_compute. reflexivity.
  - vm_compute. reflexivity.
  - vm_compute in Hm. injection Hm as <-. split; [vm_compute; reflexivity|].
    exact Hsel.
Defined.

(** ** C7: one line check at three scales *)

(** C7.  Each of the three win checks returns [line_complete] of its own
    3x3 grid for the current player's mark, and [line_complete] is true
    exactly when one of the three rows, three columns or two diagonals of
    the grid holds that mark three times. *)
Theorem win_checks_are_line_complete s r3 c3 block3 r9 c9 block9 :
  get2 (blocks_state_3x3 s) r3 c3 = Some block3 → is_grid 3 3 block3 →
  get2 (blocks_state_9x9 s) r9 c9 = Some block9 → is_grid 3 3 block9 →
  is_grid 3 3 (blocks_9x9 s) →
  _check_block_3x3_win s r3 c3 = Some (line_complete block3 (current_player s))
  ∧ _check_block_9x9_win s r9 c9 = Some (line_complete block9 (current_player s))
  ∧ _check_game_win s = Some (line_complete (blocks_9x9 s) (current_player s))
  ∧ ∀ grid, line_complete grid (current_player s) = true
            ↔ has_line grid (current_player s).
Proof.
  intros Hb3 Hg3 Hb9 Hg9 Hg. split_and!.
  - by apply check_block_3x3_win_eq.
  - by apply check_block_9x9_win_eq.
  - by apply check_game_win_eq.
  - intros grid. apply line_complete_iff.
Qed.

(** After the 26 moves above, X to move: X holds a line in the 3x3 block
    (4, 4) and in the 9x9 block (1, 1), and no line of 9x9 blocks. *)
Lemma win_checks_are_line_complete_witness :
  _check_block_3x3_win free_choice 4 4 = Some true
  ∧ _check_block_9x9_win free_choice 1 1 = Some true
  ∧ _check_game_win free_choice = Some false.
Proof.
  destruct (win_checks_are_line_complete free_choice
              4 4 [[""; ""; "X"]; [""; ""; "X"]; [""; ""; "X"]]
              1 1 [[""; ""; ""]; ["X"; "X"; "X"]; [""; ""; ""]])
    as (H3 & H9 & Hg & _).
  - vm_compute. reflexivity.
  - apply (bool_decide_unpack _). vm_compute. exact I.
  - vm_compute. reflexivity.
  - apply (bool_decide_unpack _). vm_compute. exact I.
  - apply (bool_decide_unpack _). vm_compute. exact I.
  - split_and!; [exact H3|exact H9|exact Hg].
Defined.

(** ** C10: the cached sub-grids mirror the board *)

Lemma get2_replicate {A} (n m : nat) (x : A) r c :
  0 ≤ r < Z.of_nat n → 0 ≤ c < Z.of_nat m →
  get2 (replicate n (replicate m x)) r c = Some x.
Proof.
  intros Hr Hc. rewrite get2_nonneg by lia.
  rewrite lookup_replicate_2 by lia. simpl. apply lookup_replicate_2. lia.
Qed.

Lemma board_mirrored_init : board_mirrored __init__.
Proof.
  intros row col Hr Hc. exists "". unfold __init__, get4. simpl_fields.
  split; [by apply get2_replicate|].
  rewrite get2_replicate by (Z.div_mod_to_equations; lia). cbn [mbind option_bind].
  apply get2_replicate; Z.div_mod_to_equations; lia.
Qed.

Lemma board_mirrored_move s row col ok s' :
  board_mirrored s → make_move s row col = Some (ok, s') → board_mirrored s'.
Proof.
  intros Hm [[-> ->]|(-> & Hall & Happ)]%make_move_inv; [done|].
  destruct Hall as (_ & [Hr Hc] & _).
  apply apply_move_writes in Happ as (_ & Hboard & Hstate).
  intros r c Hr' Hc'. destruct (Hm r c Hr' Hc') as (mark & Hb & Hs).
  rewrite (get2_set2 _ _ _ _ _ r c (proj1 Hr) (proj1 Hc) (proj1 Hr') (proj1 Hc') Hboard).
  rewrite (get4_set4 _ (row / 3) (col / 3) (row mod 3) (col mod 3) _ _
             (r / 3) (c / 3) (r mod 3) (c mod 3)) by
    first [exact Hstate | Z.div_mod_to_equations; lia].
  destruct (decide (r = row ∧ c = col)) as [[-> ->]|Hne].
  - rewrite !bool_decide_true by done. eauto.
  - rewrite (bool_decide_false (r = row ∧ c = col)) by done.
    rewrite bool_decide_false by (Z.div_mod_to_equations; lia). eauto.
Qed.

(** C10.  In every state reached from a fresh game by [make_move] and
    [reset_game] calls, each cell of the 27x27 board and the entry of the
    cached sub-grid of its 3x3 block hold the same mark. *)
Theorem cached_sub_grids_mirror_board s :
  reachable s →
  ∀ row col, 0 ≤ row < 27 → 0 ≤ col < 27 →
    ∃ mark, get2 (board s) row col = Some mark
            ∧ get4 (blocks_state_3x3 s) (row / 3) (col / 3) (row mod 3) (col mod 3)
              = Some mark.
Proof.
  induction 1 as [|s row col ok s' _ IH Hmove|s _ _].
  - exact board_mirrored_init.
  - exact (board_mirrored_move _ _ _ _ _ IH Hmove).
  - exact board_mirrored_init.
Qed.

(** The cell (13, 10) after the 26 moves above: X's mark on the board and in
    the sub-grid of block (4, 3). *)
Lemma cached_sub_grids_mirror_board_witness :
  get2 (board free_choice) 13 10 = Some "X"
  ∧ get4 (blocks_state_3x3 free_choice) 4 3 1 1 = Some "X".
Proof.
  destruct (cached_sub_grids_mirror_board free_choice free_choice_reachable 13 10)
    as (mark & Hb & Hs); [lia..|].
  assert (mark = "X") as -> by (vm_compute in Hb; congruence).
  split; [exact Hb|exact Hs].
Defined.

(** ** C3: what is written once, and what is not *)

Lemma apply_move_blocks_3x3 s row col ok s' :
  apply_move s row col = Some (ok, s') →
  blocks_3x3 s' = blocks_3x3 s
  ∨ set2 (blocks_3x3 s) (row / 3) (col / 3) (current_player s) = Some (blocks_3x3 s').
Proof. apply_move_cases. all: by eauto. Qed.

(** A mark on the board is never changed by a later move. *)
Lemma cell_write_once s s' r c mark :
  later s s' → 0 ≤ r → 0 ≤ c →
  get2 (board s) r c = Some mark → mark ≠ "" → get2 (board s') r c = Some mark.
Proof.
  intros Hlater Hr Hc Hcell Hmark.
  induction Hlater as [|s1 row col ok s2 _ IH Hmove]; [done|].
  apply make_move_inv in Hmove as [[-> ->]|(-> & Hall & Happ)]; [done|].
  destruct Hall as (_ & [Hrow Hcol] & Hempty & _). unfold check3 in Hempty.
  apply apply_move_writes in Happ as (_ & Hboard & _).
  rewrite (get2_set2_ne _ _ _ _ _ r c (proj1 Hrow) (proj1 Hcol) Hr Hc Hboard); [done|].
  intros [-> ->]. congruence.
Qed.

(** The winner of a 3x3 block is never changed by a later move. *)
Lemma micro_winner_write_once s s' r c mark :
  later s s' → 0 ≤ r → 0 ≤ c →
  get2 (blocks_3x3 s) r c = Some mark → mark ≠ "" →
  get2 (blocks_3x3 s') r c = Some mark.
Proof.
  intros Hlater Hr Hc Hcell Hmark.
  induction Hlater as [|s1 row col ok s2 _ IH Hmove]; [done|].
  apply make_move_inv in Hmove as [[-> ->]|(-> & Hall & Happ)]; [done|].
  destruct Hall as (_ & [Hrow Hcol] & _ & _ & _ & Hunwon). unfold check6 in Hunwon.
  apply apply_move_blocks_3x3 in Happ as [->|Hset]; [done|].
  rewrite (get2_set2_ne (blocks_3x3 s1) (row / 3) (col / 3) (current_player s1)
             (blocks_3x3 s2) r c);
    [done|Z.div_mod_to_equations; lia..|done|done|done|].
  intros [-> ->]. congruence.
Qed.

Lemma before_overwrite_reachable : reachable before_overwrite.
Proof.
  apply (play_reachable __init__ moves_overwrite); [apply reachable_init|].
  vm_compute. reflexivity.
Qed.

(** C3 fails for [blocks_9x9]: in a game played from a fresh state, the
    entry of the 9x9 block (1, 1), set to X at move 35, is set to O by the
    accepted move 42. *)
Theorem macro_winner_is_overwritten :
  play __init__ moves_overwrite = Some before_overwrite
  ∧ current_player before_overwrite = "O"
  ∧ get2 (blocks_9x9 before_overwrite) 1 1 = Some "X"
  ∧ ∃ s', make_move before_overwrite 15 16 = Some (true, s')
          ∧ get2 (blocks_9x9 s') 1 1 = Some "O"
          ∧ status s' = "playing".
Proof.
  split_and!; [vm_compute; reflexivity..|].
  eexists. split_and!; vm_compute; reflexivity.
Qed.

(** ** C1: [make_move] against [get_valid_moves] *)

(** C1 fails.  After the 26 moves of [moves_free_choice] the game goes on,
    both selectors are [None] and the 9x9 block (1, 1) is won.  The cell
    (9, 9) lies in it, in a 3x3 block nobody has won: [make_move] accepts
    the move, and [get_valid_moves] does not list it. *)
Theorem make_move_accepts_unlisted_move :
  reachable free_choice
  ∧ status free_choice = "playing"
  ∧ active_9x9_block free_choice = None
  ∧ get2 (blocks_9x9 free_choice) 1 1 = Some "X"
  ∧ (∃ s', make_move free_choice 9 9 = Some (true, s'))
  ∧ ∃ valid_moves, get_valid_moves free_choice = Some valid_moves
                   ∧ (9, 9) ∉ valid_moves.
Proof.
  split_and!; [exact free_choice_reachable|vm_compute; reflexivity..| |].
  - eexists. vm_compute. reflexivity.
  - eexists. split; [vm_compute; reflexivity|].
    apply (bool_decide_unpack _). vm_compute. exact I.
Qed.

(** ** C1, the half that holds: listed moves are accepted *)

Lemma selectors_ok_init : selectors_ok __init__.
Proof. intros _. split; intros p; discriminate. Qed.

Lemma selectors_ok_redirect s m_row m_col t_row t_col ok s' :
  0 ≤ m_row < 3 → 0 ≤ m_col < 3 → 0 ≤ t_row < 3 → 0 ≤ t_col < 3 →
  redirect s m_row m_col t_row t_col = Some (ok, s') → selectors_ok s'.
Proof.
  intros Hmr Hmc Htr Htc. unfold redirect.
  destruct (get2 (blocks_3x3 s) _ _) as [w|] eqn:Hw; simpl_fields; [|done].
  intros [= <- <-] _. simpl_fields. split.
  - intros p [= <-]. by exists m_row, m_col.
  - intros p. case_bool_decide as Hne; [done|]. intros [= <-].
    exists m_row, m_col, t_row, t_col. split_and!; try done; try lia.
    by rewrite Hw, Hne.
Qed.

Lemma selectors_ok_move s row col ok s' :
  selectors_ok s → make_move s row col = Some (ok, s') → selectors_ok s'.
Proof.
  intros Hinv [[-> ->]|(-> & Hall & Happ)]%make_move_inv; [done|].
  destruct Hall as (_ & [Hr Hc] & _).
  unfold apply_move in Happ.
  destruct (place s row col) as [s1|]; simpl_fields; [|done].
  destruct (_check_block_3x3_win s1 _ _) as [[]|]; simpl_fields; [| |done].
  - destruct (record_win s1 row col) as [[s2|s2]|] eqn:Hrec; simpl_fields; [| |done].
    + injection Happ as <-. apply record_win_inl in Hrec.
      intros Hst. rewrite Hrec in Hst. by apply wins_is_not_playing in Hst.
    + destruct (get2 (blocks_9x9 s2) _ _) as [w|]; simpl_fields; [|done].
      case_bool_decide.
      * injection Happ as <-. intros _. simpl_fields. split; intros p; discriminate.
      * eapply selectors_ok_redirect; [..|exact Happ]; Z.div_mod_to_equations; lia.
  - eapply selectors_ok_redirect; [..|exact Happ]; Z.div_mod_to_equations; lia.
Qed.

Lemma reachable_selectors_ok s : reachable s → selectors_ok s.
Proof.
  induction 1 as [|s row col ok s' _ IH Hmove|s _ _].
  - exact selectors_ok_init.
  - by eapply selectors_ok_move.
  - exact selectors_ok_init.
Qed.

Lemma elem_of_for_each {A B} (f : A → option (list B)) l ys y :
  for_each f l = Some ys → y ∈ ys → ∃ x zs, x ∈ l ∧ f x = Some zs ∧ y ∈ zs.
Proof.
  revert ys. induction l as [|x l IH]; intros ys; simpl.
  - intros [= <-] Hy. by apply elem_of_nil in Hy.
  - destruct (f x) as [zs|] eqn:Hfx; simpl; [|done].
    destruct (for_each f l) as [ys'|]; simpl; [|done].
    intros [= <-] [Hy|Hy]%elem_of_app.
    + exists x, zs. split_and!; [left|done|done].
    + destruct (IH ys' eq_refl Hy) as (x' & zs' & Hx' & Hfx' & Hy').
      exists x', zs'. split_and!; [by right|done|done].
Qed.

(** The cells the innermost loops of [get_valid_moves] list for one 3x3
    block: the empty cells of that block. *)
Lemma elem_of_block_cells s start_row start_col cells row col :
  for_each (λ row,
    for_each (λ col,
      cell ← get2 (board s) row col;
      Some (if bool_decide (cell = "") then [(row, col)] else []))
    (range_from3 start_col)) (range_from3 start_row) = Some cells →
  (row, col) ∈ cells →
  start_row ≤ row < start_row + 3 ∧ start_col ≤ col < start_col + 3
  ∧ get2 (board s) row col = Some "".
Proof.
  intros Hcells Hin.
  apply (elem_of_for_each _ _ _ _ Hcells) in Hin as (r & zs & Hr & Hzs & Hin).
  apply (elem_of_for_each _ _ _ _ Hzs) in Hin as (c & zs' & Hc & Hzs' & Hin).
  destruct (get2 (board s) r c) as [cell|] eqn:Hcell; simpl in Hzs'; [|done].
  injection Hzs' as <-. case_bool_decide as Hempty; [|by apply elem_of_nil in Hin].
  apply list_elem_of_singleton in Hin as [= -> ->]. subst cell.
  unfold range_from3 in Hr, Hc.
  rewrite !elem_of_cons, elem_of_nil in Hr. rewrite !elem_of_cons, elem_of_nil in Hc.
  split_and!; [lia..|done].
Qed.

(** The 3x3 blocks the middle loops list when the opponent is free inside a
    9x9 block: its blocks without a winner. *)
Lemma elem_of_unwon_3x3 s b9x9_row b9x9_col blocks b3 :
  for_each (λ b3x3_row,
    for_each (λ b3x3_col,
      w ← get2 (blocks_3x3 s) (b9x9_row * 3 + b3x3_row) (b9x9_col * 3 + b3x3_col);
      Some (if bool_decide (w = "") then [Tup b3x3_row b3x3_col] else []))
    range3) range3 = Some blocks →
  b3 ∈ blocks →
  ∃ r c, b3 = Tup r c ∧ 0 ≤ r < 3 ∧ 0 ≤ c < 3
         ∧ get2 (blocks_3x3 s) (b9x9_row * 3 + r) (b9x9_col * 3 + c) = Some "".
Proof.
  intros Hblocks Hin.
  apply (elem_of_for_each _ _ _ _ Hblocks) in Hin as (r & zs & Hr & Hzs & Hin).
  apply (elem_of_for_each _ _ _ _ Hzs) in Hin as (c & zs' & Hc & Hzs' & Hin).
  destruct (get2 (blocks_3x3 s) _ _) as [w|] eqn:Hw; simpl in Hzs'; [|done].
  injection Hzs' as <-. case_bool_decide as Hempty; [|by apply elem_of_nil in Hin].
  apply list_elem_of_singleton in Hin as ->. subst w.
  unfold range3 in Hr, Hc.
  rewrite !elem_of_cons, elem_of_nil in Hr. rewrite !elem_of_cons, elem_of_nil in Hc.
  exists r, c. split_and!; [done|lia..|done].
Qed.

(** What [get_valid_moves] lists, read off its three nested loops: a cell
    is listed only if the game goes on, it is empty, and it lies in a 3x3
    block [b3] of a 9x9 block [b9] that the loops have selected. *)
Lemma listed_move_inv s valid_moves row col :
  get_valid_moves s = Some valid_moves → (row, col) ∈ valid_moves →
  status s = "playing"
  ∧ ∃ b9 b3 mr mc tr tc,
      unpack b9 = (mr, mc) ∧ unpack b3 = (tr, tc)
      ∧ match active_9x9_block s with
        | Some p => b9 = p
        | None => b9 = Tup mr mc ∧ 0 ≤ mr < 3 ∧ 0 ≤ mc < 3
                  ∧ get2 (blocks_9x9 s) mr mc = Some ""
        end
      ∧ match (if eq_tuple (active_9x9_block s) mr mc
               then active_3x3_block s else None) with
        | Some p => b3 = p
        | None => b3 = Tup tr tc ∧ 0 ≤ tr < 3 ∧ 0 ≤ tc < 3
                  ∧ get2 (blocks_3x3 s) (mr * 3 + tr) (mc * 3 + tc) = Some ""
        end
      ∧ (mr * 3 + tr) * 3 ≤ row < (mr * 3 + tr) * 3 + 3
      ∧ (mc * 3 + tc) * 3 ≤ col < (mc * 3 + tc) * 3 + 3
      ∧ get2 (board s) row col = Some "".
Proof.
  intros Hvalid Hin. unfold get_valid_moves in Hvalid.
  case_bool_decide as Hst; [injection Hvalid as <-; by apply elem_of_nil in Hin|].
  split; [done|].
  match type of Hvalid with
  | ?m ≫= _ = _ => destruct m as [macros|] eqn:Hmacros
  end; cbn [mbind option_bind] in Hvalid; [|done].
  apply (elem_of_for_each _ _ _ _ Hvalid) in Hin as (b9 & zs & Hb9 & Hzs & Hin).
  destruct (unpack b9) as [mr mc] eqn:Hu9.
  match type of Hzs with
  | ?m ≫= _ = _ => destruct m as [blocks|] eqn:Hblocks
  end; cbn [mbind option_bind] in Hzs; [|done].
  apply (elem_of_for_each _ _ _ _ Hzs) in Hin as (b3 & cells & Hb3 & Hcells & Hin).
  destruct (unpack b3) as [tr tc] eqn:Hu3.
  apply (elem_of_block_cells _ _ _ _ _ _ Hcells) in Hin as (Hr & Hc & Hcell).
  exists b9, b3, mr, mc, tr, tc. split_and!; try done.
  - destruct (active_9x9_block s) as [p|].
    + injection Hmacros as <-. by apply list_elem_of_singleton in Hb9.
    + apply (elem_of_for_each _ _ _ _ Hmacros) in Hb9 as (r & ys & Hr9 & Hys & Hb9).
      apply (elem_of_for_each _ _ _ _ Hys) in Hb9 as (c & ys' & Hc9 & Hys' & Hb9).
      destruct (get2 (blocks_9x9 s) r c) as [w|] eqn:Hw;
        cbn [mbind option_bind] in Hys'; [|done].
      injection Hys' as <-. case_bool_decide; [|by apply elem_of_nil in Hb9].
      apply list_elem_of_singleton in Hb9 as ->. injection Hu9 as <- <-. subst w.
      unfold range3 in Hr9, Hc9.
      rewrite !elem_of_cons, elem_of_nil in Hr9.
      rewrite !elem_of_cons, elem_of_nil in Hc9.
      split_and!; [done|lia..|done].
  - destruct (if eq_tuple (active_9x9_block s) mr mc then active_3x3_block s else None)
      as [p|].
    + injection Hblocks as <-. by apply list_elem_of_singleton in Hb3.
    + apply (elem_of_unwon_3x3 _ _ _ _ _ Hblocks) in Hb3
        as (r & c & -> & Hr3 & Hc3 & Hun).
      injection Hu3 as <- <-. split_and!; try done; lia.
  - lia.
  - lia.
  - lia.
  - lia.
Qed.

(** In every reachable state, each move [get_valid_moves] lists is accepted
    by [make_move]. *)
Lemma listed_move_is_accepted s valid_moves row col :
  reachable s → get_valid_moves s = Some valid_moves → (row, col) ∈ valid_moves →
  ∃ s', make_move s row col = Some (true, s').
Proof.
  intros Hreach Hvalid Hin.
  pose proof (reachable_wf _ Hreach) as Hwf.
  pose proof (reachable_selectors_ok _ Hreach) as Hsel.
  apply make_move_accepted; [done|].
  destruct (listed_move_inv _ _ _ _ Hvalid Hin)
    as (Hst & b9 & b3 & mr & mc & tr & tc & Hu9 & Hu3 & H9 & H3 & Hr & Hc & Hcell).
  destruct (Hsel Hst) as [Hsel9 Hsel3].
  assert (0 ≤ mr < 3 ∧ 0 ≤ mc < 3) as [Hmr Hmc].
  { destruct (active_9x9_block s) as [p|]; [|by destruct H9 as (_ & ? & ? & _)].
    subst b9. destruct (Hsel9 p eq_refl) as (r & c & -> & ? & ?).
    by injection Hu9 as <- <-. }
  assert (0 ≤ tr < 3 ∧ 0 ≤ tc < 3
          ∧ get2 (blocks_3x3 s) (mr * 3 + tr) (mc * 3 + tc) = Some ""
          ∧ ∀ p, active_3x3_block s = Some p → unpack p = (tr, tc))
    as (Htr & Htc & Hun & Hpin).
  { destruct (active_3x3_block s) as [p3|] eqn:Ha3.
    - destruct (Hsel3 p3 eq_refl) as (mr' & mc' & tr' & tc' & Ha9 & -> & ? & ? & Hun).
      rewrite Ha9 in H9, H3. subst b9. injection Hu9 as <- <-.
      cbn [eq_tuple] in H3. rewrite bool_decide_true in H3 by done. subst b3.
      injection Hu3 as <- <-. split_and!; try done; try lia. by intros p [= <-].
    - assert (b3 = Tup tr tc ∧ 0 ≤ tr < 3 ∧ 0 ≤ tc < 3
              ∧ get2 (blocks_3x3 s) (mr * 3 + tr) (mc * 3 + tc) = Some "")
        as (_ & ? & ? & ?) by (by destruct (eq_tuple _ _ _)).
      split_and!; try done; lia. }
  assert (row / 9 = mr ∧ col / 9 = mc ∧ (row / 3) mod 3 = tr ∧ (col / 3) mod 3 = tc
          ∧ row / 3 = mr * 3 + tr ∧ col / 3 = mc * 3 + tc)
    as (E1 & E2 & E3 & E4 & E5 & E6) by (Z.div_mod_to_equations; lia).
  split_and!; unfold check1, check2, check3, check4, check5, check6;
    [done|lia|done| | |].
  - intros p Hp. rewrite Hp in H9. subst b9. by rewrite Hu9, E1, E2.
  - intros _ p Hp. by rewrite (Hpin p Hp), E3, E4.
  - by rewrite E5, E6.
Qed.

(** ** C8: saving and loading *)

Import GamePersistence.

Lemma list_of_json_of_list {A} (f : A → json) (g : json → option A) (l : list A) :
  (∀ x, g (f x) = Some x) → list_of_json g (json_of_list f l) = Some l.
Proof. intros Hfg. unfold list_of_json, json_of_list. by apply mapM_fmap_Some. Qed.

Lemma grid_of_json_of_grid g : grid_of_json (json_of_grid g) = Some g.
Proof.
  apply list_of_json_of_list. intros row. by apply list_of_json_of_list.
Qed.

Lemma grid4_of_json_of_grid4 g : grid4_of_json (json_of_grid4 g) = Some g.
Proof.
  apply list_of_json_of_list. intros row. apply list_of_json_of_list.
  apply grid_of_json_of_grid.
Qed.

Lemma selector_of_json_of_selector p :
  selector_of_json (json_of_selector p) = Some (as_list p).
Proof. by destruct p as [[]|]. Qed.

(** Loading a saved game never fails.  It gives back the two names and a
    state with the same seven grids and strings; the two selectors hold the
    same numbers but are lists, whatever they were. *)
Lemma load_save game px po now :
  load_game (save_game game px po now)
  = Some (with_active (as_list (active_9x9_block game))
            (as_list (active_3x3_block game)) game, px, po).
Proof.
  unfold load_game, save_game. cbn [d_player_x_name d_player_o_name d_current_player
    d_status d_board d_blocks_3x3 d_blocks_9x9 d_blocks_state_3x3 d_blocks_state_9x9
    d_active_9x9_block d_active_3x3_block d_saved_at str_of_json].
  rewrite !grid_of_json_of_grid, !grid4_of_json_of_grid4, !selector_of_json_of_selector.
  by destruct game.
Qed.

(** C8 fails on the two selectors.  The state after the first move holds the
    tuples [(0, 0)]; the loaded state holds the lists [[0, 0]], which Python
    does not compare equal to them.  The difference is seen by
    [get_valid_moves], which compares the selector with a tuple: on the
    loaded state it no longer confines O to the 3x3 block (0, 0) and lists
    80 cells where the saved state lists 8. *)
Theorem load_save_turns_tuples_into_lists :
  ∃ loaded,
    load_game (save_game after_first_move "x" "o" "now") = Some (loaded, "x", "o")
    ∧ loaded ≠ after_first_move
    ∧ active_9x9_block after_first_move = Some (Tup 0 0)
    ∧ active_9x9_block loaded = Some (Lst 0 0)
    ∧ active_3x3_block after_first_move = Some (Tup 0 0)
    ∧ active_3x3_block loaded = Some (Lst 0 0)
    ∧ (length <$> get_valid_moves after_first_move) = Some 8%nat
    ∧ (length <$> get_valid_moves loaded) = Some 80%nat.
Proof.
  eexists. split; [apply load_save|].
  split_and!; try (vm_compute; reflexivity).
  intros Heq. apply (f_equal active_9x9_block) in Heq. vm_compute in Heq. discriminate.
Qed.

(** * More properties of the engine *)

(** ** The steps of an accepted move *)

(** Everything an accepted move does, step by step: the mark is placed;
    if that completes a line in the 3x3 block, the block's winner is
    recorded in both places; if that completes a line in the 9x9 block, its
    winner is recorded; if that completes a line of 9x9 blocks, the status
    names the mover and the player is kept, otherwise the player is
    switched. *)
Lemma apply_move_steps s row col ok s' :
  apply_move s row col = Some (ok, s') →
  ∃ s1 won3,
    place s row col = Some s1
    ∧ _check_block_3x3_win s1 (row / 3) (col / 3) = Some won3
    ∧ if won3 : bool then
        ∃ b3 st9 won9,
          set2 (blocks_3x3 s) (row / 3) (col / 3) (current_player s) = Some b3
          ∧ set4 (blocks_state_9x9 s) (row / 9) (col / 9)
              ((row / 3) mod 3) ((col / 3) mod 3) (current_player s) = Some st9
          ∧ blocks_3x3 s' = b3 ∧ blocks_state_9x9 s' = st9
          ∧ _check_block_9x9_win (with_blocks_state_9x9 st9 (with_blocks_3x3 b3 s1))
              (row / 9) (col / 9) = Some won9
          ∧ if won9 : bool then
              ∃ b9 game_won,
                set2 (blocks_9x9 s) (row / 9) (col / 9) (current_player s) = Some b9
                ∧ blocks_9x9 s' = b9
                ∧ _check_game_win
                    (with_blocks_9x9 b9
                       (with_blocks_state_9x9 st9 (with_blocks_3x3 b3 s1)))
                  = Some game_won
                ∧ if game_won : bool
                  then status s' = current_player s +:+ "_wins"
                       ∧ current_player s' = current_player s
                  else status s' = status s
                       ∧ current_player s' = other_player (current_player s)
            else blocks_9x9 s' = blocks_9x9 s ∧ status s' = status s
                 ∧ current_player s' = other_player (current_player s)
      else blocks_3x3 s' = blocks_3x3 s ∧ blocks_state_9x9 s' = blocks_state_9x9 s
           ∧ blocks_9x9 s' = blocks_9x9 s ∧ status s' = status s
           ∧ current_player s' = other_player (current_player s).
Proof.
  apply_move_cases.
  all: do 2 eexists; split; [reflexivity|]; split; [eassumption|]; cbv iota.
  all: try by split_and!.
  all: do 3 eexists; split_and!; try first [reflexivity|eassumption]; cbv iota.
  all: try by split_and!.
  all: do 2 eexists; split_and!; try first [reflexivity|eassumption]; cbv iota.
  all: by split_and!.
Qed.

(** ** The cache of 3x3-block winners *)

Lemma winners_mirrored_init : winners_mirrored __init__.
Proof.
  intros r c Hr Hc. exists "". unfold __init__, get4. simpl_fields.
  split; [by apply get2_replicate|].
  rewrite get2_replicate by (Z.div_mod_to_equations; lia). cbn [mbind option_bind].
  apply get2_replicate; Z.div_mod_to_equations; lia.
Qed.

Lemma winners_mirrored_move s row col ok s' :
  winners_mirrored s → make_move s row col = Some (ok, s') → winners_mirrored s'.
Proof.
  intros Hm [[-> ->]|(-> & Hall & Happ)]%make_move_inv; [done|].
  destruct Hall as (_ & [Hr Hc] & _).
  apply apply_move_steps in Happ as (s1 & won3 & _ & _ & Hsteps).
  intros r c Hr' Hc'. destruct (Hm r c Hr' Hc') as (mark & Hb & Hs).
  destruct won3.
  - destruct Hsteps as (b3 & st9 & won9 & Hb3 & Hst9 & -> & -> & _).
    rewrite (get2_set2 _ (row / 3) (col / 3) _ _ r c) by
      first [exact Hb3 | Z.div_mod_to_equations; lia].
    rewrite (get4_set4 _ (row / 9) (col / 9) ((row / 3) mod 3) ((col / 3) mod 3) _ _
               (r / 3) (c / 3) (r mod 3) (c mod 3)) by
      first [exact Hst9 | Z.div_mod_to_equations; lia].
    destruct (decide (r = row / 3 ∧ c = col / 3)) as [[-> ->]|Hne].
    + rewrite bool_decide_true by done.
      rewrite bool_decide_true by (Z.div_mod_to_equations; lia). eauto.
    + rewrite (bool_decide_false (r = row / 3 ∧ c = col / 3)) by done.
      rewrite bool_decide_false by (Z.div_mod_to_equations; lia). eauto.
  - destruct Hsteps as (-> & -> & _). eauto.
Qed.

(** In every state reached from a fresh game, the sub-grid of 3x3-block
    winners kept inside each 9x9 block repeats [blocks_3x3]. *)
Theorem winner_sub_grids_mirror_blocks_3x3 s :
  reachable s →
  ∀ r c, 0 ≤ r < 9 → 0 ≤ c < 9 →
    ∃ mark, get2 (blocks_3x3 s) r c = Some mark
            ∧ get4 (blocks_state_9x9 s) (r / 3) (c / 3) (r mod 3) (c mod 3)
              = Some mark.
Proof.
  induction 1 as [|s row col ok s' _ IH Hmove|s _ _].
  - exact winners_mirrored_init.
  - exact (winners_mirrored_move _ _ _ _ _ IH Hmove).
  - exact winners_mirrored_init.
Qed.

(** The 3x3 block (4, 3) after the 26 moves of [moves_free_choice]: won by
    X in [blocks_3x3] and in the sub-grid of the 9x9 block (1, 1). *)
Lemma winner_sub_grids_mirror_blocks_3x3_witness :
  get2 (blocks_3x3 free_choice) 4 3 = Some "X"
  ∧ get4 (blocks_state_9x9 free_choice) 1 1 1 0 = Some "X".
Proof.
  destruct (winner_sub_grids_mirror_blocks_3x3 free_choice free_choice_reachable 4 3)
    as (mark & Hb & Hs); [lia..|].
  assert (mark = "X") as -> by (vm_compute in Hb; congruence).
  split; [exact Hb|exact Hs].
Defined.

(** ** Recorded winners hold lines *)

Lemma grid_lines_nonneg line (p : Z * Z) :
  line ∈ grid_lines → p ∈ line → 0 ≤ p.1 ∧ 0 ≤ p.2.
Proof.
  unfold grid_lines. intros Hline Hp.
  repeat (apply elem_of_cons in Hline as [->|Hline]);
    [..|by apply elem_of_nil in Hline].
  all: repeat (apply elem_of_cons in Hp as [->|Hp]); [..|by apply elem_of_nil in Hp].
  all: simpl; lia.
Qed.

(** A line of [mark] survives a write to an entry that did not hold
    [mark]. *)
Lemma line_complete_set2_other block i j x block' old mark :
  0 ≤ i → 0 ≤ j → set2 block i j x = Some block' →
  get2 block i j = Some old → old ≠ mark →
  line_complete block mark = true → line_complete block' mark = true.
Proof.
  intros Hi Hj Hset Hold Hne. rewrite !line_complete_iff.
  intros (line & Hline & Hall). exists line. split; [done|].
  intros p Hp. destruct (grid_lines_nonneg _ _ Hline Hp) as [Hp1 Hp2].
  rewrite (get2_set2_ne _ _ _ _ _ _ _ Hi Hj Hp1 Hp2 Hset); [by apply Hall|].
  intros [E1 E2]. specialize (Hall p Hp). rewrite E1, E2 in Hall. congruence.
Qed.

Lemma set4_sub {A} (g : list (list (list (list A)))) r c i j x g' :
  0 ≤ r → 0 ≤ c → set4 g r c i j x = Some g' →
  ∃ sub sub', get2 g r c = Some sub ∧ set2 sub i j x = Some sub'
              ∧ get2 g' r c = Some sub'.
Proof.
  intros Hr Hc. unfold set4.
  destruct (get2 g r c) as [sub|] eqn:Hs; simpl; [|done].
  destruct (set2 sub i j x) as [sub'|] eqn:Hs'; simpl; [|done].
  intros Hset. exists sub, sub'. split_and!; [done..|].
  by apply (get2_set2_eq _ _ _ _ _ Hr Hc Hset).
Qed.

Lemma micro_winners_have_lines_init : micro_winners_have_lines __init__.
Proof.
  intros r c mark Hr Hc Hb Hne. unfold __init__ in Hb. simpl_fields.
  rewrite get2_replicate in Hb by lia. congruence.
Qed.

Lemma micro_winners_have_lines_move s row col ok s' :
  wf_shape s → micro_winners_have_lines s →
  make_move s row col = Some (ok, s') → micro_winners_have_lines s'.
Proof.
  intros Hwf Hinv [[-> ->]|(-> & Hall & Happ)]%make_move_inv; [done|].
  pose proof Hall as (_ & [Hrow Hcol] & _ & _ & _ & Hunwon). unfold check6 in Hunwon.
  pose proof (apply_move_wf _ _ _ _ _ Hwf (proj1 Hrow) (proj1 Hcol) Happ) as Hwf'.
  pose proof (apply_move_writes _ _ _ _ _ Happ) as (_ & _ & Hstate).
  pose proof (apply_move_steps _ _ _ _ _ Happ) as (s1 & won3 & Hplace & Hcheck & Hsteps).
  intros r c mark Hr Hc Hb Hne.
  destruct (decide (r = row / 3 ∧ c = col / 3)) as [[-> ->]|Hother].
  - destruct won3.
    + destruct Hsteps as (b3 & st9 & won9 & Hb3 & _ & Hb3' & _).
      rewrite Hb3' in Hb.
      rewrite (get2_set2_eq _ _ _ _ _ (proj1 Hr) (proj1 Hc) Hb3) in Hb.
      injection Hb as <-.
      destruct (get2_in_range 9 9 (blocks_state_3x3 s') (row / 3) (col / 3))
        as [block Hblock]; [apply Hwf'|lia..|].
      exists block. split; [done|].
      destruct (apply_move_block_won _ _ _ _ _ Hwf (proj1 Hrow) (proj1 Hcol) Happ Hblock)
        as (s1' & Hplace' & Hcheck').
      congruence.
    + destruct Hsteps as (Hb3' & _). rewrite Hb3' in Hb. congruence.
  - assert (get2 (blocks_3x3 s) r c = Some mark) as Hb0.
    { destruct won3.
      - destruct Hsteps as (b3 & st9 & won9 & Hb3 & _ & Hb3' & _). rewrite Hb3' in Hb.
        rewrite (get2_set2_ne (blocks_3x3 s) (row / 3) (col / 3) (current_player s)
                   b3 r c) in Hb;
          [done|Z.div_mod_to_equations; lia..|exact Hb3|done].
      - destruct Hsteps as (Hb3' & _). by rewrite Hb3' in Hb. }
    destruct (Hinv r c mark Hr Hc Hb0 Hne) as (block & Hblock & Hline).
    exists block. split; [|done].
    rewrite (get2_set4_ne (blocks_state_3x3 s) (row / 3) (col / 3) (row mod 3)
               (col mod 3) (current_player s) (blocks_state_3x3 s') r c);
      [done|Z.div_mod_to_equations; lia..|exact Hstate|done].
Qed.

Lemma macro_winners_have_lines_init : macro_winners_have_lines __init__.
Proof.
  intros r c mark Hr Hc Hb Hne. unfold __init__ in Hb. simpl_fields.
  rewrite get2_replicate in Hb by lia. congruence.
Qed.

Lemma macro_winners_have_lines_move s row col ok s' :
  wf_shape s → winners_mirrored s → macro_winners_have_lines s →
  make_move s row col = Some (ok, s') → macro_winners_have_lines s'.
Proof.
  intros Hwf Hmirror Hinv [[-> ->]|(-> & Hall & Happ)]%make_move_inv; [done|].
  pose proof Hall as (_ & [Hrow Hcol] & _ & _ & _ & Hunwon). unfold check6 in Hunwon.
  pose proof (apply_move_wf _ _ _ _ _ Hwf (proj1 Hrow) (proj1 Hcol) Happ) as Hwf'.
  pose proof (apply_move_steps _ _ _ _ _ Happ) as (s1 & won3 & Hplace & Hcheck & Hsteps).
  intros r c mark Hr Hc Hb Hne.
  destruct won3; cycle 1.
  { destruct Hsteps as (_ & Hst9 & Hb9 & _). rewrite Hst9. rewrite Hb9 in Hb.
    by apply Hinv. }
  destruct Hsteps as (b3 & st9 & won9 & Hb3 & Hst9 & Hb3' & Hst9' & Hcheck9 & Hsteps).
  assert (0 ≤ row / 9 ∧ 0 ≤ col / 9) as [Hr9 Hc9] by (Z.div_mod_to_equations; lia).
  destruct (decide (r = row / 9 ∧ c = col / 9)) as [[-> ->]|Hother].
  - destruct (set4_sub _ _ _ _ _ _ _ Hr9 Hc9 Hst9) as (sub & sub' & Hsub & Hset & Hsub').
    exists sub'. split; [by rewrite Hst9'|].
    assert (is_grid 3 3 sub') as Hgrid.
    { destruct Hwf' as (_ & _ & _ & _ & [_ Hall9]). rewrite Hst9' in Hall9.
      by apply (get2_sub_grid 3 3 _ _ _ _ Hall9 Hr9 Hc9 Hsub'). }
    destruct won9.
    + destruct Hsteps as (b9 & game_won & Hb9 & Hb9' & _).
      rewrite Hb9' in Hb. rewrite (get2_set2_eq _ _ _ _ _ Hr9 Hc9 Hb9) in Hb.
      injection Hb as <-.
      rewrite (check_block_9x9_win_eq _ _ _ sub') in Hcheck9; [|done..].
      apply place_fields in Hplace as (_ & _ & _ & _ & _ & Hcp & _).
      simpl_fields. rewrite Hcp in Hcheck9. congruence.
    + destruct Hsteps as (Hb9' & _). rewrite Hb9' in Hb.
      destruct (Hinv _ _ mark Hr Hc Hb Hne) as (block & Hblock & Hline).
      assert (block = sub) as -> by congruence.
      destruct (Hmirror (row / 3) (col / 3)) as (old & Hold & Hold4);
        [Z.div_mod_to_equations; lia..|].
      assert (old = "") as -> by congruence.
      unfold get4 in Hold4.
      replace (row / 3 / 3) with (row / 9) in Hold4 by (Z.div_mod_to_equations; lia).
      replace (col / 3 / 3) with (col / 9) in Hold4 by (Z.div_mod_to_equations; lia).
      rewrite Hsub in Hold4. cbn [mbind option_bind] in Hold4.
      eapply (line_complete_set2_other sub); [| |exact Hset|exact Hold4| |done];
        [Z.div_mod_to_equations; lia..|by intros <-].
  - assert (get2 (blocks_9x9 s) r c = Some mark) as Hb0.
    { destruct won9.
      - destruct Hsteps as (b9 & game_won & Hb9 & Hb9' & _). rewrite Hb9' in Hb.
        rewrite (get2_set2_ne (blocks_9x9 s) (row / 9) (col / 9) (current_player s)
                   b9 r c) in Hb;
          [done|lia..|exact Hb9|done].
      - destruct Hsteps as (Hb9' & _). by rewrite Hb9' in Hb. }
    destruct (Hinv r c mark Hr Hc Hb0 Hne) as (block & Hblock & Hline).
    exists block. split; [|done]. rewrite Hst9'.
    rewrite (get2_set4_ne (blocks_state_9x9 s) (row / 9) (col / 9) ((row / 3) mod 3)
               ((col / 3) mod 3) (current_player s) st9 r c);
      [done|lia..|exact Hst9|done].
Qed.

Lemma reachable_winners_mirrored s : reachable s → winners_mirrored s.
Proof.
  induction 1 as [|s row col ok s' _ IH Hmove|s _ _].
  - exact winners_mirrored_init.
  - exact (winners_mirrored_move _ _ _ _ _ IH Hmove).
  - exact winners_mirrored_init.
Qed.

(** In every state reached from a fresh game, a 3x3 block recorded as won
    by a player holds three of that player's marks in a row, a column or a
    diagonal. *)
Theorem micro_winner_has_a_line s r c mark :
  reachable s → 0 ≤ r < 9 → 0 ≤ c < 9 →
  get2 (blocks_3x3 s) r c = Some mark → mark ≠ "" →
  ∃ block, get2 (blocks_state_3x3 s) r c = Some block ∧ has_line block mark.
Proof.
  intros Hreach Hr Hc Hb Hne.
  assert (micro_winners_have_lines s) as Hinv.
  { clear r c mark Hr Hc Hb Hne.
    induction Hreach as [|s row col ok s' Hreach IH Hmove|s _ _].
    - exact micro_winners_have_lines_init.
    - exact (micro_winners_have_lines_move _ _ _ _ _ (reachable_wf _ Hreach) IH Hmove).
    - exact micro_winners_have_lines_init. }
  destruct (Hinv r c mark Hr Hc Hb Hne) as (block & Hblock & Hline).
  exists block. split; [done|]. by apply line_complete_iff.
Qed.

(** The 3x3 block (4, 1) after the 26 moves of [moves_free_choice], won by O
    with its left column. *)
Lemma micro_winner_has_a_line_witness :
  ∃ block, get2 (blocks_state_3x3 free_choice) 4 1 = Some block ∧ has_line block "O".
Proof.
  apply (micro_winner_has_a_line free_choice 4 1 "O" free_choice_reachable);
    [lia|lia|vm_compute; reflexivity|discriminate].
Defined.

(** In every state reached from a fresh game, a 9x9 block recorded as won
    by a player holds three 3x3 blocks won by that player in a row, a
    column or a diagonal.  This holds although the recorded winner can be
    replaced: the replacing player holds a line as well. *)
Theorem macro_winner_has_a_line s r c mark :
  reachable s → 0 ≤ r < 3 → 0 ≤ c < 3 →
  get2 (blocks_9x9 s) r c = Some mark → mark ≠ "" →
  ∃ block, get2 (blocks_state_9x9 s) r c = Some block ∧ has_line block mark.
Proof.
  intros Hreach Hr Hc Hb Hne.
  assert (macro_winners_have_lines s) as Hinv.
  { clear r c mark Hr Hc Hb Hne.
    induction Hreach as [|s row col ok s' Hreach IH Hmove|s _ _].
    - exact macro_winners_have_lines_init.
    - exact (macro_winners_have_lines_move _ _ _ _ _ (reachable_wf _ Hreach)
               (reachable_winners_mirrored _ Hreach) IH Hmove).
    - exact macro_winners_have_lines_init. }
  destruct (Hinv r c mark Hr Hc Hb Hne) as (block & Hblock & Hline).
  exists block. split; [done|]. by apply line_complete_iff.
Qed.

(** The 9x9 block (1, 1) after the 26 moves of [moves_free_choice], won by
    X with its middle row of 3x3 blocks. *)
Lemma macro_winner_has_a_line_witness :
  ∃ block, get2 (blocks_state_9x9 free_choice) 1 1 = Some block ∧ has_line block "X".
Proof.
  apply (macro_winner_has_a_line free_choice 1 1 "X" free_choice_reachable);
    [lia|lia|vm_compute; reflexivity|discriminate].
Defined.

(** ** The player to move and the status *)

Lemma player_and_status_ok_init : player_and_status_ok __init__.
Proof. split; by left. Qed.

Lemma other_player_X_or_O p : other_player p = "X" ∨ other_player p = "O".
Proof. unfold other_player. case_bool_decide; by eauto. Qed.

Lemma player_and_status_ok_move s row col ok s' :
  wf_shape s → player_and_status_ok s →
  make_move s row col = Some (ok, s') → player_and_status_ok s'.
Proof.
  intros Hwf [Hcp Hst] [[-> ->]|(-> & Hall & Happ)]%make_move_inv; [done|].
  pose proof Hall as (Hplaying & [Hrow Hcol] & _). unfold check1 in Hplaying.
  pose proof (apply_move_wf _ _ _ _ _ Hwf (proj1 Hrow) (proj1 Hcol) Happ) as Hwf'.
  pose proof (apply_move_steps _ _ _ _ _ Happ) as (s1 & won3 & Hplace & _ & Hsteps).
  apply place_fields in Hplace as (_ & _ & _ & _ & _ & Hcp1 & _).
  unfold player_and_status_ok.
  destruct won3; cycle 1.
  { destruct Hsteps as (_ & _ & _ & -> & ->).
    split; [apply other_player_X_or_O|by left]. }
  destruct Hsteps as (b3 & st9 & won9 & _ & _ & _ & _ & _ & Hsteps).
  destruct won9; cycle 1.
  { destruct Hsteps as (_ & -> & ->).
    split; [apply other_player_X_or_O|by left]. }
  destruct Hsteps as (b9 & game_won & _ & Hb9' & Hgame & Hsteps).
  destruct game_won; cycle 1.
  { destruct Hsteps as (-> & ->).
    split; [apply other_player_X_or_O|by left]. }
  destruct Hsteps as (Hst' & Hcp'). rewrite Hst', Hcp'. split; [done|]. right.
  split; [done|].
  rewrite check_game_win_eq in Hgame.
  - simpl_fields. rewrite <- Hb9', Hcp1 in Hgame. congruence.
  - simpl_fields. rewrite <- Hb9'. apply Hwf'.
Qed.

Lemma reachable_player_and_status_ok s : reachable s → player_and_status_ok s.
Proof.
  induction 1 as [|s row col ok s' Hreach IH Hmove|s _ _].
  - exact player_and_status_ok_init.
  - exact (player_and_status_ok_move _ _ _ _ _ (reachable_wf _ Hreach) IH Hmove).
  - exact player_and_status_ok_init.
Qed.

(** In every state reached from a fresh game the player to move is ["X"]
    or ["O"] and the status is ["playing"], ["X_wins"] or ["O_wins"]: it is
    never ["draw"], and the winner is written with a capital letter. *)
Theorem status_is_playing_or_a_win s :
  reachable s →
  (current_player s = "X" ∨ current_player s = "O")
  ∧ (status s = "playing" ∨ status s = "X_wins" ∨ status s = "O_wins").
Proof.
  intros [Hcp Hst]%reachable_player_and_status_ok. split; [done|].
  destruct Hst as [?|[Hst _]]; [by left|right].
  rewrite Hst. destruct Hcp as [->| ->]; by eauto.
Qed.

Lemma status_is_playing_or_a_win_witness :
  (current_player before_win = "X" ∨ current_player before_win = "O")
  ∧ (status before_win = "playing" ∨ status before_win = "X_wins"
     ∨ status before_win = "O_wins").
Proof. apply (status_is_playing_or_a_win before_win before_win_reachable). Defined.

(** In every state reached from a fresh game whose status is not
    ["playing"], the status names the current player, who was the last to
    move, and that player holds three 9x9 blocks in a row, a column or a
    diagonal. *)
Theorem finished_game_has_a_winning_line s :
  reachable s → status s ≠ "playing" →
  status s = current_player s +:+ "_wins"
  ∧ has_line (blocks_9x9 s) (current_player s).
Proof.
  intros [_ Hst]%reachable_player_and_status_ok Hover.
  destruct Hst as [?|[Hst Hline]]; [done|]. split; [done|].
  by apply line_complete_iff.
Qed.

(** The state after X's winning move (0, 4) of the 67-move game. *)
Lemma finished_game_has_a_winning_line_witness :
  let s := default __init__ (play before_win [(0, 4)]) in
  status s = "X_wins" ∧ has_line (blocks_9x9 s) "X".
Proof.
  assert (reachable (default __init__ (play before_win [(0, 4)]))) as Hreach.
  { apply (play_reachable before_win [(0, 4)]); [exact before_win_reachable|].
    vm_compute. reflexivity. }
  apply (finished_game_has_a_winning_line _ Hreach). vm_compute. discriminate.
Defined.

(** ** The selectors *)

Lemma record_win_selectors s row col r :
  record_win s row col = Some r →
  let s2 := match r with inl s2 => s2 | inr s2 => s2 end in
  active_9x9_block s2 = active_9x9_block s ∧ active_3x3_block s2 = active_3x3_block s.
Proof. unfold record_win. simpl_fields. repeat inv_head. all: by intros [= <-]. Qed.

Lemma selectors_shaped_init : selectors_shaped __init__.
Proof. split; intros p; discriminate. Qed.

Lemma selectors_shaped_redirect s m_row m_col t_row t_col ok s' :
  0 ≤ m_row < 3 → 0 ≤ m_col < 3 → 0 ≤ t_row < 3 → 0 ≤ t_col < 3 →
  redirect s m_row m_col t_row t_col = Some (ok, s') → selectors_shaped s'.
Proof.
  intros Hmr Hmc Htr Htc. unfold redirect.
  destruct (get2 (blocks_3x3 s) _ _) as [w|] eqn:Hw; simpl_fields; [|done].
  intros [= <- <-]. unfold selectors_shaped. simpl_fields. split.
  - intros p [= <-]. by exists m_row, m_col.
  - intros p. case_bool_decide as Hne; [done|]. intros [= <-].
    split; [by exists t_row, t_col|by eexists].
Qed.

Lemma selectors_shaped_move s row col ok s' :
  selectors_shaped s → make_move s row col = Some (ok, s') → selectors_shaped s'.
Proof.
  intros Hinv [[-> ->]|(-> & Hall & Happ)]%make_move_inv; [done|].
  destruct Hall as (_ & [Hr Hc] & _).
  unfold apply_move in Happ.
  destruct (place s row col) as [s1|] eqn:Hplace; simpl_fields; [|done].
  apply place_fields in Hplace as (_ & _ & _ & _ & _ & _ & H9 & H3 & _).
  destruct (_check_block_3x3_win s1 _ _) as [[]|]; simpl_fields; [| |done].
  - destruct (record_win s1 row col) as [[s2|s2]|] eqn:Hrec; simpl_fields; [| |done].
    + injection Happ as <-. apply record_win_selectors in Hrec as [H9' H3'].
      unfold selectors_shaped. by rewrite H9', H3', H9, H3.
    + destruct (get2 (blocks_9x9 s2) _ _) as [w|]; simpl_fields; [|done].
      case_bool_decide.
      * injection Happ as <-. unfold selectors_shaped. simpl_fields.
        split; intros p; discriminate.
      * eapply selectors_shaped_redirect; [..|exact Happ]; Z.div_mod_to_equations; lia.
  - eapply selectors_shaped_redirect; [..|exact Happ]; Z.div_mod_to_equations; lia.
Qed.

Lemma reachable_selectors_shaped s : reachable s → selectors_shaped s.
Proof.
  induction 1 as [|s row col ok s' _ IH Hmove|s _ _].
  - exact selectors_shaped_init.
  - by eapply selectors_shaped_move.
  - exact selectors_shaped_init.
Qed.

(** In every state reached from a fresh game, a set selector is a tuple of
    two block indices between 0 and 2, and [active_3x3_block] is set only
    when [active_9x9_block] is. *)
Theorem selectors_are_block_indices s :
  reachable s →
  (∀ p, active_9x9_block s = Some p →
     ∃ r c, p = Tup r c ∧ 0 ≤ r < 3 ∧ 0 ≤ c < 3)
  ∧ (∀ p, active_3x3_block s = Some p →
     (∃ r c, p = Tup r c ∧ 0 ≤ r < 3 ∧ 0 ≤ c < 3)
     ∧ is_Some (active_9x9_block s)).
Proof. exact (reachable_selectors_shaped s). Qed.

Lemma selectors_are_block_indices_witness :
  (∀ p, active_9x9_block before_free_choice = Some p →
     ∃ r c, p = Tup r c ∧ 0 ≤ r < 3 ∧ 0 ≤ c < 3)
  ∧ (∀ p, active_3x3_block before_free_choice = Some p →
     (∃ r c, p = Tup r c ∧ 0 ≤ r < 3 ∧ 0 ≤ c < 3)
     ∧ is_Some (active_9x9_block before_free_choice)).
Proof.
  apply (selectors_are_block_indices before_free_choice before_free_choice_reachable).
Defined.



(** ** [get_valid_moves] on reachable states *)

Lemma for_each_total {A B} (f : A → option (list B)) l :
  (∀ x, x ∈ l → ∃ ys, f x = Some ys) → ∃ zs, for_each f l = Some zs.
Proof.
  induction l as [|x l IH]; intros Hf; simpl; [by eauto|].
  destruct (Hf x) as [ys ->]; [by left|]. simpl.
  destruct IH as [zs ->]; [intros y Hy; apply Hf; by right|]. simpl. eauto.
Qed.

Lemma for_each_elem {A B} (f : A → option (list B)) l ys x :
  for_each f l = Some ys → x ∈ l →
  ∃ zs, f x = Some zs ∧ ∀ y, y ∈ zs → y ∈ ys.
Proof.
  revert ys. induction l as [|x' l IH]; intros ys; simpl.
  - intros _ Hx. by apply elem_of_nil in Hx.
  - destruct (f x') as [zs|] eqn:Hfx; simpl; [|done].
    destruct (for_each f l) as [ys'|]; simpl; [|done].
    intros [= <-] [->|Hx]%elem_of_cons.
    + exists zs. split; [done|]. intros y Hy. apply elem_of_app. by left.
    + destruct (IH ys' eq_refl Hx) as (zs' & Hfx' & Hsub).
      exists zs'. split; [done|]. intros y Hy. apply elem_of_app. right. by apply Hsub.
Qed.

Lemma elem_of_range_from3 start i : i ∈ range_from3 start ↔ start ≤ i < start + 3.
Proof.
  unfold range_from3. rewrite !elem_of_cons, elem_of_nil. lia.
Qed.

Lemma elem_of_range3 i : i ∈ range3 ↔ 0 ≤ i < 3.
Proof. unfold range3. rewrite !elem_of_cons, elem_of_nil. lia. Qed.

(** The innermost loops list every empty cell of the 3x3 block. *)
Lemma block_cells_complete s start_row start_col cells row col :
  for_each (λ row,
    for_each (λ col,
      cell ← get2 (board s) row col;
      Some (if bool_decide (cell = "") then [(row, col)] else []))
    (range_from3 start_col)) (range_from3 start_row) = Some cells →
  start_row ≤ row < start_row + 3 → start_col ≤ col < start_col + 3 →
  get2 (board s) row col = Some "" →
  (row, col) ∈ cells.
Proof.
  intros Hcells Hr Hc Hcell.
  apply elem_of_range_from3 in Hr. apply elem_of_range_from3 in Hc.
  destruct (for_each_elem _ _ _ _ Hcells Hr) as (zs & Hzs & Hsub).
  destruct (for_each_elem _ _ _ _ Hzs Hc) as (zs' & Hzs' & Hsub').
  rewrite Hcell in Hzs'. cbn [mbind option_bind] in Hzs'.
  rewrite bool_decide_true in Hzs' by done. injection Hzs' as <-.
  apply Hsub, Hsub'. by left.
Qed.

Lemma block_cells_total s start_row start_col :
  wf_shape s → 0 ≤ start_row ≤ 24 → 0 ≤ start_col ≤ 24 →
  ∃ cells,
    for_each (λ row,
      for_each (λ col,
        cell ← get2 (board s) row col;
        Some (if bool_decide (cell = "") then [(row, col)] else []))
      (range_from3 start_col)) (range_from3 start_row) = Some cells.
Proof.
  intros (Hb & _) Hr Hc.
  apply for_each_total. intros row Hrow%elem_of_range_from3.
  apply for_each_total. intros col Hcol%elem_of_range_from3.
  destruct (get2_in_range 27 27 _ row col Hb) as [cell ->]; [lia..|].
  cbn [mbind option_bind]. eauto.
Qed.

(** The middle loops list every 3x3 block of the 9x9 block that has no
    winner. *)
Lemma unwon_3x3_complete s b9x9_row b9x9_col blocks r c :
  for_each (λ b3x3_row,
    for_each (λ b3x3_col,
      w ← get2 (blocks_3x3 s) (b9x9_row * 3 + b3x3_row) (b9x9_col * 3 + b3x3_col);
      Some (if bool_decide (w = "") then [Tup b3x3_row b3x3_col] else []))
    range3) range3 = Some blocks →
  0 ≤ r < 3 → 0 ≤ c < 3 →
  get2 (blocks_3x3 s) (b9x9_row * 3 + r) (b9x9_col * 3 + c) = Some "" →
  Tup r c ∈ blocks.
Proof.
  intros Hblocks Hr Hc Hw.
  apply elem_of_range3 in Hr. apply elem_of_range3 in Hc.
  destruct (for_each_elem _ _ _ _ Hblocks Hr) as (zs & Hzs & Hsub).
  destruct (for_each_elem _ _ _ _ Hzs Hc) as (zs' & Hzs' & Hsub').
  rewrite Hw in Hzs'. cbn [mbind option_bind] in Hzs'.
  rewrite bool_decide_true in Hzs' by done. injection Hzs' as <-.
  apply Hsub, Hsub'. by left.
Qed.

Lemma unwon_3x3_total s b9x9_row b9x9_col :
  wf_shape s → 0 ≤ b9x9_row < 3 → 0 ≤ b9x9_col < 3 →
  ∃ blocks,
    for_each (λ b3x3_row,
      for_each (λ b3x3_col,
        w ← get2 (blocks_3x3 s) (b9x9_row * 3 + b3x3_row) (b9x9_col * 3 + b3x3_col);
        Some (if bool_decide (w = "") then [Tup b3x3_row b3x3_col] else []))
      range3) range3 = Some blocks.
Proof.
  intros (_ & H3 & _) Hr Hc.
  apply for_each_total. intros r Hr'%elem_of_range3.
  apply for_each_total. intros c Hc'%elem_of_range3.
  destruct (get2_in_range 9 9 _ (b9x9_row * 3 + r) (b9x9_col * 3 + c) H3) as [w ->];
    [lia..|].
  cbn [mbind option_bind]. eauto.
Qed.

(** The outer loops list every 9x9 block that has no winner. *)
Lemma unwon_9x9_complete s macros r c :
  for_each (λ b9x9_row,
    for_each (λ b9x9_col,
      w ← get2 (blocks_9x9 s) b9x9_row b9x9_col;
      Some (if bool_decide (w = "") then [Tup b9x9_row b9x9_col] else []))
    range3) range3 = Some macros →
  0 ≤ r < 3 → 0 ≤ c < 3 → get2 (blocks_9x9 s) r c = Some "" →
  Tup r c ∈ macros.
Proof.
  intros Hmacros Hr Hc Hw.
  apply elem_of_range3 in Hr. apply elem_of_range3 in Hc.
  destruct (for_each_elem _ _ _ _ Hmacros Hr) as (zs & Hzs & Hsub).
  destruct (for_each_elem _ _ _ _ Hzs Hc) as (zs' & Hzs' & Hsub').
  rewrite Hw in Hzs'. cbn [mbind option_bind] in Hzs'.
  rewrite bool_decide_true in Hzs' by done. injection Hzs' as <-.
  apply Hsub, Hsub'. by left.
Qed.

Lemma unwon_9x9_total s :
  wf_shape s →
  ∃ macros,
    for_each (λ b9x9_row,
      for_each (λ b9x9_col,
        w ← get2 (blocks_9x9 s) b9x9_row b9x9_col;
        Some (if bool_decide (w = "") then [Tup b9x9_row b9x9_col] else []))
      range3) range3 = Some macros
    ∧ ∀ b9, b9 ∈ macros → ∃ r c, b9 = Tup r c ∧ 0 ≤ r < 3 ∧ 0 ≤ c < 3.
Proof.
  intros (_ & _ & H9 & _).
  match goal with
  | |- ∃ macros, ?e = Some macros ∧ _ => destruct (for_each_total
        (λ b9x9_row,
          for_each (λ b9x9_col,
            w ← get2 (blocks_9x9 s) b9x9_row b9x9_col;
            Some (if bool_decide (w = "") then [Tup b9x9_row b9x9_col] else []))
          range3) range3) as [macros Hmacros]
  end.
  { intros r Hr%elem_of_range3.
    apply for_each_total. intros c Hc%elem_of_range3.
    destruct (get2_in_range 3 3 _ r c H9) as [w ->]; [lia..|].
    cbn [mbind option_bind]. eauto. }
  exists macros. split; [done|]. intros b9 Hb9.
  apply (elem_of_for_each _ _ _ _ Hmacros) in Hb9 as (r & ys & Hr & Hys & Hb9).
  apply (elem_of_for_each _ _ _ _ Hys) in Hb9 as (c & ys' & Hc & Hys' & Hb9).
  destruct (get2 (blocks_9x9 s) r c) as [w|]; cbn [mbind option_bind] in Hys'; [|done].
  injection Hys' as <-. case_bool_decide; [|by apply elem_of_nil in Hb9].
  apply list_elem_of_singleton in Hb9 as ->.
  apply elem_of_range3 in Hr. apply elem_of_range3 in Hc. by exists r, c.
Qed.

Lemma get_valid_moves_total s :
  wf_shape s → selectors_shaped s → ∃ valid_moves, get_valid_moves s = Some valid_moves.
Proof.
  intros Hwf [Hsel9 Hsel3]. unfold get_valid_moves.
  case_bool_decide; [by eauto|].
  assert (∃ macros,
            match active_9x9_block s with
            | None =>
                for_each (λ b9x9_row,
                  for_each (λ b9x9_col,
                    w ← get2 (blocks_9x9 s) b9x9_row b9x9_col;
                    Some (if bool_decide (w = "") then [Tup b9x9_row b9x9_col] else []))
                  range3) range3
            | Some p => Some [p]
            end = Some macros
            ∧ ∀ b9, b9 ∈ macros → ∃ r c, b9 = Tup r c ∧ 0 ≤ r < 3 ∧ 0 ≤ c < 3)
    as (macros & -> & Hmacros).
  { destruct (active_9x9_block s) as [p|] eqn:H9; [|by apply unwon_9x9_total].
    exists [p]. split; [done|]. intros b9 ->%list_elem_of_singleton. by apply Hsel9. }
  cbn [mbind option_bind]. apply for_each_total. intros b9 Hb9.
  destruct (Hmacros b9 Hb9) as (mr & mc & -> & Hmr & Hmc). cbn [unpack].
  assert (∃ blocks,
            match (if eq_tuple (active_9x9_block s) mr mc
                   then active_3x3_block s else None) with
            | Some p3 => Some [p3]
            | None =>
                for_each (λ b3x3_row,
                  for_each (λ b3x3_col,
                    w ← get2 (blocks_3x3 s) (mr * 3 + b3x3_row) (mc * 3 + b3x3_col);
                    Some (if bool_decide (w = "") then [Tup b3x3_row b3x3_col] else []))
                  range3) range3
            end = Some blocks
            ∧ ∀ b3, b3 ∈ blocks → ∃ r c, b3 = Tup r c ∧ 0 ≤ r < 3 ∧ 0 ≤ c < 3)
    as (blocks & -> & Hblocks).
  { destruct (if eq_tuple (active_9x9_block s) mr mc then active_3x3_block s else None)
      as [p3|] eqn:Hpin.
    - exists [p3]. split; [done|]. intros b3 ->%list_elem_of_singleton.
      destruct (eq_tuple _ _ _); [|done]. by apply Hsel3.
    - destruct (unwon_3x3_total s mr mc Hwf Hmr Hmc) as [blocks Hblocks].
      exists blocks. split; [done|]. intros b3 Hb3.
      apply (elem_of_unwon_3x3 _ _ _ _ _ Hblocks) in Hb3 as (r & c & -> & ? & ? & _).
      by exists r, c. }
  cbn [mbind option_bind]. apply for_each_total. intros b3 Hb3.
  destruct (Hblocks b3 Hb3) as (tr & tc & -> & Htr & Htc). cbn [unpack].
  apply block_cells_total; [done|lia..].
Qed.

(** In every state reached from a fresh game [get_valid_moves] returns a
    list and raises nothing.  Each cell of the list is on the board and
    empty, its 3x3 block has no winner, it lies in the 9x9 block of the
    selector when that is set, and in a 9x9 block without winner when it is
    not. *)
Theorem valid_moves_are_empty_cells s :
  reachable s →
  ∃ valid_moves,
    get_valid_moves s = Some valid_moves
    ∧ ∀ row col, (row, col) ∈ valid_moves →
        (0 ≤ row < 27 ∧ 0 ≤ col < 27)
        ∧ get2 (board s) row col = Some ""
        ∧ get2 (blocks_3x3 s) (row / 3) (col / 3) = Some ""
        ∧ match active_9x9_block s with
          | Some p => unpack p = (row / 9, col / 9)
          | None => get2 (blocks_9x9 s) (row / 9) (col / 9) = Some ""
          end.
Proof.
  intros Hreach.
  destruct (get_valid_moves_total s (reachable_wf _ Hreach)
              (reachable_selectors_shaped _ Hreach)) as [valid_moves Hvalid].
  exists valid_moves. split; [done|]. intros row col Hin.
  destruct (listed_move_is_accepted _ _ _ _ Hreach Hvalid Hin) as [s' Hmove].
  apply make_move_inv in Hmove as [[? _]|(_ & Hall & _)]; [done|].
  destruct Hall as (_ & Hrange & Hcell & H4 & _ & H6).
  split_and!; [apply Hrange..|done|done|].
  destruct (listed_move_inv _ _ _ _ Hvalid Hin)
    as (_ & b9 & b3 & mr & mc & tr & tc & Hu9 & Hu3 & H9 & H3 & Hr & Hc & _).
  destruct (active_9x9_block s) as [p|] eqn:Ha9; [by apply H4|].
  destruct H9 as (_ & Hmr & Hmc & Hw).
  assert (0 ≤ tr < 3 ∧ 0 ≤ tc < 3) as [Htr Htc].
  { cbn [eq_tuple] in H3. by destruct H3 as (_ & ? & ? & _). }
  replace (row / 9) with mr by (Z.div_mod_to_equations; lia).
  by replace (col / 9) with mc by (Z.div_mod_to_equations; lia).
Qed.

Lemma valid_moves_are_empty_cells_witness :
  ∃ valid_moves,
    get_valid_moves free_choice = Some valid_moves
    ∧ ∀ row col, (row, col) ∈ valid_moves →
        (0 ≤ row < 27 ∧ 0 ≤ col < 27)
        ∧ get2 (board free_choice) row col = Some ""
        ∧ get2 (blocks_3x3 free_choice) (row / 3) (col / 3) = Some ""
        ∧ match active_9x9_block free_choice with
          | Some p => unpack p = (row / 9, col / 9)
          | None => get2 (blocks_9x9 free_choice) (row / 9) (col / 9) = Some ""
          end.
Proof. apply (valid_moves_are_empty_cells free_choice free_choice_reachable). Defined.

(** In every state reached from a fresh game, [get_valid_moves] and
    [make_move] agree on each cell whose 9x9 block has no winner: the cell
    is listed exactly when the move is accepted. *)
Theorem listed_iff_accepted_in_unwon_macro s valid_moves row col :
  reachable s → get_valid_moves s = Some valid_moves →
  get2 (blocks_9x9 s) (row / 9) (col / 9) = Some "" →
  (row, col) ∈ valid_moves ↔ ∃ s', make_move s row col = Some (true, s').
Proof.
  intros Hreach Hvalid Hunwon. split; [by apply listed_move_is_accepted|].
  intros [s' [[? _]|(_ & Hall & _)]%make_move_inv]; [done|].
  destruct Hall as (Hst & [Hr Hc] & Hcell & H4 & H5 & H6).
  unfold check1, check3, check4, check5, check6 in *.
  destruct (reachable_selectors_ok _ Hreach Hst) as [Hsel9 Hsel3].
  assert (0 ≤ row / 9 < 3 ∧ 0 ≤ col / 9 < 3 ∧ 0 ≤ (row / 3) mod 3 < 3
          ∧ 0 ≤ (col / 3) mod 3 < 3
          ∧ row / 3 = row / 9 * 3 + (row / 3) mod 3
          ∧ col / 3 = col / 9 * 3 + (col / 3) mod 3)
    as (Hmr & Hmc & Htr & Htc & Er & Ec) by (Z.div_mod_to_equations; lia).
  unfold get_valid_moves in Hvalid.
  rewrite bool_decide_false in Hvalid by (intros Hn; by apply Hn).
  match type of Hvalid with
  | ?m ≫= _ = _ => destruct m as [macros|] eqn:Hmacros
  end; cbn [mbind option_bind] in Hvalid; [|done].
  assert (Tup (row / 9) (col / 9) ∈ macros
          ∧ (active_9x9_block s = None
             ∨ active_9x9_block s = Some (Tup (row / 9) (col / 9)))) as [Hb9 Ha9].
  { destruct (active_9x9_block s) as [p|] eqn:Ha9.
    - destruct (Hsel9 p eq_refl) as (r & c & -> & _).
      specialize (H4 _ eq_refl). injection H4 as -> ->.
      injection Hmacros as <-. split; [by left|by right].
    - split; [|by left]. by apply (unwon_9x9_complete _ _ _ _ Hmacros). }
  destruct (for_each_elem _ _ _ _ Hvalid Hb9) as (zs & Hzs & Hsub).
  apply Hsub. cbn [unpack] in Hzs.
  match type of Hzs with
  | ?m ≫= _ = _ => destruct m as [blocks|] eqn:Hblocks
  end; cbn [mbind option_bind] in Hzs; [|done].
  assert (Tup ((row / 3) mod 3) ((col / 3) mod 3) ∈ blocks) as Hb3.
  { destruct (if eq_tuple (active_9x9_block s) (row / 9) (col / 9)
              then active_3x3_block s else None) as [p3|] eqn:Hpin.
    - injection Hblocks as <-.
      destruct (eq_tuple _ _ _); [|done].
      destruct (Hsel3 p3 Hpin) as (? & ? & tr & tc & _ & -> & _).
      specialize (H5 Hunwon _ Hpin). injection H5 as -> ->. by left.
    - apply (unwon_3x3_complete _ _ _ _ _ _ Hblocks); [done..|].
      by rewrite <- Er, <- Ec. }
  destruct (for_each_elem _ _ _ _ Hzs Hb3) as (cells & Hcells & Hsub').
  apply Hsub'. cbn [unpack] in Hcells.
  apply (block_cells_complete _ _ _ _ _ _ Hcells); [|  |done];
    Z.div_mod_to_equations; lia.
Qed.

(** O's move 26 of [moves_free_choice], at (13, 3): listed and accepted. *)
Lemma listed_iff_accepted_in_unwon_macro_witness :
  ∃ valid_moves,
    get_valid_moves before_free_choice = Some valid_moves
    ∧ ((13, 3) ∈ valid_moves
       ↔ ∃ s', make_move before_free_choice 13 3 = Some (true, s')).
Proof.
  eexists. split; [vm_compute; reflexivity|].
  apply (listed_iff_accepted_in_unwon_macro before_free_choice _ 13 3
           before_free_choice_reachable); vm_compute; reflexivity.
Defined.

(** ** A full block the opponent is sent to *)

Lemma stuck_reachable : reachable stuck.
Proof.
  apply (play_reachable __init__ moves_stuck); [apply reachable_init|].
  vm_compute. reflexivity.
Qed.

(** The engine has no way out of a full block.  In a state reached from a
    fresh game, if the opponent is confined to a 3x3 block all of whose
    nine cells are taken, inside a 9x9 block without winner, then every
    [make_move] is rejected and [get_valid_moves] is empty; the status is
    still ["playing"]. *)
Theorem full_pinned_block_ends_play s p9 p3 :
  reachable s → status s = "playing" →
  active_9x9_block s = Some p9 → active_3x3_block s = Some p3 →
  get2 (blocks_9x9 s) (unpack p9).1 (unpack p9).2 = Some "" →
  (∀ i j, 0 ≤ i < 3 → 0 ≤ j < 3 →
     ∃ mark, get2 (board s) (((unpack p9).1 * 3 + (unpack p3).1) * 3 + i)
               (((unpack p9).2 * 3 + (unpack p3).2) * 3 + j) = Some mark
             ∧ mark ≠ "") →
  (∀ row col, make_move s row col = Some (false, s))
  ∧ get_valid_moves s = Some [].
Proof.
  intros Hreach Hst H9 H3 Hunwon Hfull.
  pose proof (reachable_wf _ Hreach) as Hwf.
  assert (∀ row col, make_move s row col = Some (false, s)) as Hrej.
  { intros row col. apply make_move_rejected; [done|].
    intros (_ & [Hr Hc] & Hcell & H4 & H5 & _).
    unfold check3, check4, check5 in *.
    specialize (H4 _ H9). rewrite H4 in Hunwon, Hfull. cbn [fst snd] in Hunwon, Hfull.
    specialize (H5 Hunwon _ H3). rewrite H5 in Hfull. cbn [fst snd] in Hfull.
    destruct (Hfull (row mod 3) (col mod 3)) as (mark & Hmark & Hne);
      [Z.div_mod_to_equations; lia..|].
    replace ((row / 9 * 3 + (row / 3) mod 3) * 3 + row mod 3) with row in Hmark
      by (Z.div_mod_to_equations; lia).
    replace ((col / 9 * 3 + (col / 3) mod 3) * 3 + col mod 3) with col in Hmark
      by (Z.div_mod_to_equations; lia).
    congruence. }
  split; [done|].
  destruct (get_valid_moves_total s Hwf (reachable_selectors_shaped _ Hreach))
    as [[|[row col] valid_moves] Hvalid]; [done|].
  destruct (listed_move_is_accepted s _ row col Hreach Hvalid) as [s' Hmove]; [by left|].
  rewrite Hrej in Hmove. discriminate.
Qed.

(** After the 17 moves of [moves_stuck], O is confined to the full 3x3 block
    (1, 1) of the 9x9 block (1, 1). *)
Lemma full_pinned_block_ends_play_witness :
  status stuck = "playing"
  ∧ (∀ row col, make_move stuck row col = Some (false, stuck))
  ∧ get_valid_moves stuck = Some [].
Proof.
  split; [vm_compute; reflexivity|].
  apply (full_pinned_block_ends_play stuck (Tup 1 1) (Tup 1 1) stuck_reachable);
    try (vm_compute; reflexivity).
  intros i j Hi Hj.
  assert (i = 0 ∨ i = 1 ∨ i = 2) as Hi' by lia.
  assert (j = 0 ∨ j = 1 ∨ j = 2) as Hj' by lia.
  destruct Hi' as [->|[->| ->]], Hj' as [->|[->| ->]];
    eexists; (split; [vm_compute; reflexivity|discriminate]).
Defined.

(** ** [make_move] as a total function *)

(** On a state whose grids have the dimensions [__init__] gives them,
    [make_move] raises for no pair of integers; the state after the call has
    the same dimensions; and the call returns [True] exactly when all six
    checks pass. *)
Theorem make_move_never_raises s row col :
  wf_shape s →
  ∃ ok s', make_move s row col = Some (ok, s')
           ∧ wf_shape s'
           ∧ (ok = true ↔ all_checks s row col).
Proof.
  intros Hwf. destruct (make_move_total s row col Hwf) as (ok & s' & Hmove).
  exists ok, s'. split_and!; [done|by eapply make_move_wf|].
  pose proof Hmove as [[-> ->]|(-> & Hall & _)]%make_move_inv.
  - split; [done|]. intros Hall.
    destruct (make_move_accepted s row col Hwf Hall) as [s' Hacc]. congruence.
  - done.
Qed.

(** The 42nd move of the game of [moves_overwrite]. *)
Lemma make_move_never_raises_witness :
  ∃ ok s', make_move before_overwrite 15 16 = Some (ok, s')
           ∧ wf_shape s'
           ∧ (ok = true ↔ all_checks before_overwrite 15 16).
Proof.
  apply make_move_never_raises. apply (bool_decide_unpack _). vm_compute. exact I.
Defined.

(** In every state reached from a fresh game, each move [get_valid_moves]
    lists is accepted by [make_move]. *)
Theorem every_listed_move_is_accepted s valid_moves row col :
  reachable s → get_valid_moves s = Some valid_moves → (row, col) ∈ valid_moves →
  ∃ s', make_move s row col = Some (true, s').
Proof. apply listed_move_is_accepted. Qed.

(** The first cell [get_valid_moves] lists after the 26 moves of
    [moves_free_choice]. *)
Lemma every_listed_move_is_accepted_witness :
  ∃ s', make_move free_choice 0 0 = Some (true, s').
Proof.
  destruct (get_valid_moves free_choice) as [valid_moves|] eqn:Hvalid;
    [|vm_compute in Hvalid; discriminate].
  apply (every_listed_move_is_accepted free_choice valid_moves 0 0
           free_choice_reachable Hvalid).
  vm_compute in Hvalid. injection Hvalid as <-. left.
Defined.

(** ** Written once *)

Lemma later_play s moves s' : play s moves = Some s' → later s s'.
Proof.
  revert s'. induction moves as [|[row col] moves IH] using rev_ind; intros s'.
  - intros [= <-]. constructor.
  - intros Hplay.
    assert (∃ s1, play s moves = Some s1 ∧ make_move s1 row col = Some (true, s'))
      as (s1 & Hs1 & Hmove).
    { clear IH. revert s Hplay. induction moves as [|[r c] moves IH]; intros s; simpl.
      - destruct (make_move s row col) as [[[] s1]|] eqn:Hm; simpl; [|done..].
        intros [= <-]. exists s. by split.
      - destruct (make_move s r c) as [[[] s1]|]; simpl; [|done..]. apply IH. }
    eapply later_move; [by apply IH|exact Hmove].
Qed.

(** A mark on the board is never changed by later [make_move] calls. *)
Theorem board_cell_is_written_once s s' r c mark :
  later s s' → 0 ≤ r → 0 ≤ c →
  get2 (board s) r c = Some mark → mark ≠ "" → get2 (board s') r c = Some mark.
Proof. apply cell_write_once. Qed.

(** X's first mark of the game of [moves_free_choice], 25 moves later. *)
Lemma board_cell_is_written_once_witness :
  get2 (board free_choice) 12 14 = Some "X".
Proof.
  apply (board_cell_is_written_once
           (default __init__ (play __init__ (take 1 moves_free_choice)))
           free_choice 12 14 "X"); [|lia|lia|vm_compute; reflexivity|discriminate].
  apply (later_play _ (drop 1 moves_free_choice)). vm_compute. reflexivity.
Defined.

(** The recorded winner of a 3x3 block is never changed by later
    [make_move] calls. *)
Theorem micro_winner_is_written_once s s' r c mark :
  later s s' → 0 ≤ r → 0 ≤ c →
  get2 (blocks_3x3 s) r c = Some mark → mark ≠ "" →
  get2 (blocks_3x3 s') r c = Some mark.
Proof. apply micro_winner_write_once. Qed.

(** The 3x3 block (4, 4), won by X at move 9 of [moves_free_choice], 17
    moves later. *)
Lemma micro_winner_is_written_once_witness :
  get2 (blocks_3x3 free_choice) 4 4 = Some "X".
Proof.
  apply (micro_winner_is_written_once
           (default __init__ (play __init__ (take 9 moves_free_choice)))
           free_choice 4 4 "X"); [|lia|lia|vm_compute; reflexivity|discriminate].
  apply (later_play _ (drop 9 moves_free_choice)). vm_compute. reflexivity.
Defined.

(** ** No line goes unrecorded *)

(** A line of [mark] after a write of another mark was there before. *)
Lemma line_complete_set2_inv block i j x block' mark :
  0 ≤ i → 0 ≤ j → set2 block i j x = Some block' → x ≠ mark →
  line_complete block' mark = true → line_complete block mark = true.
Proof.
  intros Hi Hj Hset Hne. rewrite !line_complete_iff.
  intros (line & Hline & Hall). exists line. split; [done|].
  intros p Hp. destruct (grid_lines_nonneg _ _ Hline Hp) as [Hp1 Hp2].
  rewrite <- (get2_set2_ne _ _ _ _ _ _ _ Hi Hj Hp1 Hp2 Hset); [by apply Hall|].
  intros [E1 E2]. specialize (Hall p Hp). rewrite E1, E2 in Hall.
  rewrite (get2_set2_eq _ _ _ _ _ Hi Hj Hset) in Hall. congruence.
Qed.

(** A line goes through an entry of the grid. *)
Lemma line_complete_entry grid mark :
  line_complete grid mark = true →
  ∃ i j, 0 ≤ i < 3 ∧ 0 ≤ j < 3 ∧ get2 grid i j = Some mark.
Proof.
  rewrite line_complete_iff. intros (line & Hline & Hall).
  unfold grid_lines in Hline.
  repeat (apply elem_of_cons in Hline as [->|Hline]);
    [..|by apply elem_of_nil in Hline].
  all: match type of Hall with
       | ∀ p, p ∈ (?i, ?j) :: _ → _ =>
           exists i, j; split_and!; [lia..|apply (Hall (i, j)); left]
       end.
Qed.

Lemma line_complete_empty (mark : string) :
  mark ≠ "" → line_complete (replicate 3 (replicate 3 "")) mark = false.
Proof.
  intros Hne. apply not_true_is_false.
  intros (i & j & Hi & Hj & Hget)%line_complete_entry.
  rewrite get2_replicate in Hget by lia. congruence.
Qed.

Lemma micro_lines_recorded_init : micro_lines_recorded __init__.
Proof.
  intros r c block mark Hr Hc Hblock Hne Hline. unfold __init__ in Hblock.
  simpl_fields. rewrite get2_replicate in Hblock by lia. injection Hblock as <-.
  by rewrite line_complete_empty in Hline.
Qed.

Lemma macro_lines_recorded_init : macro_lines_recorded __init__.
Proof.
  intros r c block mark Hr Hc Hblock Hne Hline. unfold __init__ in Hblock.
  simpl_fields. rewrite get2_replicate in Hblock by lia. injection Hblock as <-.
  by rewrite line_complete_empty in Hline.
Qed.

Lemma game_lines_recorded_init : game_lines_recorded __init__.
Proof.
  intros mark Hne Hline. unfold __init__ in Hline. simpl_fields.
  by rewrite line_complete_empty in Hline.
Qed.

Lemma micro_lines_recorded_move s row col ok s' :
  wf_shape s → micro_lines_recorded s →
  make_move s row col = Some (ok, s') → micro_lines_recorded s'.
Proof.
  intros Hwf Hinv [[-> ->]|(-> & Hall & Happ)]%make_move_inv; [done|].
  pose proof Hall as (_ & [Hrow Hcol] & _ & _ & _ & Hunwon). unfold check6 in Hunwon.
  pose proof (apply_move_wf _ _ _ _ _ Hwf (proj1 Hrow) (proj1 Hcol) Happ) as Hwf'.
  pose proof (apply_move_writes _ _ _ _ _ Happ) as (_ & _ & Hstate).
  pose proof (apply_move_steps _ _ _ _ _ Happ) as (s1 & won3 & Hplace & Hcheck & Hsteps).
  assert (0 ≤ row / 3 ∧ 0 ≤ col / 3 ∧ 0 ≤ row mod 3 ∧ 0 ≤ col mod 3)
    as (Hr3 & Hc3 & Hi3 & Hj3) by (Z.div_mod_to_equations; lia).
  intros r c block mark Hr Hc Hblock Hne Hline.
  destruct (decide (r = row / 3 ∧ c = col / 3)) as [[-> ->]|Hother].
  - destruct (set4_sub _ _ _ _ _ _ _ Hr3 Hc3 Hstate) as (sub & sub' & Hsub & Hset & Hsub').
    assert (block = sub') as -> by congruence.
    destruct (decide (current_player s = mark)) as [<-|Hcp].
    + destruct (apply_move_block_won _ _ _ _ _ Hwf (proj1 Hrow) (proj1 Hcol) Happ Hblock)
        as (s1' & Hplace' & Hcheck').
      assert (won3 = true) as -> by congruence.
      destruct Hsteps as (b3 & st9 & won9 & Hb3 & _ & -> & _).
      by apply (get2_set2_eq _ _ _ _ _ Hr3 Hc3 Hb3).
    + pose proof (line_complete_set2_inv _ _ _ _ _ _ Hi3 Hj3 Hset Hcp Hline) as Hold.
      pose proof (Hinv _ _ _ _ Hr Hc Hsub Hne Hold). congruence.
  - rewrite (get2_set4_ne (blocks_state_3x3 s) (row / 3) (col / 3) (row mod 3)
               (col mod 3) (current_player s) (blocks_state_3x3 s') r c) in Hblock;
      [|lia..|exact Hstate|done].
    pose proof (Hinv _ _ _ _ Hr Hc Hblock Hne Hline) as Hb.
    destruct won3.
    + destruct Hsteps as (b3 & st9 & won9 & Hb3 & _ & -> & _).
      rewrite (get2_set2_ne (blocks_3x3 s) (row / 3) (col / 3) (current_player s)
                 b3 r c); [done|lia..|exact Hb3|done].
    + destruct Hsteps as (-> & _). done.
Qed.

Lemma macro_lines_recorded_move s row col ok s' :
  wf_shape s → player_and_status_ok s → macro_lines_recorded s →
  make_move s row col = Some (ok, s') → macro_lines_recorded s'.
Proof.
  intros Hwf [Hplayer _] Hinv [[-> ->]|(-> & Hall & Happ)]%make_move_inv; [done|].
  pose proof Hall as (_ & [Hrow Hcol] & _).
  pose proof (apply_move_wf _ _ _ _ _ Hwf (proj1 Hrow) (proj1 Hcol) Happ) as Hwf'.
  pose proof (apply_move_steps _ _ _ _ _ Happ) as (s1 & won3 & Hplace & Hcheck & Hsteps).
  assert (current_player s ≠ "") as Hcp0 by (by destruct Hplayer as [-> | ->]).
  intros r c block mark Hr Hc Hblock Hne Hline.
  destruct won3; cycle 1.
  { destruct Hsteps as (_ & Hst9 & Hb9 & _). rewrite Hst9 in Hblock. rewrite Hb9.
    by eapply Hinv. }
  destruct Hsteps as (b3 & st9 & won9 & Hb3 & Hst9 & Hb3' & Hst9' & Hcheck9 & Hsteps).
  assert (0 ≤ row / 9 ∧ 0 ≤ col / 9 ∧ 0 ≤ (row / 3) mod 3 ∧ 0 ≤ (col / 3) mod 3)
    as (Hr9 & Hc9 & Hi9 & Hj9) by (Z.div_mod_to_equations; lia).
  rewrite Hst9' in Hblock.
  destruct (decide (r = row / 9 ∧ c = col / 9)) as [[-> ->]|Hother].
  - destruct (set4_sub _ _ _ _ _ _ _ Hr9 Hc9 Hst9) as (sub & sub' & Hsub & Hset & Hsub').
    assert (block = sub') as -> by congruence.
    destruct won9.
    + destruct Hsteps as (b9 & game_won & Hb9 & -> & _).
      exists (current_player s). split; [|done].
      by apply (get2_set2_eq _ _ _ _ _ Hr9 Hc9 Hb9).
    + destruct Hsteps as (-> & _).
      assert (is_grid 3 3 sub') as Hgrid.
      { destruct Hwf' as (_ & _ & _ & _ & [_ Hall9]). rewrite Hst9' in Hall9.
        by apply (get2_sub_grid 3 3 _ _ _ _ Hall9 Hr9 Hc9 Hsub'). }
      rewrite (check_block_9x9_win_eq _ _ _ sub') in Hcheck9; [|done..].
      apply place_fields in Hplace as (_ & _ & _ & _ & _ & Hcp & _).
      simpl_fields. rewrite Hcp in Hcheck9.
      destruct (decide (current_player s = mark)) as [<-|Hcp']; [congruence|].
      pose proof (line_complete_set2_inv _ _ _ _ _ _ Hi9 Hj9 Hset Hcp' Hline) as Hold.
      by apply (Hinv _ _ _ _ Hr Hc Hsub Hne Hold).
  - rewrite (get2_set4_ne (blocks_state_9x9 s) (row / 9) (col / 9) ((row / 3) mod 3)
               ((col / 3) mod 3) (current_player s) st9 r c) in Hblock;
      [|lia..|exact Hst9|done].
    destruct (Hinv _ _ _ _ Hr Hc Hblock Hne Hline) as (winner & Hwinner & Hw).
    exists winner. split; [|done].
    destruct won9.
    + destruct Hsteps as (b9 & game_won & Hb9 & -> & _).
      rewrite (get2_set2_ne (blocks_9x9 s) (row / 9) (col / 9) (current_player s)
                 b9 r c); [done|lia..|exact Hb9|done].
    + destruct Hsteps as (-> & _). done.
Qed.

Lemma game_lines_recorded_move s row col ok s' :
  wf_shape s → game_lines_recorded s →
  make_move s row col = Some (ok, s') → game_lines_recorded s'.
Proof.
  intros Hwf Hinv [[-> ->]|(-> & Hall & Happ)]%make_move_inv; [done|].
  pose proof Hall as (Hplaying & [Hrow Hcol] & _). unfold check1 in Hplaying.
  pose proof (apply_move_wf _ _ _ _ _ Hwf (proj1 Hrow) (proj1 Hcol) Happ) as Hwf'.
  pose proof (apply_move_steps _ _ _ _ _ Happ) as (s1 & won3 & Hplace & Hcheck & Hsteps).
  assert (∀ mark, mark ≠ "" → line_complete (blocks_9x9 s) mark = false) as Hnone.
  { intros mark Hne. apply not_true_is_false. intros Hline.
    specialize (Hinv mark Hne Hline). rewrite Hplaying in Hinv.
    by apply (wins_is_not_playing mark). }
  assert (0 ≤ row / 9 ∧ 0 ≤ col / 9) as [Hr9 Hc9] by (Z.div_mod_to_equations; lia).
  intros mark Hne Hline.
  destruct won3; cycle 1.
  { destruct Hsteps as (_ & _ & Hb9 & _). rewrite Hb9, Hnone in Hline; done. }
  destruct Hsteps as (b3 & st9 & won9 & _ & _ & _ & _ & _ & Hsteps).
  destruct won9; cycle 1.
  { destruct Hsteps as (Hb9 & _). rewrite Hb9, Hnone in Hline; done. }
  destruct Hsteps as (b9 & game_won & Hb9 & Hb9' & Hgame & Hsteps).
  rewrite Hb9' in Hline.
  destruct (decide (current_player s = mark)) as [<-|Hcp].
  - rewrite check_game_win_eq in Hgame.
    2:{ simpl_fields. destruct Hwf' as (_ & _ & Hg & _). by rewrite Hb9' in Hg. }
    simpl_fields.
    apply place_fields in Hplace as (_ & _ & _ & _ & _ & Hcp & _).
    rewrite Hcp, Hline in Hgame. injection Hgame as <-. by destruct Hsteps.
  - pose proof (line_complete_set2_inv _ _ _ _ _ _ Hr9 Hc9 Hb9 Hcp Hline) as Hold.
    by rewrite Hnone in Hold.
Qed.

Lemma reachable_micro_lines_recorded s : reachable s → micro_lines_recorded s.
Proof.
  induction 1 as [|s row col ok s' Hreach IH Hmove|s _ _].
  - exact micro_lines_recorded_init.
  - exact (micro_lines_recorded_move _ _ _ _ _ (reachable_wf _ Hreach) IH Hmove).
  - exact micro_lines_recorded_init.
Qed.

Lemma reachable_macro_lines_recorded s : reachable s → macro_lines_recorded s.
Proof.
  induction 1 as [|s row col ok s' Hreach IH Hmove|s _ _].
  - exact macro_lines_recorded_init.
  - exact (macro_lines_recorded_move _ _ _ _ _ (reachable_wf _ Hreach)
             (reachable_player_and_status_ok _ Hreach) IH Hmove).
  - exact macro_lines_recorded_init.
Qed.

Lemma reachable_game_lines_recorded s : reachable s → game_lines_recorded s.
Proof.
  induction 1 as [|s row col ok s' Hreach IH Hmove|s _ _].
  - exact game_lines_recorded_init.
  - exact (game_lines_recorded_move _ _ _ _ _ (reachable_wf _ Hreach) IH Hmove).
  - exact game_lines_recorded_init.
Qed.

(** In every state reached from a fresh game, three marks of a player in
    a row, a column or a diagonal of a 3x3 block make that player the
    block's recorded winner: no win of a 3x3 block goes unrecorded, and no
    block holds a line of each player. *)
Theorem micro_line_is_recorded s r c block mark :
  reachable s → 0 ≤ r < 9 → 0 ≤ c < 9 →
  get2 (blocks_state_3x3 s) r c = Some block → mark ≠ "" → has_line block mark →
  get2 (blocks_3x3 s) r c = Some mark.
Proof.
  intros Hreach Hr Hc Hblock Hne Hline%line_complete_iff.
  by apply (reachable_micro_lines_recorded s Hreach r c block mark).
Qed.

(** The 3x3 block (4, 1) after the 26 moves of [moves_free_choice]: O holds
    its left column. *)
Lemma micro_line_is_recorded_witness :
  get2 (blocks_3x3 free_choice) 4 1 = Some "O".
Proof.
  eapply (micro_line_is_recorded free_choice 4 1 _ "O" free_choice_reachable);
    [lia|lia|vm_compute; reflexivity|discriminate|].
  apply line_complete_iff. vm_compute. reflexivity.
Defined.

(** In every state reached from a fresh game, a 9x9 block in which a
    player holds three 3x3 blocks in a row, a column or a diagonal has a
    recorded winner.  The winner need not be that player: it is the one who
    completed a line last. *)
Theorem macro_line_is_recorded s r c block mark :
  reachable s → 0 ≤ r < 3 → 0 ≤ c < 3 →
  get2 (blocks_state_9x9 s) r c = Some block → mark ≠ "" → has_line block mark →
  ∃ winner, get2 (blocks_9x9 s) r c = Some winner ∧ winner ≠ "".
Proof.
  intros Hreach Hr Hc Hblock Hne Hline%line_complete_iff.
  by apply (reachable_macro_lines_recorded s Hreach r c block mark).
Qed.

(** The 9x9 block (1, 1) after the 42 moves of the game of
    [moves_overwrite]: X holds a line in it, and so does O. *)
Lemma macro_line_is_recorded_witness :
  ∃ winner,
    get2 (blocks_9x9 (default __init__ (play before_overwrite [(15, 16)]))) 1 1
    = Some winner ∧ winner ≠ "".
Proof.
  eapply (macro_line_is_recorded _ 1 1 _ "X");
    [|lia|lia|vm_compute; reflexivity|discriminate|].
  - apply (play_reachable before_overwrite [(15, 16)]);
      [exact before_overwrite_reachable|vm_compute; reflexivity].
  - apply line_complete_iff. vm_compute. reflexivity.
Defined.

(** In every state reached from a fresh game, a player who holds three
    9x9 blocks in a row, a column or a diagonal has won: the game never
    goes on past such a line, and the two players never hold one each. *)
Theorem macro_line_ends_the_game s mark :
  reachable s → mark ≠ "" → has_line (blocks_9x9 s) mark →
  status s = mark +:+ "_wins".
Proof.
  intros Hreach Hne Hline%line_complete_iff.
  by apply (reachable_game_lines_recorded s Hreach mark).
Qed.

(** The state after X's winning move (0, 4) of the 67-move game. *)
Lemma macro_line_ends_the_game_witness :
  status (default __init__ (play before_win [(0, 4)])) = "X_wins".
Proof.
  apply (macro_line_ends_the_game _ "X"); [|discriminate|].
  - apply (play_reachable before_win [(0, 4)]); [exact before_win_reachable|].
    vm_compute. reflexivity.
  - apply line_complete_iff. vm_compute. reflexivity.
Defined.

(** ** Taking turns *)

Lemma sum_list_insert {A} (f : A → nat) (l : list A) (n : nat) old x :
  l !! n = Some old →
  (sum_list (f <$> <[n:=x]> l) + f old = sum_list (f <$> l) + f x)%nat.
Proof.
  revert n. induction l as [|y l IH]; intros [|n] Hn; simplify_eq/=; [lia|].
  specialize (IH n Hn). lia.
Qed.

Lemma count_insert (mark : string) (row : list string) (n : nat) old x :
  row !! n = Some old →
  (length (filter (λ cell, cell = mark) (<[n:=x]> row)) + (if decide (old = mark) then 1 else 0)
   = length (filter (λ cell, cell = mark) row) + (if decide (x = mark) then 1 else 0))%nat.
Proof.
  revert n. induction row as [|y row IH]; intros [|n] Hn; simplify_eq/=.
  - rewrite !filter_cons. repeat case_decide; simpl; lia.
  - specialize (IH n Hn). rewrite !filter_cons. repeat case_decide; simpl; lia.
Qed.

Lemma count_marks_set2 mark grid r c x grid' old :
  0 ≤ r → 0 ≤ c → set2 grid r c x = Some grid' → get2 grid r c = Some old →
  (count_marks mark grid' + (if decide (old = mark) then 1 else 0)
   = count_marks mark grid + (if decide (x = mark) then 1 else 0))%nat.
Proof.
  intros Hr Hc Hset Hget.
  destruct (set2_Some _ _ _ _ _ Hr Hc Hset) as (row & Hrow & Hlen & ->).
  rewrite get2_nonneg, Hrow in Hget by done. cbn [mbind option_bind] in Hget.
  pose proof (count_insert mark row _ _ x Hget) as Hcell.
  pose proof (sum_list_insert (λ row, length (filter (λ cell, cell = mark) row))
                grid _ _ (<[Z.to_nat c:=x]> row) Hrow) as Hgrid.
  unfold count_marks. lia.
Qed.

Lemma turns_alternate_init : turns_alternate __init__.
Proof. by left. Qed.

Lemma turns_alternate_move s row col ok s' :
  turns_alternate s → make_move s row col = Some (ok, s') → turns_alternate s'.
Proof.
  intros Hinv [[-> ->]|(-> & Hall & Happ)]%make_move_inv; [done|].
  destruct Hall as (Hplaying & [Hrow Hcol] & Hempty & _).
  unfold check1 in Hplaying. unfold check3 in Hempty.
  pose proof (apply_move_writes _ _ _ _ _ Happ) as (_ & Hboard & _).
  pose proof (count_marks_set2 "X" _ _ _ _ _ _ (proj1 Hrow) (proj1 Hcol) Hboard Hempty)
    as Hx.
  pose proof (count_marks_set2 "O" _ _ _ _ _ _ (proj1 Hrow) (proj1 Hcol) Hboard Hempty)
    as Ho.
  unfold turns_alternate in *. cbv zeta in *.
  rewrite bool_decide_true in Hinv by done.
  destruct (apply_move_player _ _ _ _ _ Happ) as [[-> ->]|[-> ->]].
  - rewrite bool_decide_true by done.
    destruct Hinv as [[Hcp Hn]|[Hcp Hn]]; rewrite Hcp in *;
      repeat case_decide; try done; [right|left]; (split; [done|lia]).
  - rewrite bool_decide_false by apply wins_is_not_playing.
    destruct Hinv as [[Hcp Hn]|[Hcp Hn]]; rewrite Hcp in *;
      repeat case_decide; try done; [left|right]; (split; [done|lia]).
Qed.

Lemma reachable_turns_alternate s : reachable s → turns_alternate s.
Proof.
  induction 1 as [|s row col ok s' Hreach IH Hmove|s _ _].
  - exact turns_alternate_init.
  - exact (turns_alternate_move _ _ _ _ _ IH Hmove).
  - exact turns_alternate_init.
Qed.

(** X moves first and the players take turns.  In every state reached
    from a fresh game: while the game goes on, it is X's turn when both
    players have as many marks on the board, and O's turn when X has one
    more; in a finished game the winner is the player with the last mark. *)
Theorem players_take_turns s :
  reachable s →
  (status s = "playing" →
     (current_player s = "X"
      ∧ count_marks "X" (board s) = count_marks "O" (board s))
     ∨ (current_player s = "O"
        ∧ count_marks "X" (board s) = S (count_marks "O" (board s))))
  ∧ (status s ≠ "playing" →
       (current_player s = "X"
        ∧ count_marks "X" (board s) = S (count_marks "O" (board s)))
       ∨ (current_player s = "O"
          ∧ count_marks "X" (board s) = count_marks "O" (board s))).
Proof.
  intros Hreach. pose proof (reachable_turns_alternate s Hreach) as Hinv.
  unfold turns_alternate in Hinv. cbv zeta in Hinv.
  split; intros Hstatus.
  - by rewrite bool_decide_true in Hinv.
  - by rewrite bool_decide_false in Hinv.
Qed.

(** After the 26 moves of [moves_free_choice]: 13 marks each, X to move. *)
Lemma players_take_turns_witness :
  (current_player free_choice = "X"
   ∧ count_marks "X" (board free_choice) = count_marks "O" (board free_choice))
  ∨ (current_player free_choice = "O"
     ∧ count_marks "X" (board free_choice) = S (count_marks "O" (board free_choice))).
Proof.
  apply (players_take_turns free_choice free_choice_reachable).
  vm_compute. reflexivity.
Defined.

(** ** Saving, loading and playing on *)

(** [load_game] on what [save_game] wrote never fails.  It returns the two
    names as given and a state whose board, four winner grids, player and
    status are those saved; the two selectors hold the saved numbers, as
    lists. *)
Theorem load_save_restores_the_game game px po now :
  load_game (save_game game px po now) = Some (listify game, px, po).
Proof. apply load_save. Qed.

Lemma as_list_idemp p : as_list (as_list p) = as_list p.
Proof. by destruct p as [[]|]. Qed.

Lemma listify_idemp s : listify (listify s) = listify s.
Proof. unfold listify. simpl_fields. by rewrite !as_list_idemp. Qed.

(** A loaded game that is saved and loaded again comes back exactly, field
    for field: the round trip only ever changes tuples into lists. *)
Theorem second_round_trip_is_exact game px po now loaded px' po' now' :
  load_game (save_game game px po now) = Some (loaded, px', po') →
  load_game (save_game loaded px' po' now') = Some (loaded, px', po').
Proof.
  rewrite load_save. intros [= <- <- <-].
  exact (eq_trans (load_save (listify game) px po now')
           (f_equal (λ g, Some (g, px, po)) (listify_idemp game))).
Qed.

Lemma second_round_trip_is_exact_witness :
  load_game (save_game (listify after_first_move) "x" "o" "later")
  = Some (listify after_first_move, "x", "o").
Proof.
  apply (second_round_trip_is_exact after_first_move "x" "o" "now").
  apply load_save.
Defined.

(** The same case analysis under a map over the result. *)
Ltac sync_step :=
  match goal with
  | |- _ <$> ?lhs = _ => case_head lhs
  end;
  cbn [fmap option_fmap option_map mbind option_bind fst snd listify as_list unpack];
  simpl_fields; try reflexivity.

(** [make_move] does not tell a list from a tuple.  On a loaded state it
    gives the same answer as on the saved one, and the two states after the
    call are again equal up to the kind of sequence in the selectors. *)
Theorem make_move_after_loading s row col :
  (λ r : bool * GameLogic, (r.1, listify r.2)) <$> make_move (listify s) row col
  = (λ r : bool * GameLogic, (r.1, listify r.2)) <$> make_move s row col.
Proof.
  destruct s as [b b3 b9 s3 s9 cp [[r9 c9|r9 c9]|] [[r3 c3|r3 c3]|] st].
  all: unfold make_move, listify, _check_block_3x3_win, _check_block_9x9_win,
         _check_game_win.
  all: cbn [as_list unpack]; simpl_fields.
  all: repeat sync_step.
Qed.

(** * The window *)

(** ** Buttons in their grids *)

Lemma get2_Forall {A} (P : A → Prop) (g : list (list A)) r c x :
  Forall (Forall P) g → 0 ≤ r → 0 ≤ c → get2 g r c = Some x → P x.
Proof.
  intros Hall Hr Hc Hx. rewrite get2_nonneg in Hx by lia.
  destruct (g !! Z.to_nat r) as [row|] eqn:Hrow; simpl in Hx; [|done].
  eapply Forall_lookup_1; [|exact Hx].
  eapply Forall_lookup_1; [exact Hall|exact Hrow].
Qed.

Lemma set2_Forall {A} (P : A → Prop) (g : list (list A)) r c x g' :
  Forall (Forall P) g → P x → 0 ≤ r → 0 ≤ c → set2 g r c x = Some g' →
  Forall (Forall P) g'.
Proof.
  intros Hall Hx Hr Hc Hset.
  apply set2_Some in Hset as (row & Hrow & Hlt & ->); [|done..].
  apply Forall_insert; [done|].
  apply Forall_insert; [by eapply Forall_lookup_1|done].
Qed.

Lemma for_state_app {A S} (body : S → A → option S) l k self :
  for_state body (l ++ k) self = for_state body l self ≫= for_state body k.
Proof.
  revert self. induction l as [|x l IH]; intros self; simpl; [done|].
  destruct (body self x) as [self'|]; simpl; [apply IH|done].
Qed.

Lemma for_state_fmap {A B S} (body : S → B → option S) (f : A → B) l self :
  for_state body (f <$> l) self = for_state (λ self x, body self (f x)) l self.
Proof.
  revert self. induction l as [|x l IH]; intros self; simpl; [done|].
  destruct (body self (f x)) as [self'|]; simpl; [apply IH|done].
Qed.

(** Two nested loops as one loop over the pairs, row by row. *)
Lemma for_state_nested {A B S} (body : S → A → B → option S) rows cols self :
  for_state (λ self row, for_state (λ self col, body self row col) cols self) rows self
  = for_state (λ self p, body self p.1 p.2) (cprod rows cols) self.
Proof.
  revert self. induction rows as [|row rows IH]; intros self; [done|].
  change (cprod (row :: rows) cols) with (((row,.) <$> cols) ++ cprod rows cols).
  rewrite for_state_app, for_state_fmap. simpl.
  destruct (for_state _ cols self) as [self'|]; simpl; [apply IH|done].
Qed.

Section Board.
Import GameBoard.

Ltac unfold_frames :=
  unfold GameBoard.t, Block9x9Frame.t, Block3x3Frame.t in *.

Lemma cell_path row col :
  0 ≤ row < 27 → 0 ≤ col < 27 →
  (0 ≤ row / 9 < 3 ∧ 0 ≤ col / 9 < 3)
  ∧ (0 ≤ ((row mod 9) / 3) mod 3 < 3 ∧ 0 ≤ ((col mod 9) / 3) mod 3 < 3)
  ∧ (0 ≤ (row mod 9) mod 3 < 3 ∧ 0 ≤ (col mod 9) mod 3 < 3).
Proof. intros Hr Hc. split_and!; Z.div_mod_to_equations; lia. Qed.

Lemma get_cell_button_get4 self row col :
  get_cell_button self row col
  = frame ← get2 self (row / 9) (col / 9);
    get4 frame (((row mod 9) / 3) mod 3) (((col mod 9) / 3) mod 3)
      ((row mod 9) mod 3) ((col mod 9) mod 3).
Proof. reflexivity. Qed.

Lemma get_cell_button_total self row col :
  is_board self → 0 ≤ row < 27 → 0 ≤ col < 27 →
  ∃ btn, get_cell_button self row col = Some btn.
Proof.
  intros [Hgrid Hframes] Hr Hc. rewrite get_cell_button_get4. unfold_frames.
  destruct (cell_path row col Hr Hc) as ([H1 H2] & [H3 H4] & [H5 H6]).
  destruct (get2_in_range 3 3 self (row / 9) (col / 9)) as [frame Hframe];
    [done..|].
  rewrite Hframe. cbn [mbind option_bind].
  pose proof (get2_Forall _ _ _ _ _ Hframes (proj1 H1) (proj1 H2) Hframe)
    as [Hf Hsub].
  unfold get4.
  destruct (get2_in_range 3 3 frame (((row mod 9) / 3) mod 3)
              (((col mod 9) / 3) mod 3)) as [sub Hs]; [done..|].
  rewrite Hs. cbn [mbind option_bind].
  apply (get2_in_range 3 3); [|done..].
  by apply (get2_sub_grid 3 3 _ _ _ _ Hsub (proj1 H3) (proj1 H4) Hs).
Qed.

Lemma put_cell_button_total self row col btn :
  is_board self → 0 ≤ row < 27 → 0 ≤ col < 27 →
  ∃ self', put_cell_button self row col btn = Some self' ∧ is_board self'.
Proof.
  intros [Hgrid Hframes] Hr Hc. unfold put_cell_button. unfold_frames.
  destruct (cell_path row col Hr Hc) as ([H1 H2] & [H3 H4] & [H5 H6]).
  destruct (get2_in_range 3 3 self (row / 9) (col / 9)) as [frame Hframe];
    [done..|].
  rewrite Hframe. cbn [mbind option_bind].
  pose proof (get2_Forall _ _ _ _ _ Hframes (proj1 H1) (proj1 H2) Hframe)
    as [Hf Hsub].
  destruct (set4_in_range 3 3 frame (((row mod 9) / 3) mod 3)
              (((col mod 9) / 3) mod 3) ((row mod 9) mod 3) ((col mod 9) mod 3) btn)
    as [frame' Hframe']; [done..|].
  rewrite Hframe'. cbn [mbind option_bind].
  destruct (set2_in_range 3 3 self (row / 9) (col / 9) frame') as [self' Hself'];
    [done..|].
  exists self'. split; [done|]. split.
  - by apply (set2_is_grid _ _ _ _ _ _ _ Hgrid (proj1 H1) (proj1 H2) Hself').
  - apply (set2_Forall _ _ _ _ _ _ Hframes) with (3 := proj1 H2) (4 := Hself');
      [|lia].
    by apply (set4_shape 3 3 _ _ _ _ _ _ _ Hf Hsub) in Hframe'; [|lia..].
Qed.

Lemma get_put_cell_button self row col btn self' row' col' :
  0 ≤ row < 27 → 0 ≤ col < 27 → 0 ≤ row' < 27 → 0 ≤ col' < 27 →
  put_cell_button self row col btn = Some self' →
  get_cell_button self' row' col'
  = if bool_decide (row' = row ∧ col' = col) then Some btn
    else get_cell_button self row' col'.
Proof.
  intros Hr Hc Hr' Hc'. unfold put_cell_button. rewrite !get_cell_button_get4.
  unfold_frames.
  destruct (cell_path row col Hr Hc) as ([H1 H2] & [H3 H4] & [H5 H6]).
  destruct (cell_path row' col' Hr' Hc') as ([H1' H2'] & [H3' H4'] & [H5' H6']).
  destruct (get2 self (row / 9) (col / 9)) as [frame|] eqn:Hframe;
    cbn [mbind option_bind]; [|done].
  destruct (set4 frame _ _ _ _ btn) as [frame'|] eqn:Hframe';
    cbn [mbind option_bind]; [|done].
  intros Hset.
  rewrite (get2_set2 _ _ _ _ _ (row' / 9) (col' / 9) (proj1 H1) (proj1 H2)
             (proj1 H1') (proj1 H2') Hset).
  destruct (decide (row' / 9 = row / 9 ∧ col' / 9 = col / 9)) as [[E1 E2]|Hne].
  - rewrite bool_decide_true by done. cbn [mbind option_bind].
    rewrite (get4_set4 _ _ _ _ _ _ _ _ _ _ _ (proj1 H3) (proj1 H4) (proj1 H5)
               (proj1 H6) (proj1 H3') (proj1 H4') (proj1 H5') (proj1 H6') Hframe').
    rewrite E1, E2, Hframe. cbn [mbind option_bind].
    destruct (decide (row' = row ∧ col' = col)) as [[-> ->]|Hne].
    + by rewrite !bool_decide_true.
    + rewrite (bool_decide_false (row' = row ∧ col' = col)) by done.
      rewrite bool_decide_false; [done|].
      intros [[E3 E4] [E5 E6]]. apply Hne.
      clear -E1 E2 E3 E4 E5 E6 Hr Hc Hr' Hc'. Z.div_mod_to_equations. lia.
  - rewrite (bool_decide_false (_ ∧ _)) by done.
    rewrite bool_decide_false; [done|]. intros [-> ->]. by apply Hne.
Qed.

End Board.

(** ** Loops over the buttons *)

Section Loops.
Import GameBoard.

(** A loop that mutates the buttons of [cells], each by [mutate]: the
    buttons of the cells are mutated, the others are kept.  Mutating twice
    is mutating once, so a cell may come more than once. *)
Lemma on_cells_effect (mutate : Z → Z → CellButton.t → option CellButton.t)
    (cells : list (Z * Z)) self :
  is_board self →
  (∀ p, p ∈ cells → 0 ≤ p.1 < 27 ∧ 0 ≤ p.2 < 27) →
  (∀ p btn, p ∈ cells →
     ∃ btn', mutate p.1 p.2 btn = Some btn' ∧ mutate p.1 p.2 btn' = Some btn') →
  ∃ self',
    for_state (λ self p, on_cell_button self p.1 p.2 (mutate p.1 p.2)) cells self
    = Some self'
    ∧ is_board self'
    ∧ ∀ row col, 0 ≤ row < 27 → 0 ≤ col < 27 →
        get_cell_button self' row col
        = if bool_decide ((row, col) ∈ cells)
          then get_cell_button self row col ≫= mutate row col
          else get_cell_button self row col.
Proof.
  revert self. induction cells as [|[r c] cells IH]; intros self Hboard Hrange Hmut.
  { exists self. split_and!; [done..|]. intros row col _ _.
    rewrite bool_decide_false; [done|]. apply not_elem_of_nil. }
  destruct (Hrange (r, c)) as [Hr Hc]; [left|]. cbn [fst snd] in Hr, Hc.
  destruct (get_cell_button_total self r c Hboard Hr Hc) as [btn Hbtn].
  destruct (Hmut (r, c) btn) as (btn' & Hbtn' & Hidem); [left|].
  cbn [fst snd] in Hbtn', Hidem.
  destruct (put_cell_button_total self r c btn' Hboard Hr Hc) as (self1 & Hput & Hboard1).
  destruct (IH self1 Hboard1) as (self' & Hloop & Hboard' & Hget).
  { intros p Hp. apply Hrange. by right. }
  { intros p b Hp. apply Hmut. by right. }
  exists self'. split_and!; [|done|].
  { assert (on_cell_button self r c (mutate r c) = Some self1) as Hstep.
    { unfold on_cell_button. rewrite Hbtn. cbn [mbind option_bind].
      rewrite Hbtn'. exact Hput. }
    cbn [for_state fst snd]. rewrite Hstep. exact Hloop. }
  intros row col Hrow Hcol. rewrite (Hget row col Hrow Hcol).
  rewrite (get_put_cell_button _ _ _ _ _ row col Hr Hc Hrow Hcol Hput).
  destruct (decide (row = r ∧ col = c)) as [[-> ->]|Hne].
  - rewrite (bool_decide_true (r = r ∧ c = c)) by done.
    rewrite (bool_decide_true ((r, c) ∈ (r, c) :: cells)) by left.
    rewrite Hbtn. cbn [mbind option_bind]. rewrite Hbtn', Hidem.
    by case_bool_decide.
  - rewrite (bool_decide_false (row = r ∧ col = c)) by done.
    rewrite (bool_decide_ext ((row, col) ∈ (r, c) :: cells) ((row, col) ∈ cells));
      [done|].
    rewrite elem_of_cons. split; [|by right].
    intros [[= -> ->]|?]; [by destruct Hne|done].
Qed.

Lemma elem_of_range n i : i ∈ range n ↔ 0 ≤ i < Z.of_nat n.
Proof. unfold range. rewrite elem_of_seqZ. lia. Qed.

(** The same for two nested loops over [range(n)] that walk the square of
    cells with corner [(top, left)]. *)
Lemma on_square_effect (mutate : Z → Z → CellButton.t → option CellButton.t)
    (top left : Z) (n : nat) self :
  is_board self →
  0 ≤ top → top + Z.of_nat n ≤ 27 → 0 ≤ left → left + Z.of_nat n ≤ 27 →
  (∀ row col btn, top ≤ row < top + Z.of_nat n → left ≤ col < left + Z.of_nat n →
     ∃ btn', mutate row col btn = Some btn' ∧ mutate row col btn' = Some btn') →
  ∃ self',
    for_state (λ self local_row,
      for_state (λ self local_col,
        on_cell_button self (top + local_row) (left + local_col)
          (mutate (top + local_row) (left + local_col)))
      (range n) self) (range n) self
    = Some self'
    ∧ is_board self'
    ∧ ∀ row col, 0 ≤ row < 27 → 0 ≤ col < 27 →
        get_cell_button self' row col
        = if bool_decide (top ≤ row < top + Z.of_nat n ∧ left ≤ col < left + Z.of_nat n)
          then get_cell_button self row col ≫= mutate row col
          else get_cell_button self row col.
Proof.
  intros Hboard Htop Htop' Hleft Hleft' Hmut.
  rewrite (for_state_nested
             (λ self local_row local_col,
                on_cell_button self (top + local_row) (left + local_col)
                  (mutate (top + local_row) (left + local_col)))).
  pose (cell := λ p : Z * Z, (top + p.1, left + p.2)).
  rewrite <- (for_state_fmap
                (λ self p, on_cell_button self p.1 p.2 (mutate p.1 p.2)) cell).
  assert (∀ row col, (row, col) ∈ cell <$> cprod (range n) (range n)
                     ↔ top ≤ row < top + Z.of_nat n ∧ left ≤ col < left + Z.of_nat n)
    as Helem.
  { intros row col. rewrite list_elem_of_fmap. split.
    - intros ([i j] & [= -> ->] & [Hi Hj]%list_elem_of_cprod).
      apply elem_of_range in Hi, Hj. cbn [fst snd] in *. lia.
    - intros [Hrow Hcol]. exists (row - top, col - left). split.
      + unfold cell. cbn [fst snd]. f_equal; lia.
      + apply list_elem_of_cprod. rewrite !elem_of_range. cbn [fst snd]. lia. }
  destruct (on_cells_effect mutate (cell <$> cprod (range n) (range n)) self Hboard)
    as (self' & Hloop & Hboard' & Hget).
  { intros [row col] [Hrow Hcol]%Helem. cbn [fst snd]. lia. }
  { intros [row col] btn [Hrow Hcol]%Helem. by apply Hmut. }
  exists self'. split_and!; [done..|].
  intros row col Hrow Hcol. rewrite (Hget row col Hrow Hcol).
  by rewrite (bool_decide_ext _ _ (Helem row col)).
Qed.

End Loops.

(** ** What [update_board] does *)

Section UpdateBoard.
Import GameBoard.

Lemma player_clear_highlight btn :
  CellButton.player (CellButton.clear_highlight btn) = CellButton.player btn.
Proof. unfold CellButton.clear_highlight. by case_bool_decide. Qed.

Lemma clear_set_player_idemp btn mark :
  CellButton.clear_highlight
    (CellButton.set_player (CellButton.clear_highlight (CellButton.set_player btn mark))
       mark)
  = CellButton.clear_highlight (CellButton.set_player btn mark).
Proof.
  unfold CellButton.clear_highlight, CellButton.set_player. cbn.
  by repeat case_bool_decide.
Qed.

(** Rewrites the loop of the goal with [H], a statement about the same
    loop up to computation. *)
Ltac rewrite_loop H :=
  match goal with
  | |- context [for_state ?body ?l ?self] =>
      match type of H with
      | for_state _ l self = Some ?self' =>
          let Hl := fresh in
          assert (for_state body l self = Some self') as Hl by exact H;
          rewrite Hl; clear Hl
      end
  end.

(** A loop over a square of cells that highlights the buttons without a
    mark whose cell is [lit]. *)
Lemma highlight_loop_effect (lit : Z → Z → Prop)
    {lit_dec : ∀ row col, Decision (lit row col)}
    (mutate : Z → Z → CellButton.t → option CellButton.t)
    (current_player : string) (top left : Z) (n : nat) self :
  is_board self →
  0 ≤ top → top + Z.of_nat n ≤ 27 → 0 ≤ left → left + Z.of_nat n ≤ 27 →
  (∀ row col btn, 0 ≤ row < 27 → 0 ≤ col < 27 →
     mutate row col btn
     = Some (if bool_decide (CellButton.player btn = "" ∧ lit row col)
             then CellButton.highlight_active btn current_player
             else btn)) →
  ∃ self',
    for_state (λ self local_row,
      for_state (λ self local_col,
        on_cell_button self (top + local_row) (left + local_col)
          (mutate (top + local_row) (left + local_col)))
      (range n) self) (range n) self
    = Some self'
    ∧ is_board self'
    ∧ ∀ row col btn, 0 ≤ row < 27 → 0 ≤ col < 27 →
        get_cell_button self row col = Some btn →
        get_cell_button self' row col
        = Some (if bool_decide
                     (CellButton.player btn = ""
                      ∧ (top ≤ row < top + Z.of_nat n ∧ left ≤ col < left + Z.of_nat n)
                      ∧ lit row col)
                then CellButton.highlight_active btn current_player
                else btn).
Proof.
  intros Hboard Htop Htop' Hleft Hleft' Hmut.
  destruct (on_square_effect mutate top left n self Hboard)
    as (self' & Hloop & Hboard' & Hget); [done..| |].
  { intros row col btn Hrow Hcol. rewrite Hmut by lia. eexists. split; [done|].
    rewrite Hmut by lia. f_equal.
    destruct (decide (CellButton.player btn = "" ∧ lit row col)) as [Hlit|Hlit].
    - rewrite (bool_decide_true (CellButton.player btn = "" ∧ lit row col)) by done.
      by rewrite bool_decide_true.
    - rewrite (bool_decide_false (CellButton.player btn = "" ∧ lit row col)) by done.
      by rewrite bool_decide_false. }
  exists self'. split_and!; [done..|].
  intros row col btn Hrow Hcol Hbtn.
  rewrite (Hget row col Hrow Hcol), Hbtn. cbn [mbind option_bind].
  rewrite Hmut by done. clear.
  repeat case_bool_decide; try done; exfalso; tauto.
Qed.

Lemma update_board_effect game self :
  wf_shape game → selectors_in_range game → is_board self →
  ∃ self',
    update_board game self = Some self'
    ∧ is_board self'
    ∧ ∀ row col btn mark,
        0 ≤ row < 27 → 0 ≤ col < 27 →
        get_cell_button self row col = Some btn →
        get2 (board game) row col = Some mark →
        get_cell_button self' row col
        = Some (let btn := CellButton.clear_highlight (CellButton.set_player btn mark) in
                if bool_decide (highlighted game row col)
                then CellButton.highlight_active btn (current_player game)
                else btn).
Proof.
  intros Hwf [Hsel9 Hsel3] Hboard.
  pose proof Hwf as (Hb & Hb3 & Hb9 & _).
  (* the first loop *)
  destruct (on_square_effect
              (λ row col btn,
                 mark ← get2 (board game) row col;
                 Some (CellButton.clear_highlight (CellButton.set_player btn mark)))
              0 0 27 self Hboard) as (self1 & Hloop1 & Hboard1 & Hget1); [lia..| |].
  { intros row col btn Hrow Hcol.
    destruct (get2_in_range 27 27 (board game) row col) as [mark Hmark];
      [done|lia..|].
    rewrite Hmark. cbn [mbind option_bind]. eexists. split; [done|].
    by rewrite clear_set_player_idemp. }
  assert (∀ row col btn mark,
            0 ≤ row < 27 → 0 ≤ col < 27 →
            get_cell_button self row col = Some btn →
            get2 (board game) row col = Some mark →
            get_cell_button self1 row col
            = Some (CellButton.clear_highlight (CellButton.set_player btn mark)))
    as Hshown.
  { intros row col btn mark Hrow Hcol Hbtn Hmark.
    rewrite (Hget1 row col Hrow Hcol), bool_decide_true by lia.
    rewrite Hbtn. cbn [mbind option_bind]. by rewrite Hmark. }
  clear Hget1. unfold update_board. rewrite_loop Hloop1. cbn [mbind option_bind].
  (* what is left once the loop of the branch taken is known *)
  assert (∀ top left n self' (lit : Z → Z → Prop) `{!∀ row col, Decision (lit row col)},
            (∀ row col btn, 0 ≤ row < 27 → 0 ≤ col < 27 →
               get_cell_button self1 row col = Some btn →
               get_cell_button self' row col
               = Some (if bool_decide
                            (CellButton.player btn = ""
                             ∧ (top ≤ row < top + Z.of_nat n
                                ∧ left ≤ col < left + Z.of_nat n)
                             ∧ lit row col)
                       then CellButton.highlight_active btn (current_player game)
                       else btn)) →
            (∀ row col, 0 ≤ row < 27 → 0 ≤ col < 27 →
               highlighted game row col
               ↔ get2 (board game) row col = Some ""
                 ∧ (top ≤ row < top + Z.of_nat n ∧ left ≤ col < left + Z.of_nat n)
                 ∧ lit row col) →
            ∀ row col btn mark,
              0 ≤ row < 27 → 0 ≤ col < 27 →
              get_cell_button self row col = Some btn →
              get2 (board game) row col = Some mark →
              get_cell_button self' row col
              = Some (let btn :=
                        CellButton.clear_highlight (CellButton.set_player btn mark) in
                      if bool_decide (highlighted game row col)
                      then CellButton.highlight_active btn (current_player game)
                      else btn)) as Hfinish.
  { intros top left n self' lit Hdec Hget Hlit row col btn mark Hrow Hcol Hbtn Hmark.
    cbv zeta.
    rewrite (Hget row col _ Hrow Hcol (Hshown row col btn mark Hrow Hcol Hbtn Hmark)).
    rewrite player_clear_highlight.
    change (CellButton.player (CellButton.set_player btn mark)) with mark.
    rewrite (bool_decide_ext _ _ (Hlit row col Hrow Hcol)), Hmark. clear.
    repeat case_bool_decide; try done; exfalso; intuition (simplify_eq; auto). }
  (* the loop over the whole board, taken when no 9x9 block is selected *)
  assert (active_9x9_block game = None →
          ∃ self',
            for_state (λ self row,
              for_state (λ self col,
                on_cell_button self row col (λ btn,
                  if bool_decide (CellButton.player btn = "") then
                    winner_3x3 ← get2 (blocks_3x3 game) (row / 3) (col / 3);
                    if bool_decide (winner_3x3 = "") then
                      winner_9x9 ← get2 (blocks_9x9 game) (row / 9) (col / 9);
                      if bool_decide (winner_9x9 = "")
                      then Some (CellButton.highlight_active btn (current_player game))
                      else Some btn
                    else Some btn
                  else Some btn))
              (range 27) self) (range 27) self1 = Some self'
            ∧ is_board self'
            ∧ ∀ row col btn mark,
                0 ≤ row < 27 → 0 ≤ col < 27 →
                get_cell_button self row col = Some btn →
                get2 (board game) row col = Some mark →
                get_cell_button self' row col
                = Some (let btn :=
                          CellButton.clear_highlight (CellButton.set_player btn mark) in
                        if bool_decide (highlighted game row col)
                        then CellButton.highlight_active btn (current_player game)
                        else btn)) as Hfree.
  { intros Ha9.
    destruct (highlight_loop_effect
                (λ row col,
                   get2 (blocks_3x3 game) (row / 3) (col / 3) = Some ""
                   ∧ get2 (blocks_9x9 game) (row / 9) (col / 9) = Some "")
                (λ row col btn,
                   if bool_decide (CellButton.player btn = "") then
                     winner_3x3 ← get2 (blocks_3x3 game) (row / 3) (col / 3);
                     if bool_decide (winner_3x3 = "") then
                       winner_9x9 ← get2 (blocks_9x9 game) (row / 9) (col / 9);
                       if bool_decide (winner_9x9 = "")
                       then Some (CellButton.highlight_active btn (current_player game))
                       else Some btn
                     else Some btn
                   else Some btn)
                (current_player game) 0 0 27 self1 Hboard1)
      as (self' & Hloop & Hboard' & Hget); [lia..| |].
    { intros row col btn Hrow Hcol.
      destruct (get2_in_range 9 9 (blocks_3x3 game) (row / 3) (col / 3))
        as [w3 Hw3]; [done|Z.div_mod_to_equations; lia..|].
      destruct (get2_in_range 3 3 (blocks_9x9 game) (row / 9) (col / 9))
        as [w9 Hw9]; [done|Z.div_mod_to_equations; lia..|].
      rewrite Hw3, Hw9. cbn [mbind option_bind]. clear.
      repeat case_bool_decide; try done; exfalso; intuition (simplify_eq; auto). }
    exists self'. split; [exact Hloop|]. split; [done|].
    apply (Hfinish _ _ _ _ _ _ Hget).
    intros row col Hrow Hcol. unfold highlighted. rewrite Ha9.
    destruct (active_3x3_block game);
      (split; [intros (? & ? & ?)|intros (? & _ & ? & ?)]);
      split_and!; try done; lia. }
  destruct (active_3x3_block game) as [p3|] eqn:Ha3,
           (active_9x9_block game) as [p9|] eqn:Ha9.
  - (* both selectors: the cells of one 3x3 block *)
    specialize (Hsel9 p9 eq_refl). specialize (Hsel3 p3 eq_refl).
    assert (∀ row col, highlighted game row col
              ↔ get2 (board game) row col = Some ""
                ∧ row / 3 = (unpack p9).1 * 3 + (unpack p3).1
                ∧ col / 3 = (unpack p9).2 * 3 + (unpack p3).2) as Hlit.
    { intros row col. unfold highlighted. by rewrite Ha3, Ha9. }
    revert Hsel9 Hsel3 Hlit.
    destruct (unpack p9) as [block_9x9_row block_9x9_col].
    destruct (unpack p3) as [block_3x3_row block_3x3_col].
    cbn [fst snd]. intros Hsel9 Hsel3 Hlit.
    destruct (highlight_loop_effect (λ _ _, True)
                (λ row col btn,
                   if bool_decide (CellButton.player btn = "")
                   then Some (CellButton.highlight_active btn (current_player game))
                   else Some btn)
                (current_player game)
                ((block_9x9_row * 3 + block_3x3_row) * 3)
                ((block_9x9_col * 3 + block_3x3_col) * 3) 3 self1 Hboard1)
      as (self' & Hloop & Hboard' & Hget); [lia..| |].
    { intros row col btn _ _. clear.
      repeat case_bool_decide; try done; exfalso; tauto. }
    exists self'. split; [by rewrite_loop Hloop|]. split; [done|].
    apply (Hfinish _ _ _ _ _ _ Hget).
    intros row col Hrow Hcol. rewrite Hlit. clear.
    split; intros (? & ?); (split; [done|]); [split; [|done]|];
      Z.div_mod_to_equations; lia.
  - destruct (Hfree eq_refl) as (self' & Hloop & Hrest).
    exists self'. split; [exact Hloop|exact Hrest].
  - (* the 9x9 selector only: the cells of one 9x9 block *)
    specialize (Hsel9 p9 eq_refl).
    assert (∀ row col, highlighted game row col
              ↔ get2 (board game) row col = Some ""
                ∧ (row / 9 = (unpack p9).1 ∧ col / 9 = (unpack p9).2)
                ∧ get2 (blocks_3x3 game) (row / 3) (col / 3) = Some "") as Hlit.
    { intros row col. unfold highlighted. by rewrite Ha3, Ha9. }
    revert Hsel9 Hlit.
    destruct (unpack p9) as [block_9x9_row block_9x9_col].
    cbn [fst snd]. intros Hsel9 Hlit.
    destruct (highlight_loop_effect
                (λ row col, get2 (blocks_3x3 game) (row / 3) (col / 3) = Some "")
                (lit_dec := λ _ _, decide _)
                (λ row col btn,
                   if bool_decide (CellButton.player btn = "") then
                     winner ← get2 (blocks_3x3 game) (row / 3) (col / 3);
                     if bool_decide (winner = "")
                     then Some (CellButton.highlight_active btn (current_player game))
                     else Some btn
                   else Some btn)
                (current_player game)
                (block_9x9_row * 9) (block_9x9_col * 9) 9 self1 Hboard1)
      as (self' & Hloop & Hboard' & Hget); [lia..| |].
    { intros row col btn Hrow Hcol.
      destruct (get2_in_range 9 9 (blocks_3x3 game) (row / 3) (col / 3))
        as [w3 Hw3]; [done|Z.div_mod_to_equations; lia..|].
      rewrite Hw3. cbn [mbind option_bind]. clear.
      repeat case_bool_decide; try done; exfalso; intuition (simplify_eq; auto). }
    exists self'. split; [by rewrite_loop Hloop|]. split; [done|].
    apply (Hfinish _ _ _ _ _ _ Hget).
    intros row col Hrow Hcol. rewrite Hlit. clear.
    split; intros (? & ? & ?); (split; [done|]); (split; [|done]);
      Z.div_mod_to_equations; lia.
  - destruct (Hfree eq_refl) as (self' & Hloop & Hrest).
    exists self'. split; [exact Hloop|exact Hrest].
Qed.

End UpdateBoard.

(** ** Highlighted cells and listed moves *)

Lemma selectors_shaped_in_range s : selectors_shaped s → selectors_in_range s.
Proof.
  intros [H9 H3]. split.
  - intros p Hp. by destruct (H9 p Hp) as (r & c & -> & ? & ?).
  - intros p Hp. by destruct (H3 p Hp) as [(r & c & -> & ? & ?) _].
Qed.

Lemma unpack_as_list p : unpack <$> as_list p = unpack <$> p.
Proof. by destruct p as [[]|]. Qed.

Lemma selectors_in_range_listify s : selectors_in_range s → selectors_in_range (listify s).
Proof.
  intros [H9 H3]. unfold listify. split; simpl_fields.
  - intros p Hp. destruct (active_9x9_block s) as [[r c|r c]|]; simplify_eq/=;
      by apply (H9 _ eq_refl).
  - intros p Hp. destruct (active_3x3_block s) as [[r c|r c]|]; simplify_eq/=;
      by apply (H3 _ eq_refl).
Qed.

Lemma highlighted_listify s row col :
  highlighted (listify s) row col ↔ highlighted s row col.
Proof.
  unfold highlighted, listify. simpl_fields.
  by destruct (active_3x3_block s) as [[]|], (active_9x9_block s) as [[]|].
Qed.

(** On a state of the engine, the cells [update_board] highlights are the
    cells [get_valid_moves] lists. *)
Lemma highlighted_iff_listed s valid_moves row col :
  selectors_shaped s → status s = "playing" →
  get_valid_moves s = Some valid_moves →
  0 ≤ row < 27 → 0 ≤ col < 27 →
  highlighted s row col ↔ (row, col) ∈ valid_moves.
Proof.
  intros [Hsel9 Hsel3] Hst Hvalid Hrow Hcol.
  assert (0 ≤ row / 9 < 3 ∧ 0 ≤ col / 9 < 3 ∧ 0 ≤ (row / 3) mod 3 < 3
          ∧ 0 ≤ (col / 3) mod 3 < 3
          ∧ row / 3 = row / 9 * 3 + (row / 3) mod 3
          ∧ col / 3 = col / 9 * 3 + (col / 3) mod 3)
    as (Hmr & Hmc & Htr & Htc & Er & Ec) by (Z.div_mod_to_equations; lia).
  split.
  - intros [Hcell Hlit]. unfold get_valid_moves in Hvalid.
    rewrite bool_decide_false in Hvalid by (intros Hn; by apply Hn).
    match type of Hvalid with
    | ?m ≫= _ = _ => destruct m as [macros|] eqn:Hmacros
    end; cbn [mbind option_bind] in Hvalid; [|done].
    assert (Tup (row / 9) (col / 9) ∈ macros) as Hb9.
    { destruct (active_9x9_block s) as [p9|] eqn:Ha9.
      - destruct (Hsel9 p9 eq_refl) as (r & c & -> & Hr9 & Hc9).
        injection Hmacros as <-. cbn [unpack fst snd] in Hlit.
        replace (row / 9) with r; [replace (col / 9) with c; [left|]|];
          destruct (active_3x3_block s) as [p3|] eqn:Ha3;
          try (destruct (Hsel3 p3 eq_refl) as [(r3 & c3 & -> & Hr3 & Hc3) _];
               cbn [unpack fst snd] in Hlit);
          destruct Hlit as [Hlit1 Hlit2]; Z.div_mod_to_equations; lia.
      - apply (unwon_9x9_complete _ _ _ _ Hmacros); [done..|].
        by destruct (active_3x3_block s), Hlit. }
    destruct (for_each_elem _ _ _ _ Hvalid Hb9) as (zs & Hzs & Hsub).
    apply Hsub. cbn [unpack] in Hzs.
    match type of Hzs with
    | ?m ≫= _ = _ => destruct m as [blocks|] eqn:Hblocks
    end; cbn [mbind option_bind] in Hzs; [|done].
    assert (Tup ((row / 3) mod 3) ((col / 3) mod 3) ∈ blocks) as Hb3.
    { destruct (if eq_tuple (active_9x9_block s) (row / 9) (col / 9)
                then active_3x3_block s else None) as [p3|] eqn:Hpin.
      - injection Hblocks as <-.
        destruct (active_9x9_block s) as [p9|] eqn:Ha9; [|done].
        destruct (eq_tuple _ _ _); [|done]. rewrite Hpin in Hlit.
        destruct (Hsel3 p3 Hpin) as [(r3 & c3 & -> & Hr3 & Hc3) _].
        destruct (Hsel9 p9 eq_refl) as (r & c & -> & Hr9 & Hc9).
        cbn [unpack fst snd] in Hlit. destruct Hlit as [Hlit1 Hlit2].
        replace ((row / 3) mod 3) with r3 by (Z.div_mod_to_equations; lia).
        replace ((col / 3) mod 3) with c3 by (Z.div_mod_to_equations; lia).
        left.
      - apply (unwon_3x3_complete _ _ _ _ _ _ Hblocks); [done..|].
        rewrite <- Er, <- Ec.
        destruct (active_9x9_block s) as [p9|] eqn:Ha9.
        + destruct (Hsel9 p9 eq_refl) as (r & c & -> & Hr9 & Hc9).
          destruct (active_3x3_block s) as [p3|] eqn:Ha3; [|by destruct Hlit].
          exfalso. cbn [eq_tuple] in Hpin.
          destruct (Hsel3 p3 eq_refl) as [(r3 & c3 & -> & Hr3 & Hc3) _].
          cbn [unpack fst snd] in Hlit. destruct Hlit as [Hlit1 Hlit2].
          rewrite bool_decide_true in Hpin; [done|].
          split; Z.div_mod_to_equations; lia.
        + by destruct (active_3x3_block s), Hlit. }
    destruct (for_each_elem _ _ _ _ Hzs Hb3) as (cells & Hcells & Hsub').
    apply Hsub'. cbn [unpack] in Hcells.
    apply (block_cells_complete _ _ _ _ _ _ Hcells); [|  |done];
      Z.div_mod_to_equations; lia.
  - intros Hin.
    destruct (listed_move_inv _ _ _ _ Hvalid Hin)
      as (_ & b9 & b3 & mr & mc & tr & tc & Hu9 & Hu3 & H9 & H3 & Hr & Hc & Hcell).
    split; [done|].
    destruct (active_9x9_block s) as [p9|] eqn:Ha9.
    + destruct (Hsel9 p9 eq_refl) as (r & c & -> & Hr9 & Hc9). subst b9.
      cbn [unpack] in Hu9. injection Hu9 as <- <-.
      cbn [eq_tuple] in H3. rewrite bool_decide_true in H3 by done.
      destruct (active_3x3_block s) as [p3|] eqn:Ha3.
      * subst b3. rewrite Hu3. cbn [unpack fst snd].
        destruct (Hsel3 p3 eq_refl) as [(r3 & c3 & -> & Hr3 & Hc3) _].
        cbn [unpack] in Hu3. injection Hu3 as <- <-.
        split; Z.div_mod_to_equations; lia.
      * destruct H3 as (-> & Hr3 & Hc3 & Hun). cbn [unpack fst snd].
        split; [split; Z.div_mod_to_equations; lia|].
        replace (row / 3) with (r * 3 + tr) by (Z.div_mod_to_equations; lia).
        by replace (col / 3) with (c * 3 + tc) by (Z.div_mod_to_equations; lia).
    + destruct H9 as (-> & Hr9 & Hc9 & Hun9). cbn [eq_tuple] in H3.
      destruct H3 as (-> & Hr3 & Hc3 & Hun3).
      replace (row / 3) with (mr * 3 + tr) by (Z.div_mod_to_equations; lia).
      replace (col / 3) with (mc * 3 + tc) by (Z.div_mod_to_equations; lia).
      replace (row / 9) with mr by (Z.div_mod_to_equations; lia).
      replace (col / 9) with mc by (Z.div_mod_to_equations; lia).
      by destruct (active_3x3_block s).
Qed.

(** ** The board on the screen *)

Lemma is_board_init : is_board GameBoard.__init__.
Proof. apply (bool_decide_unpack _). vm_compute. exact I. Qed.

(** The button [get_cell_button] returns for a cell of the board is the one
    built with the coordinates of that cell: the coordinates a click on it
    sends are those of the cell it shows. *)
Theorem get_cell_button_finds_its_cell row col :
  0 ≤ row < 27 → 0 ≤ col < 27 →
  GameBoard.get_cell_button GameBoard.__init__ row col
  = Some (CellButton.__init__ row col).
Proof.
  intros Hrow Hcol.
  assert (row ∈ range 27 ∧ col ∈ range 27) as [Hr Hc]
    by (rewrite !elem_of_range; lia).
  assert (Forall (λ row,
            Forall (λ col,
              GameBoard.get_cell_button GameBoard.__init__ row col
              = Some (CellButton.__init__ row col)) (range 27)) (range 27)) as Hall.
  { apply (bool_decide_unpack _). vm_compute. exact I. }
  rewrite Forall_forall in Hall. specialize (Hall row Hr).
  rewrite Forall_forall in Hall. exact (Hall col Hc).
Qed.

Lemma get_cell_button_finds_its_cell_witness :
  GameBoard.get_cell_button GameBoard.__init__ 26 13
  = Some (CellButton.__init__ 26 13).
Proof. apply (get_cell_button_finds_its_cell 26 13); lia. Defined.



(** ** The winner on the screen *)

(** When a game reached from a fresh one is over, the winner the panel
    reads off the status is the player who made the last move, ["X"] or
    ["O"], and the name it shows is the name of that player: the default of
    the lookup is never used. *)
Theorem panel_names_the_winner s player_x_name player_o_name :
  reachable s → status s ≠ "playing" →
  (current_player s = "X" ∨ current_player s = "O")
  ∧ GamePanel.winner s = Some (current_player s)
  ∧ GamePanel.winner_name s player_x_name player_o_name
    = Some (if bool_decide (current_player s = "X")
            then player_x_name else player_o_name).
Proof.
  intros Hreach Hst.
  destruct (reachable_player_and_status_ok s Hreach) as [Hplayer [?|[Hwins _]]];
    [done|].
  split; [done|]. unfold GamePanel.winner_name, GamePanel.winner.
  rewrite Hwins. by destruct Hplayer as [-> | ->].
Qed.

(** The state after X's winning move (0, 4) of the 67-move game. *)
Lemma panel_names_the_winner_witness :
  GamePanel.winner (default __init__ (play before_win [(0, 4)])) = Some "X"
  ∧ GamePanel.winner_name (default __init__ (play before_win [(0, 4)])) "Ann" "Bob"
    = Some "Ann".
Proof.
  destruct (panel_names_the_winner (default __init__ (play before_win [(0, 4)]))
              "Ann" "Bob") as (_ & Hw & Hn).
  - apply (play_reachable before_win [(0, 4)]); [exact before_win_reachable|].
    vm_compute. reflexivity.
  - vm_compute. discriminate.
  - split; [rewrite Hw|rewrite Hn]; vm_compute; reflexivity.
Defined.
